(** * Networked physics: the client connection state machine and the
      lockstep input pipeline

    A shallow embedding of [src/Client.cpp] (protocol::Client) and of the
    lockstep demo ([LockstepInputPacket], [LockstepPlayoutDelayBuffer],
    [LockstepDemo::Update]), followed by the properties of the specification
    that were checked against them.

    Conventions.
    - Fixed-width integers are [Z] with the wrap-around written out
      ([uint16_t], [uint64_t]).
    - [double] values are the kernel's binary64 floats.
    - C arrays are lists read with [!!!] and written with [<[i:=x]>].
    - A routine that can fail (a stream overflow, a failed range check)
      returns [option].
    - Classes of the library whose source is not part of the repository
      snapshot (streams, simulator, channel, resolver, ...) are either
      modelled from the specification, and marked so, or kept abstract
      behind a type class. *)

From Stdlib Require Import ZArith Floats Strings.Byte.
From stdpp Require Import base option list numbers strings.

Open Scope Z_scope.

(* ================================================================== *)
(** * Part I: definitions                                              *)
(* ================================================================== *)

(** ** Machine integers and floating point *)

Definition uint16_t (x : Z) : Z := x mod 2 ^ 16.
Definition uint64_t (x : Z) : Z := x mod 2 ^ 64.

(** Conversion of a [uint64_t] to [double] (round to nearest even).  The
    kernel conversion takes 63 bits; a value with bit 63 set is halved with
    its lowest bit kept sticky, converted, and doubled, which rounds the
    same way. *)
Definition double_of_uint64 (n : Z) : float :=
  if n <? 2 ^ 63 then of_uint63 (Uint63.of_Z n)
  else (of_uint63 (Uint63.of_Z (Z.lor (Z.shiftr n 1) (Z.land n 1))) * 2)%float.

(** Modelled from the spec: [core::sequence_greater_than] (its header is not
    among the sources).  "a > b iff the signed 16-bit difference a - b is
    strictly positive". *)
Definition sequence_greater_than (s1 s2 : Z) : bool :=
  let d := uint16_t (s1 - s2) in
  bool_decide (0 < d < 2 ^ 15).

(** ** game::Input *)

Module game.

(** Modelled from the spec: [game::Input] (Cubes.h is not among the
    sources): the six buttons that [LockstepInputPacket] serialises,
    default-constructed released, and compared field by field by
    [operator !=]. *)
Record Input := mkInput {
  left : bool; right : bool; up : bool; down : bool; push : bool; pull : bool
}.

Definition Input_default : Input := mkInput false false false false false false.

Definition Input_eq (a b : Input) : bool :=
  eqb (left a) (left b) && eqb (right a) (right b) && eqb (up a) (up b) &&
  eqb (down a) (down b) && eqb (push a) (push b) && eqb (pull a) (pull b).

Definition Input_ne (a b : Input) : bool := negb (Input_eq a b).

End game.

Global Instance Input_inhabited : Inhabited game.Input := populate game.Input_default.

(** ** protocol::Stream *)

Module Stream.

(** Modelled from the spec: the bit streams of protocol/Stream.h (not among
    the sources).  §4.1: booleans take one bit, a bounded integer takes
    [ceil (log2 (max - min + 1))] bits, words are written least significant
    bit first, and a stream that runs past its buffer overflows, which
    drops the packet. *)

Fixpoint bits_of_Z (n : nat) (v : Z) : list bool :=
  match n with
  | O => []
  | S n' => Z.odd v :: bits_of_Z n' (v / 2)
  end.

Fixpoint Z_of_bits (l : list bool) : Z :=
  match l with
  | [] => 0
  | b :: l' => Z.b2z b + 2 * Z_of_bits l'
  end.

Fixpoint bytes_of_bits (l : list bool) : list byte :=
  match l with
  | b0 :: b1 :: b2 :: b3 :: b4 :: b5 :: b6 :: b7 :: l' =>
      Byte.of_bits (b0, (b1, (b2, (b3, (b4, (b5, (b6, b7))))))) :: bytes_of_bits l'
  | _ => []
  end.

Definition bits_of_byte (b : byte) : list bool :=
  let '(b0, (b1, (b2, (b3, (b4, (b5, (b6, b7))))))) := Byte.to_bits b in
  [b0; b1; b2; b3; b4; b5; b6; b7].

Definition bits_of_bytes (l : list byte) : list bool := l ≫= bits_of_byte.

(** The operation both stream directions share: [SerializeBits s v n]
    moves the [n]-bit word [v] through the stream.  Writing emits the
    word and hands it back; reading ignores [v] and hands back the word
    it consumed.  [None] is an overflow. *)
Class Stream (St : Type) := {
  IsWriting : bool;
  IsReading : bool;
  SerializeBits : St → Z → nat → option (Z * St)
}.
Global Arguments IsWriting St {_}.
Global Arguments IsReading St {_}.

(** A write stream: the bits written so far, and the size of the buffer
    behind it in bits. *)
Record WriteStream := mkWriteStream { w_bits : list bool; w_capacity : nat }.

Definition WriteStream_new (bytes : Z) : WriteStream :=
  mkWriteStream [] (Z.to_nat (8 * bytes)).

Global Instance WriteStream_Stream : Stream WriteStream := {
  IsWriting := true;
  IsReading := false;
  SerializeBits s v n :=
    if decide (length (w_bits s) + n ≤ w_capacity s)%nat
    then Some (v, mkWriteStream (w_bits s ++ bits_of_Z n v) (w_capacity s))
    else None
}.

(** [Flush] pads the last 32-bit word with zero bits; the bytes leave in
    stream order, least significant bit first. *)
Definition WriteStream_Flush (s : WriteStream) : list byte :=
  let bits := w_bits s in
  bytes_of_bits (bits ++ replicate ((32 - length bits `mod` 32) `mod` 32)%nat false).

(** The flushed bytes land at the start of the caller's buffer; what the
    buffer held beyond them stays. *)
Definition WriteStream_buffer (buffer : list byte) (s : WriteStream) : list byte :=
  let written := WriteStream_Flush s in
  written ++ drop (length written) buffer.

(** A read stream: the bits still to be read. *)
Record ReadStream := mkReadStream { r_bits : list bool }.

Definition ReadStream_new (buffer : list byte) (bytes : Z) : ReadStream :=
  mkReadStream (bits_of_bytes (take (Z.to_nat bytes) buffer)).

Global Instance ReadStream_Stream : Stream ReadStream := {
  IsWriting := false;
  IsReading := true;
  SerializeBits s _ n :=
    if decide (n ≤ length (r_bits s))%nat
    then Some (Z_of_bits (take n (r_bits s)), mkReadStream (drop n (r_bits s)))
    else None
}.

Section Serialize.
Context {St : Type} `{Stream St}.

Definition serialize_uint16 (stream : St) (value : Z) : option (Z * St) :=
  SerializeBits stream value 16.

Definition serialize_bool (stream : St) (value : bool) : option (bool * St) :=
  '(v, stream) ← SerializeBits stream (Z.b2z value) 1;
  Some (negb (v =? 0), stream).

Definition bits_required (min max : Z) : nat :=
  Z.to_nat (Z.log2_up (max - min + 1)).

(** The value travels as its offset from [min]; a value outside
    [min..max] fails the stream (the write side asserts it, the read
    side rejects it). *)
Definition serialize_int (stream : St) (value min max : Z) : option (Z * St) :=
  '(v, stream) ← SerializeBits stream (value - min) (bits_required min max);
  let value := v + min in
  if decide (min ≤ value ≤ max) then Some (value, stream) else None.
End Serialize.

End Stream.

(** ** The lockstep demo *)

Module Lockstep.
Import Stream.

Definition MaxInputs : Z := 256.
Definition LeftPort : Z := 1000.
Definition RightPort : Z := 1001.
Definition MaxPacketSize : Z := 1024.
Definition PlayoutDelayBufferSize : Z := 1024.

(** [0.25f]: exact in binary32, hence in binary64. *)
Definition PlayoutDelay : float := 0.25%float.

(** [1.0f / 60.0f]: the binary32 quotient, 0x3C888889, as a double. *)
Definition one_sixtieth : float := 0x1.111112p-6%float.

Definition LOCKSTEP_PACKET_INPUT : Z := 0.
Definition LOCKSTEP_PACKET_ACK : Z := 1.
Definition LOCKSTEP_NUM_PACKETS : Z := 2.

(** *** LockstepInputPacket *)

Record LockstepInputPacket := mkLockstepInputPacket {
  sequence : Z;                    (* uint16_t *)
  num_inputs : Z;                  (* int *)
  inputs : list game.Input         (* game::Input inputs[MaxInputs] *)
}.

Definition LockstepInputPacket_new : LockstepInputPacket :=
  mkLockstepInputPacket 0 0 (replicate (Z.to_nat MaxInputs) game.Input_default).

Section Serialize.
Context {St : Type} `{Stream St}.

(** The six [serialize_bool] calls on the buttons of one input. *)
Definition serialize_input (stream : St) (input : game.Input)
  : option (game.Input * St) :=
  '(b_left, stream) ← serialize_bool stream (game.left input);
  '(b_right, stream) ← serialize_bool stream (game.right input);
  '(b_up, stream) ← serialize_bool stream (game.up input);
  '(b_down, stream) ← serialize_bool stream (game.down input);
  '(b_push, stream) ← serialize_bool stream (game.push input);
  '(b_pull, stream) ← serialize_bool stream (game.pull input);
  Some (game.mkInput b_left b_right b_up b_down b_push b_pull, stream).

(** [for ( int i = 1; i < num_inputs; ++i )]: [n] iterations are left,
    the next one at index [i]. *)
Fixpoint serialize_inputs_loop (n i : nat) (inputs : list game.Input) (stream : St)
  : option (list game.Input * St) :=
  match n with
  | O => Some (inputs, stream)
  | S n' =>
      let input_changed :=
        if IsWriting St then game.Input_ne (inputs !!! i) (inputs !!! (i - 1)%nat)
        else false in
      '(input_changed, stream) ← serialize_bool stream input_changed;
      '(inputs, stream) ←
        (if input_changed : bool then
           '(input, stream) ← serialize_input stream (inputs !!! i);
           Some (<[i := input]> inputs, stream)
         else if IsReading St then
           Some (<[i := inputs !!! (i - 1)%nat]> inputs, stream)
         else Some (inputs, stream));
      serialize_inputs_loop n' (S i) inputs stream
  end.

(** PROTOCOL_SERIALIZE_OBJECT of [LockstepInputPacket]. *)
Definition LockstepInputPacket_Serialize (stream : St) (p : LockstepInputPacket)
  : option (LockstepInputPacket * St) :=
  '(sequence, stream) ← serialize_uint16 stream (sequence p);
  '(num_inputs, stream) ← serialize_int stream (num_inputs p) 0 MaxInputs;
  if decide (1 ≤ num_inputs) then
    '(input, stream) ← serialize_input stream (inputs p !!! 0%nat);
    '(inputs, stream) ←
      serialize_inputs_loop (Z.to_nat (num_inputs - 1)) 1
                            (<[0%nat := input]> (inputs p)) stream;
    Some (mkLockstepInputPacket sequence num_inputs inputs, stream)
  else Some (mkLockstepInputPacket sequence num_inputs (inputs p), stream).
End Serialize.

(** *** LockstepAckPacket and the packet factory *)

Record LockstepAckPacket := mkLockstepAckPacket { ack : Z (* uint16_t *) }.

Definition LockstepAckPacket_Serialize {St : Type} `{Stream St}
    (stream : St) (p : LockstepAckPacket) : option (LockstepAckPacket * St) :=
  '(ack, stream) ← serialize_uint16 stream (ack p);
  Some (mkLockstepAckPacket ack, stream).

Inductive Packet :=
| InputPacket (p : LockstepInputPacket)
| AckPacket (p : LockstepAckPacket).

Definition GetType (p : Packet) : Z :=
  match p with
  | InputPacket _ => LOCKSTEP_PACKET_INPUT
  | AckPacket _ => LOCKSTEP_PACKET_ACK
  end.

(** [LockstepPacketFactory::CreateInternal]. *)
Definition Create (type : Z) : option Packet :=
  if decide (type = LOCKSTEP_PACKET_INPUT) then Some (InputPacket LockstepInputPacket_new)
  else if decide (type = LOCKSTEP_PACKET_ACK) then Some (AckPacket (mkLockstepAckPacket 0))
  else None.

(** The virtual [SerializeWrite] / [SerializeRead] of a packet. *)
Definition Packet_Serialize {St : Type} `{Stream St} (stream : St) (p : Packet)
  : option (Packet * St) :=
  match p with
  | InputPacket q =>
      '(q, stream) ← LockstepInputPacket_Serialize stream q; Some (InputPacket q, stream)
  | AckPacket q =>
      '(q, stream) ← LockstepAckPacket_Serialize stream q; Some (AckPacket q, stream)
  end.

Definition SerializeWrite (stream : WriteStream) (p : Packet) : option WriteStream :=
  snd <$> Packet_Serialize stream p.

Definition SerializeRead (stream : ReadStream) (p : Packet) : option Packet :=
  fst <$> Packet_Serialize stream p.

(** *** LockstepPlayoutDelayBuffer *)

Section PlayoutDelayBuffer.
(** The buffer only stores and copies inputs, so it is kept generic in
    their type; the demo instantiates it with [game.Input]. *)
Context {A : Type} `{Inhabited A}.

(** [MaxSimFrames] is declared in a header that is not among the
    sources; it is a parameter of [GetFrames]. *)
Variable MaxSimFrames : Z.

Record LockstepPlayoutDelayBuffer := mkLockstepPlayoutDelayBuffer {
  stopped : bool;
  start_time : float;            (* double *)
  most_recent_input : Z;         (* uint16_t *)
  frame : Z;                     (* uint64_t *)
  input_queue : list A           (* core::Queue<game::Input>, front first *)
}.

Definition LockstepPlayoutDelayBuffer_new : LockstepPlayoutDelayBuffer :=
  mkLockstepPlayoutDelayBuffer true 0%float 0 0 [].

(** One iteration of the loop of [AddInputs], at index [i]. *)
Definition AddInputs_body (first_input_sequence : Z) (inputs : list A) (i : nat)
    (b : LockstepPlayoutDelayBuffer) : LockstepPlayoutDelayBuffer :=
  let sequence := uint16_t (first_input_sequence + Z.of_nat i) in
  if decide (sequence = most_recent_input b) then
    mkLockstepPlayoutDelayBuffer (stopped b) (start_time b)
      (uint16_t (sequence + 1)) (frame b) (input_queue b ++ [inputs !!! i])
  else b.

(** [for ( int i = 0; i < num_inputs; ++i )]: [n] iterations are left,
    the next one at index [i]. *)
Fixpoint AddInputs_loop (n i : nat) (first_input_sequence : Z) (inputs : list A)
    (b : LockstepPlayoutDelayBuffer) : LockstepPlayoutDelayBuffer :=
  match n with
  | O => b
  | S n' =>
      AddInputs_loop n' (S i) first_input_sequence inputs
                     (AddInputs_body first_input_sequence inputs i b)
  end.

(** [CORE_ASSERT( num_inputs > 0 )] is a debug check and is left out: with
    [num_inputs <= 0] the loop does not run. *)
Definition AddInputs (time : float) (sequence num_inputs : Z) (inputs : list A)
    (b : LockstepPlayoutDelayBuffer) : LockstepPlayoutDelayBuffer :=
  let b :=
    if stopped b then
      mkLockstepPlayoutDelayBuffer false time (most_recent_input b) (frame b)
                                   (input_queue b)
    else b in
  let first_input_sequence := uint16_t (sequence - num_inputs) in
  AddInputs_loop (Z.to_nat num_inputs) 0 first_input_sequence inputs b.

(** [start_time + ( frame + 0.5 ) * ( 1.0f / 60.0f ) + PlayoutDelay]:
    the time from which the frame numbered [frame] may be played. *)
Definition play_time (start_time : float) (frame : Z) : float :=
  (start_time + (double_of_uint64 frame + 0.5) * one_sixtieth + PlayoutDelay)%float.

Definition frame_time (b : LockstepPlayoutDelayBuffer) : float :=
  play_time (start_time b) (frame b).

(** [frame++] on a [uint64_t]. *)
Definition next_frame (frame : Z) : Z := uint64_t (frame + 1).

(** [for ( int i = 0; i < MaxSimFrames; ++i )]: [n] iterations are left;
    [frame_input] holds the entries [0..num_frames) written so far. *)
Fixpoint GetFrames_loop (n : nat) (time : float) (b : LockstepPlayoutDelayBuffer)
    (num_frames : Z) (frame_input : list A)
  : LockstepPlayoutDelayBuffer * Z * list A :=
  match n with
  | O => (b, num_frames, frame_input)
  | S n' =>
      if (time <? frame_time b)%float then (b, num_frames, frame_input)
      else
        match input_queue b with
        | [] => (b, num_frames, frame_input)
        | input :: queue =>
            GetFrames_loop n' time
              (mkLockstepPlayoutDelayBuffer (stopped b) (start_time b)
                 (most_recent_input b) (next_frame (frame b)) queue)
              (num_frames + 1) (frame_input ++ [input])
        end
  end.

(** The result is the buffer, [num_frames], and the entries of
    [frame_input] that were written. *)
Definition GetFrames (time : float) (b : LockstepPlayoutDelayBuffer)
  : LockstepPlayoutDelayBuffer * Z * list A :=
  if stopped b then (b, 0, [])
  else GetFrames_loop (Z.to_nat MaxSimFrames) time b 0 [].
End PlayoutDelayBuffer.

Global Arguments LockstepPlayoutDelayBuffer A : clear implicits.
Global Arguments mkLockstepPlayoutDelayBuffer {A}.
Global Arguments LockstepPlayoutDelayBuffer_new {A}.

(** *** network::Simulator and the sliding window *)

(** Modelled from the spec: [network::Simulator] (§4.2; its source is not
    among the sources), as far as [LockstepDemo::Update] uses it: the TCP
    mode flag, the packets [ReceivePacket] hands out this tick, each with
    the port of its address, and the packets passed to [SendPacket]. *)
Record Simulator := mkSimulator {
  tcp_mode : bool;
  sim_queue : list (Z * Packet);
  sim_sent : list (Z * Packet)
}.

Definition GetTCPMode (s : Simulator) : bool := tcp_mode s.

Definition SendPacket (port : Z) (p : Packet) (s : Simulator) : Simulator :=
  mkSimulator (tcp_mode s) (sim_queue s) (sim_sent s ++ [(port, p)]).

(** [protocol::RealSlidingWindow] (not among the sources) stays abstract:
    the receive loop only forwards acks to it. *)
Class SlidingWindow (W : Type) := { SlidingWindow_Ack : Z → W → W }.

(** *** LockstepDemo::Update, from the receive loop on *)

Section Update.
Context {W : Type} `{SlidingWindow W}.
Variable MaxSimFrames : Z.

Record LockstepInternal := mkLockstepInternal {
  input_sliding_window : W;
  playout_delay_buffer : LockstepPlayoutDelayBuffer game.Input;
  network_simulator : Simulator
}.

(** The locals of [Update] that live across the receive loop. *)
Record ReceiveLocals := mkReceiveLocals {
  received_input_this_frame : bool;
  ack_sequence : Z;              (* uint16_t *)
  buffer : list byte             (* uint8_t buffer[MaxPacketSize] *)
}.

(** The packet is written to [buffer], destroyed, and read back into a
    packet of the same type. *)
Definition reserialize (buffer : list byte) (packet : Packet)
  : option (Packet * list byte) :=
  write_stream ← SerializeWrite (WriteStream_new MaxPacketSize) packet;
  let buffer := WriteStream_buffer buffer write_stream in
  read_packet ← Create (GetType packet);
  read_packet ← SerializeRead (ReadStream_new buffer MaxPacketSize) read_packet;
  Some (read_packet, buffer).

(** What the loop does with one input packet for the right simulation. *)
Definition receive_input (time : float) (input_packet : LockstepInputPacket)
    (l : LockstepInternal) (r : ReceiveLocals) : LockstepInternal * ReceiveLocals :=
  let r :=
    if negb (GetTCPMode (network_simulator l)) then
      if negb (received_input_this_frame r) then
        mkReceiveLocals true (uint16_t (sequence input_packet - 1)) (buffer r)
      else if sequence_greater_than (uint16_t (sequence input_packet - 1))
                                    (ack_sequence r) then
        mkReceiveLocals (received_input_this_frame r)
                        (uint16_t (sequence input_packet - 1)) (buffer r)
      else r
    else r in
  (mkLockstepInternal (input_sliding_window l)
     (AddInputs time (sequence input_packet) (num_inputs input_packet)
                (inputs input_packet) (playout_delay_buffer l))
     (network_simulator l), r).

(** The body of the [while ( true )] loop for one received packet. *)
Definition receive_packet (time : float) (received : Z * Packet)
    (l : LockstepInternal) (r : ReceiveLocals)
  : option (LockstepInternal * ReceiveLocals) :=
  let '(port, packet) := received in
  let type := GetType packet in
  '(read_packet, buffer) ← reserialize (buffer r) packet;
  let r := mkReceiveLocals (received_input_this_frame r) (ack_sequence r) buffer in
  if bool_decide (type = LOCKSTEP_PACKET_INPUT) && bool_decide (port = RightPort) then
    match read_packet with
    | InputPacket input_packet => Some (receive_input time input_packet l r)
    | _ => Some (l, r)
    end
  else if bool_decide (type = LOCKSTEP_PACKET_ACK) && bool_decide (port = LeftPort)
          && negb (GetTCPMode (network_simulator l)) then
    match read_packet with
    | AckPacket ack_packet =>
        Some (mkLockstepInternal
                (SlidingWindow_Ack (ack ack_packet) (input_sliding_window l))
                (playout_delay_buffer l) (network_simulator l), r)
    | _ => Some (l, r)
    end
  else Some (l, r).

(** The loop runs until [ReceivePacket] returns null, that is over the
    packets the simulator holds for this tick. *)
Fixpoint receive_loop (time : float) (queue : list (Z * Packet))
    (l : LockstepInternal) (r : ReceiveLocals)
  : option (LockstepInternal * ReceiveLocals) :=
  match queue with
  | [] => Some (l, r)
  | received :: queue =>
      '(l, r) ← receive_packet time received l r;
      receive_loop time queue l r
  end.

(** Lines 319 to 399 of [LockstepDemo::Update]: drain the simulator,
    send the ack, fetch the frames to simulate.  [buffer0] is what the
    stack buffer holds on entry.  [None] is a failed [CORE_CHECK]. *)
Definition Update_receive (time : float) (buffer0 : list byte) (l : LockstepInternal)
  : option (LockstepInternal * Z * list game.Input) :=
  let sim := network_simulator l in
  let l := mkLockstepInternal (input_sliding_window l) (playout_delay_buffer l)
                              (mkSimulator (tcp_mode sim) [] (sim_sent sim)) in
  '(l, r) ← receive_loop time (sim_queue sim) l (mkReceiveLocals false 0 buffer0);
  let l :=
    if received_input_this_frame r then
      mkLockstepInternal (input_sliding_window l) (playout_delay_buffer l)
        (SendPacket LeftPort (AckPacket (mkLockstepAckPacket (ack_sequence r)))
                    (network_simulator l))
    else l in
  let '(b, num_frames, frame_input) :=
    GetFrames MaxSimFrames time (playout_delay_buffer l) in
  Some (mkLockstepInternal (input_sliding_window l) b (network_simulator l),
        num_frames, frame_input).
End Update.

Global Arguments LockstepInternal W : clear implicits.
Global Arguments mkLockstepInternal {W}.

End Lockstep.

(** Statements in sequence: [c |> f |> g] is [g (f c)]. *)
Notation "c |> f" := (f c) (at level 45, left associativity, only parsing).

(** ** protocol::Client *)

Module Client.

(** Modelled from the spec: the enumerations of Client.h (not among the
    sources), in the order §3 and §7 give them. *)
Inductive ClientState :=
| CLIENT_STATE_DISCONNECTED
| CLIENT_STATE_RESOLVING_HOSTNAME
| CLIENT_STATE_SENDING_CONNECTION_REQUEST
| CLIENT_STATE_SENDING_CHALLENGE_RESPONSE
| CLIENT_STATE_SENDING_CLIENT_DATA
| CLIENT_STATE_READY_FOR_CONNECTION
| CLIENT_STATE_CONNECTED.

Definition ClientState_value (s : ClientState) : Z :=
  match s with
  | CLIENT_STATE_DISCONNECTED => 0
  | CLIENT_STATE_RESOLVING_HOSTNAME => 1
  | CLIENT_STATE_SENDING_CONNECTION_REQUEST => 2
  | CLIENT_STATE_SENDING_CHALLENGE_RESPONSE => 3
  | CLIENT_STATE_SENDING_CLIENT_DATA => 4
  | CLIENT_STATE_READY_FOR_CONNECTION => 5
  | CLIENT_STATE_CONNECTED => 6
  end.

Inductive ClientError :=
| CLIENT_ERROR_NONE
| CLIENT_ERROR_RESOLVE_HOSTNAME_FAILED
| CLIENT_ERROR_RESOLVE_HOSTNAME_TIMED_OUT
| CLIENT_ERROR_INVALID_CONNECT_ADDRESS
| CLIENT_ERROR_MISSING_RESOLVER
| CLIENT_ERROR_CONNECTION_REQUEST_DENIED
| CLIENT_ERROR_CONNECTION_TIMED_OUT
| CLIENT_ERROR_CONNECTION_ERROR
| CLIENT_ERROR_DISCONNECTED_FROM_SERVER
| CLIENT_ERROR_DATA_BLOCK_ERROR.

Inductive ResolveStatus := RESOLVE_PENDING | RESOLVE_SUCCEEDED | RESOLVE_FAILED.

Global Instance ClientState_eq_dec : EqDecision ClientState.
Proof. solve_decision. Defined.
Global Instance ClientError_eq_dec : EqDecision ClientError.
Proof. solve_decision. Defined.
Global Instance ResolveStatus_eq_dec : EqDecision ResolveStatus.
Proof. solve_decision. Defined.

Definition uint32_t (x : Z) : Z := x mod 2 ^ 32.

Definition CONNECTION_ERROR_NONE : Z := 0.

Record TimeBase := mkTimeBase { time : float; deltaTime : float }.

(** The plain values of [ClientConfig].  Its pointers to shared objects
    (network interface, resolver) are members of the client model below;
    of [clientData] only the block itself is kept. *)
Record ClientConfig := mkClientConfig {
  clientData : option (list byte);
  fragmentSize : Z;
  fragmentsPerSecond : Z;
  maxServerDataSize : Z;
  connectingSendRate : float;
  connectedSendRate : float;
  connectingTimeOut : float;
  connectedTimeOut : float;
  defaultServerPort : Z
}.

(** The types of the collaborators whose source is not among the sources.
    They stay abstract. *)
Class Types := {
  Address : Type;
  Connection : Type;
  ConnectionPacket : Type;
  ClientServerDataBlockSender : Type;
  ClientServerDataBlockReceiver : Type;
  Resolver : Type;
  Random : Type
}.

Section Model.
Context `{Types}.

(** The packet kinds of §3.  The type tag of the source is the
    constructor; a cast to a packet class is a match on it. *)
Inductive Packet :=
| ConnectionRequestPacket (clientGuid : Z)
| ConnectionChallengePacket (clientGuid serverGuid : Z)
| ConnectionDeniedPacket (clientGuid reason : Z)
| ChallengeResponsePacket (clientGuid serverGuid : Z)
| ReadyForConnectionPacket (clientGuid serverGuid : Z)
| DataBlockFragmentPacket (clientGuid serverGuid : Z)
    (blockSize numFragments fragmentId fragmentBytes : Z) (fragmentData : list byte)
| DataBlockFragmentAckPacket (clientGuid serverGuid fragmentId : Z)
| Connection_Packet (payload : ConnectionPacket)
| DisconnectedPacket (clientGuid serverGuid : Z).

(** A received packet with the address the transport attached to it
    ([GetAddress]). *)
Record Received := mkReceived { GetAddress : Address; packet : Packet }.

Record ClientServerInfo := mkClientServerInfo {
  info_address : Address;
  info_clientGuid : Z;
  info_serverGuid : Z
}.

Record ResolveEntry := mkResolveEntry {
  status : ResolveStatus;
  result_address_0 : Address        (* result.address[0] *)
}.

(** Modelled from the spec: [NetworkInterface] (§4.2), as far as the
    client uses it: [SendPacket] hands a packet over, [ReceivePacket]
    dequeues one or returns null. *)
Record NetworkInterface := mkNetworkInterface {
  ni_sent : list (Address * Packet);
  ni_queue : list Received
}.

Definition SendPacket (address : Address) (p : Packet) (ni : NetworkInterface)
  : NetworkInterface :=
  mkNetworkInterface (ni_sent ni ++ [(address, p)]) (ni_queue ni).

Definition ReceivePacket (ni : NetworkInterface) : option (Received * NetworkInterface) :=
  match ni_queue ni with
  | [] => None
  | p :: queue => Some (p, mkNetworkInterface (ni_sent ni) queue)
  end.

(** The operations of the collaborators.  A data block sender or
    receiver sends through the network interface it was given in
    [SetInfo]; here it returns the packets it sends. *)
Class Collaborators := {
  (* build configuration *)
  PROTOCOL_USE_RESOLVER : bool;
  MaxHostName : Z;
  (* network::Address *)
  Address_new : Address;
  Address_parse : string → Address;
  Address_IsValid : Address → bool;
  Address_GetPort : Address → Z;
  Address_SetPort : Z → Address → Address;
  Address_eq : Address → Address → bool;
  (* Connection *)
  Connection_Reset : Connection → Connection;
  Connection_Update : TimeBase → Connection → Connection;
  Connection_GetError : Connection → Z;
  Connection_ReadPacket : ConnectionPacket → Connection → bool * Connection;
  Connection_WritePacket : Connection → ConnectionPacket * Connection;
  (* ClientServerDataBlockSender *)
  Sender_Clear : ClientServerDataBlockSender → ClientServerDataBlockSender;
  Sender_SetInfo : ClientServerInfo → ClientServerDataBlockSender → ClientServerDataBlockSender;
  Sender_ProcessAck : Z → ClientServerDataBlockSender → ClientServerDataBlockSender;
  Sender_SendCompleted : ClientServerDataBlockSender → bool;
  Sender_Update : TimeBase → ClientServerDataBlockSender →
                  ClientServerDataBlockSender * list (Address * Packet);
  (* ClientServerDataBlockReceiver *)
  Receiver_Clear : ClientServerDataBlockReceiver → ClientServerDataBlockReceiver;
  Receiver_SetInfo : ClientServerInfo → ClientServerDataBlockReceiver →
                     ClientServerDataBlockReceiver;
  Receiver_ProcessFragment : Z → Z → Z → Z → list byte → ClientServerDataBlockReceiver →
                             ClientServerDataBlockReceiver * list (Address * Packet);
  Receiver_IsError : ClientServerDataBlockReceiver → bool;
  Receiver_GetError : ClientServerDataBlockReceiver → Z;
  (* Resolver *)
  Resolver_Resolve : string → Resolver → Resolver;
  Resolver_Update : TimeBase → Resolver → Resolver;
  Resolver_GetEntry : string → Resolver → option ResolveEntry;
  (* NetworkInterface::Update, generate_guid, and the conversion of a
     double to float *)
  NetworkInterface_Update : TimeBase → NetworkInterface → NetworkInterface;
  generate_guid : Random → Z * Random;
  float_of_double : float → float
}.

Context `{Collaborators}.

(** The members of the client.  Those that Client.h declares (it is not
    among the sources) are typed as their uses in Client.cpp suggest. *)
Record Client := mkClient {
  m_config : ClientConfig   (* the plain values of ClientConfig *);
  resolver : option Resolver   (* the object behind m_config.resolver, if any *);
  networkInterface : NetworkInterface   (* the object behind m_config.networkInterface *);
  random : Random   (* the state generate_guid draws from *);
  m_connection : Connection;
  m_dataBlockSender : option ClientServerDataBlockSender;
  m_dataBlockReceiver : option ClientServerDataBlockReceiver;
  m_hostname : string;
  m_address : Address;
  m_clientGuid : Z   (* uint64_t *);
  m_serverGuid : Z   (* uint64_t *);
  m_state : ClientState;
  m_error : ClientError;
  m_extendedError : Z   (* uint32_t *);
  m_lastPacketReceiveTime : float   (* double *);
  m_accumulator : float   (* double *);
  m_timeBase : TimeBase
}.

(** Assignment to one member. *)

Definition set_resolver (v : option Resolver) (c : Client) : Client :=
  mkClient (m_config c) v (networkInterface c) (random c) (m_connection c)
    (m_dataBlockSender c) (m_dataBlockReceiver c) (m_hostname c) (m_address c)
    (m_clientGuid c) (m_serverGuid c) (m_state c) (m_error c)
    (m_extendedError c) (m_lastPacketReceiveTime c) (m_accumulator c)
    (m_timeBase c).
Definition set_networkInterface (v : NetworkInterface) (c : Client) : Client :=
  mkClient (m_config c) (resolver c) v (random c) (m_connection c)
    (m_dataBlockSender c) (m_dataBlockReceiver c) (m_hostname c) (m_address c)
    (m_clientGuid c) (m_serverGuid c) (m_state c) (m_error c)
    (m_extendedError c) (m_lastPacketReceiveTime c) (m_accumulator c)
    (m_timeBase c).
Definition set_random (v : Random) (c : Client) : Client :=
  mkClient (m_config c) (resolver c) (networkInterface c) v (m_connection c)
    (m_dataBlockSender c) (m_dataBlockReceiver c) (m_hostname c) (m_address c)
    (m_clientGuid c) (m_serverGuid c) (m_state c) (m_error c)
    (m_extendedError c) (m_lastPacketReceiveTime c) (m_accumulator c)
    (m_timeBase c).
Definition set_m_connection (v : Connection) (c : Client) : Client :=
  mkClient (m_config c) (resolver c) (networkInterface c) (random c) v
    (m_dataBlockSender c) (m_dataBlockReceiver c) (m_hostname c) (m_address c)
    (m_clientGuid c) (m_serverGuid c) (m_state c) (m_error c)
    (m_extendedError c) (m_lastPacketReceiveTime c) (m_accumulator c)
    (m_timeBase c).
Definition set_m_dataBlockSender (v : option ClientServerDataBlockSender) (c : Client) : Client :=
  mkClient (m_config c) (resolver c) (networkInterface c) (random c)
    (m_connection c) v (m_dataBlockReceiver c) (m_hostname c) (m_address c)
    (m_clientGuid c) (m_serverGuid c) (m_state c) (m_error c)
    (m_extendedError c) (m_lastPacketReceiveTime c) (m_accumulator c)
    (m_timeBase c).
Definition set_m_dataBlockReceiver (v : option ClientServerDataBlockReceiver) (c : Client) : Client :=
  mkClient (m_config c) (resolver c) (networkInterface c) (random c)
    (m_connection c) (m_dataBlockSender c) v (m_hostname c) (m_address c)
    (m_clientGuid c) (m_serverGuid c) (m_state c) (m_error c)
    (m_extendedError c) (m_lastPacketReceiveTime c) (m_accumulator c)
    (m_timeBase c).
Definition set_m_hostname (v : string) (c : Client) : Client :=
  mkClient (m_config c) (resolver c) (networkInterface c) (random c)
    (m_connection c) (m_dataBlockSender c) (m_dataBlockReceiver c) v
    (m_address c) (m_clientGuid c) (m_serverGuid c) (m_state c) (m_error c)
    (m_extendedError c) (m_lastPacketReceiveTime c) (m_accumulator c)
    (m_timeBase c).
Definition set_m_address (v : Address) (c : Client) : Client :=
  mkClient (m_config c) (resolver c) (networkInterface c) (random c)
    (m_connection c) (m_dataBlockSender c) (m_dataBlockReceiver c)
    (m_hostname c) v (m_clientGuid c) (m_serverGuid c) (m_state c) (m_error c)
    (m_extendedError c) (m_lastPacketReceiveTime c) (m_accumulator c)
    (m_timeBase c).
Definition set_m_clientGuid (v : Z) (c : Client) : Client :=
  mkClient (m_config c) (resolver c) (networkInterface c) (random c)
    (m_connection c) (m_dataBlockSender c) (m_dataBlockReceiver c)
    (m_hostname c) (m_address c) v (m_serverGuid c) (m_state c) (m_error c)
    (m_extendedError c) (m_lastPacketReceiveTime c) (m_accumulator c)
    (m_timeBase c).
Definition set_m_serverGuid (v : Z) (c : Client) : Client :=
  mkClient (m_config c) (resolver c) (networkInterface c) (random c)
    (m_connection c) (m_dataBlockSender c) (m_dataBlockReceiver c)
    (m_hostname c) (m_address c) (m_clientGuid c) v (m_state c) (m_error c)
    (m_extendedError c) (m_lastPacketReceiveTime c) (m_accumulator c)
    (m_timeBase c).
Definition set_m_state (v : ClientState) (c : Client) : Client :=
  mkClient (m_config c) (resolver c) (networkInterface c) (random c)
    (m_connection c) (m_dataBlockSender c) (m_dataBlockReceiver c)
    (m_hostname c) (m_address c) (m_clientGuid c) (m_serverGuid c) v (m_error c)
    (m_extendedError c) (m_lastPacketReceiveTime c) (m_accumulator c)
    (m_timeBase c).
Definition set_m_error (v : ClientError) (c : Client) : Client :=
  mkClient (m_config c) (resolver c) (networkInterface c) (random c)
    (m_connection c) (m_dataBlockSender c) (m_dataBlockReceiver c)
    (m_hostname c) (m_address c) (m_clientGuid c) (m_serverGuid c) (m_state c) v
    (m_extendedError c) (m_lastPacketReceiveTime c) (m_accumulator c)
    (m_timeBase c).
Definition set_m_extendedError (v : Z) (c : Client) : Client :=
  mkClient (m_config c) (resolver c) (networkInterface c) (random c)
    (m_connection c) (m_dataBlockSender c) (m_dataBlockReceiver c)
    (m_hostname c) (m_address c) (m_clientGuid c) (m_serverGuid c) (m_state c)
    (m_error c) v (m_lastPacketReceiveTime c) (m_accumulator c) (m_timeBase c).
Definition set_m_lastPacketReceiveTime (v : float) (c : Client) : Client :=
  mkClient (m_config c) (resolver c) (networkInterface c) (random c)
    (m_connection c) (m_dataBlockSender c) (m_dataBlockReceiver c)
    (m_hostname c) (m_address c) (m_clientGuid c) (m_serverGuid c) (m_state c)
    (m_error c) (m_extendedError c) v (m_accumulator c) (m_timeBase c).
Definition set_m_accumulator (v : float) (c : Client) : Client :=
  mkClient (m_config c) (resolver c) (networkInterface c) (random c)
    (m_connection c) (m_dataBlockSender c) (m_dataBlockReceiver c)
    (m_hostname c) (m_address c) (m_clientGuid c) (m_serverGuid c) (m_state c)
    (m_error c) (m_extendedError c) (m_lastPacketReceiveTime c) v (m_timeBase c).
Definition set_m_timeBase (v : TimeBase) (c : Client) : Client :=
  mkClient (m_config c) (resolver c) (networkInterface c) (random c)
    (m_connection c) (m_dataBlockSender c) (m_dataBlockReceiver c)
    (m_hostname c) (m_address c) (m_clientGuid c) (m_serverGuid c) (m_state c)
    (m_error c) (m_extendedError c) (m_lastPacketReceiveTime c)
    (m_accumulator c) v.

(** *** The member functions, in the order of Client.cpp *)

Definition ClearStateData (c : Client) : Client :=
  c |> set_m_hostname "" |> set_m_address Address_new
    |> set_m_clientGuid 0 |> set_m_serverGuid 0.

Definition ClearError (c : Client) : Client :=
  c |> set_m_error CLIENT_ERROR_NONE |> set_m_extendedError 0.

Definition IsDisconnected (c : Client) : bool :=
  bool_decide (m_state c = CLIENT_STATE_DISCONNECTED).

Definition IsConnected (c : Client) : bool :=
  bool_decide (m_state c = CLIENT_STATE_CONNECTED).

Definition IsConnecting (c : Client) : bool :=
  bool_decide (ClientState_value (m_state c) > ClientState_value CLIENT_STATE_DISCONNECTED)
  && bool_decide (ClientState_value (m_state c) < ClientState_value CLIENT_STATE_CONNECTED).

Definition HasError (c : Client) : bool :=
  bool_decide (m_error c ≠ CLIENT_ERROR_NONE).

Definition Disconnect (c : Client) : Client :=
  if IsDisconnected c then c
  else
    let packet := DisconnectedPacket (m_clientGuid c) (m_serverGuid c) in
    let c := set_networkInterface (SendPacket (m_address c) packet (networkInterface c)) c in
    let c := set_m_connection (Connection_Reset (m_connection c)) c in
    let c := ClearStateData c in
    let c := set_m_state CLIENT_STATE_DISCONNECTED c in
    let c := set_m_address Address_new c in
    let c := set_m_hostname "" c in
    let c := set_m_dataBlockSender (Sender_Clear <$> m_dataBlockSender c) c in
    set_m_dataBlockReceiver (Receiver_Clear <$> m_dataBlockReceiver c) c.

Definition DisconnectAndSetError (error : ClientError) (extendedError : Z) (c : Client)
  : Client :=
  let c := Disconnect c in
  c |> set_m_error error |> set_m_extendedError (uint32_t extendedError).

(** [Connect( const Address & )]. *)
Definition Connect_address (address : Address) (c : Client) : Client :=
  let c := Disconnect c in
  let c := ClearError c in
  let c := set_m_state CLIENT_STATE_SENDING_CONNECTION_REQUEST c in
  let c := set_m_address address c in
  let '(guid, random) := generate_guid (random c) in
  c |> set_m_clientGuid guid |> set_random random.

(** [Connect( const char * )].  After [DisconnectAndSetError(
    CLIENT_ERROR_MISSING_RESOLVER )] the source does not return: the
    statements that follow run as well.  The call of [Resolve] through
    the null resolver has no defined effect and is modelled as none. *)
Definition Connect_hostname (hostname : string) (c : Client) : Client :=
  let c := Disconnect c in
  let c := ClearError c in
  let address := Address_parse hostname in
  if Address_IsValid address then Connect_address address c
  else if PROTOCOL_USE_RESOLVER then
    let c :=
      if bool_decide (resolver c = None)
      then DisconnectAndSetError CLIENT_ERROR_MISSING_RESOLVER 0 c
      else c in
    let c := set_resolver (Resolver_Resolve hostname <$> resolver c) c in
    let c := set_m_state CLIENT_STATE_RESOLVING_HOSTNAME c in
    let c := set_m_lastPacketReceiveTime (time (m_timeBase c)) c in
    set_m_hostname (String.substring 0 (Z.to_nat (MaxHostName - 1)) hostname) c
  else DisconnectAndSetError CLIENT_ERROR_INVALID_CONNECT_ADDRESS 0 c.

Definition UpdateNetworkInterface (c : Client) : Client :=
  set_networkInterface (NetworkInterface_Update (m_timeBase c) (networkInterface c)) c.

(** With no resolver configured the source, in RESOLVING_HOSTNAME, calls
    [GetEntry] through the null pointer, which has no defined effect;
    that state is entered only through the missing return of
    [Connect( const char * )].  Here the call is taken to give no entry.
    What is stated of [UpdateResolver] itself assumes a resolver. *)
Definition UpdateResolver (c : Client) : Client :=
  let c := set_resolver (Resolver_Update (m_timeBase c) <$> resolver c) c in
  if bool_decide (m_state c ≠ CLIENT_STATE_RESOLVING_HOSTNAME) then c
  else
    match resolver c ≫= Resolver_GetEntry (m_hostname c) with
    | None => DisconnectAndSetError CLIENT_ERROR_RESOLVE_HOSTNAME_FAILED 0 c
    | Some entry =>
        if bool_decide (status entry = RESOLVE_FAILED) then
          DisconnectAndSetError CLIENT_ERROR_RESOLVE_HOSTNAME_FAILED 0 c
        else if bool_decide (status entry = RESOLVE_SUCCEEDED) then
          let address := result_address_0 entry in
          let address :=
            if bool_decide (Address_GetPort address = 0)
            then Address_SetPort (defaultServerPort (m_config c)) address
            else address in
          Connect_address address c
        else c
    end.

Definition UpdateConnection (c : Client) : Client :=
  if bool_decide (m_state c = CLIENT_STATE_CONNECTED) then
    let c := set_m_connection (Connection_Update (m_timeBase c) (m_connection c)) c in
    if bool_decide (Connection_GetError (m_connection c) ≠ CONNECTION_ERROR_NONE)
    then DisconnectAndSetError CLIENT_ERROR_CONNECTION_ERROR 0 c
    else c
  else c.

Definition send (p : Packet) (c : Client) : Client :=
  set_networkInterface (SendPacket (m_address c) p (networkInterface c)) c.

Definition UpdateSendPackets (c : Client) : Client :=
  if bool_decide (ClientState_value (m_state c)
                  < ClientState_value CLIENT_STATE_SENDING_CONNECTION_REQUEST)
  then c
  else
    let c := set_m_accumulator (m_accumulator c + deltaTime (m_timeBase c))%float c in
    let timeBetweenPackets :=
      float_of_double
        (1 / (if IsConnected c then connectedSendRate (m_config c)
              else connectingSendRate (m_config c)))%float in
    if (timeBetweenPackets <=? m_accumulator c)%float then
      let c := set_m_accumulator (m_accumulator c - timeBetweenPackets)%float c in
      match m_state c with
      | CLIENT_STATE_SENDING_CONNECTION_REQUEST =>
          send (ConnectionRequestPacket (m_clientGuid c)) c
      | CLIENT_STATE_SENDING_CHALLENGE_RESPONSE =>
          send (ChallengeResponsePacket (m_clientGuid c) (m_serverGuid c)) c
      | CLIENT_STATE_READY_FOR_CONNECTION =>
          send (ReadyForConnectionPacket (m_clientGuid c) (m_serverGuid c)) c
      | CLIENT_STATE_CONNECTED =>
          let '(p, connection) := Connection_WritePacket (m_connection c) in
          send (Connection_Packet p) (set_m_connection connection c)
      | _ => c
      end
    else c.

Definition ProcessDisconnected (address : Address) (clientGuid serverGuid : Z)
    (c : Client) : Client :=
  if negb (Address_eq address (m_address c)) then c
  else if bool_decide (clientGuid ≠ m_clientGuid c) then c
  else if bool_decide (serverGuid ≠ m_serverGuid c) then c
  else DisconnectAndSetError CLIENT_ERROR_DISCONNECTED_FROM_SERVER 0 c.

Definition ProcessDataBlockFragment (clientGuid serverGuid : Z)
    (blockSize numFragments fragmentId fragmentBytes : Z) (fragmentData : list byte)
    (c : Client) : Client :=
  if bool_decide (clientGuid ≠ m_clientGuid c) then c
  else if bool_decide (serverGuid ≠ m_serverGuid c) then c
  else
    match m_dataBlockReceiver c with
    | None => c
    | Some receiver =>
        let '(receiver, sent) :=
          Receiver_ProcessFragment blockSize numFragments fragmentId fragmentBytes
                                   fragmentData receiver in
        let ni := networkInterface c in
        let c := set_networkInterface
                   (mkNetworkInterface (ni_sent ni ++ sent) (ni_queue ni)) c in
        let c := set_m_dataBlockReceiver (Some receiver) c in
        if Receiver_IsError receiver
        then DisconnectAndSetError CLIENT_ERROR_DATA_BLOCK_ERROR
                                   (Receiver_GetError receiver) c
        else c
    end.

Definition ProcessDataBlockFragmentAck (clientGuid serverGuid fragmentId : Z)
    (c : Client) : Client :=
  if bool_decide (clientGuid ≠ m_clientGuid c) then c
  else if bool_decide (serverGuid ≠ m_serverGuid c) then c
  else
    match m_dataBlockSender c with
    | None => c
    | Some sender => set_m_dataBlockSender (Some (Sender_ProcessAck fragmentId sender)) c
    end.

(** The body of the loop of [UpdateReceivePackets] for one packet. *)
Definition receive_packet (received : Received) (c : Client) : Client :=
  match packet received with
  | DisconnectedPacket clientGuid serverGuid =>
      ProcessDisconnected (GetAddress received) clientGuid serverGuid c
  | p =>
      match m_state c with
      | CLIENT_STATE_SENDING_CONNECTION_REQUEST =>
          match p with
          | ConnectionChallengePacket clientGuid serverGuid =>
              if Address_eq (GetAddress received) (m_address c)
                 && bool_decide (clientGuid = m_clientGuid c) then
                let c := set_m_state CLIENT_STATE_SENDING_CHALLENGE_RESPONSE c in
                let c := set_m_serverGuid serverGuid c in
                let c := set_m_lastPacketReceiveTime (time (m_timeBase c)) c in
                let info :=
                  mkClientServerInfo (m_address c) (m_clientGuid c) (m_serverGuid c) in
                let c := set_m_dataBlockSender
                           (Sender_SetInfo info <$> m_dataBlockSender c) c in
                set_m_dataBlockReceiver (Receiver_SetInfo info <$> m_dataBlockReceiver c) c
              else c
          | ConnectionDeniedPacket clientGuid reason =>
              if Address_eq (GetAddress received) (m_address c)
                 && bool_decide (clientGuid = m_clientGuid c) then
                DisconnectAndSetError CLIENT_ERROR_CONNECTION_REQUEST_DENIED reason c
              else c
          | _ => c
          end
      | CLIENT_STATE_SENDING_CHALLENGE_RESPONSE =>
          match p with
          | DataBlockFragmentPacket clientGuid serverGuid blockSize numFragments
                                    fragmentId fragmentBytes fragmentData =>
              ProcessDataBlockFragment clientGuid serverGuid blockSize numFragments
                                       fragmentId fragmentBytes fragmentData c
          | ReadyForConnectionPacket clientGuid serverGuid =>
              if Address_eq (GetAddress received) (m_address c)
                 && bool_decide (clientGuid = m_clientGuid c)
                 && bool_decide (serverGuid = m_serverGuid c) then
                match clientData (m_config c) with
                | None =>
                    let c := set_m_state CLIENT_STATE_READY_FOR_CONNECTION c in
                    set_m_lastPacketReceiveTime (time (m_timeBase c)) c
                | Some _ =>
                    let c := set_m_state CLIENT_STATE_SENDING_CLIENT_DATA c in
                    set_m_lastPacketReceiveTime (time (m_timeBase c)) c
                end
              else c
          | _ => c
          end
      | CLIENT_STATE_SENDING_CLIENT_DATA =>
          match p with
          | DataBlockFragmentPacket clientGuid serverGuid blockSize numFragments
                                    fragmentId fragmentBytes fragmentData =>
              ProcessDataBlockFragment clientGuid serverGuid blockSize numFragments
                                       fragmentId fragmentBytes fragmentData c
          | DataBlockFragmentAckPacket clientGuid serverGuid fragmentId =>
              ProcessDataBlockFragmentAck clientGuid serverGuid fragmentId c
          | _ => c
          end
      | CLIENT_STATE_READY_FOR_CONNECTION
      | CLIENT_STATE_CONNECTED =>
          match p with
          | DataBlockFragmentPacket clientGuid serverGuid blockSize numFragments
                                    fragmentId fragmentBytes fragmentData =>
              ProcessDataBlockFragment clientGuid serverGuid blockSize numFragments
                                       fragmentId fragmentBytes fragmentData c
          | Connection_Packet payload =>
              let c :=
                if bool_decide (m_state c = CLIENT_STATE_READY_FOR_CONNECTION)
                then set_m_state CLIENT_STATE_CONNECTED c
                else c in
              let '(result, connection) :=
                Connection_ReadPacket payload (m_connection c) in
              let c := set_m_connection connection c in
              if result : bool
              then set_m_lastPacketReceiveTime (time (m_timeBase c)) c
              else c
          | _ => c
          end
      | _ => c
      end
  end.

(** [while ( true )]: one packet is dequeued and processed per
    iteration, until [ReceivePacket] returns null.  No iteration adds to
    the queue, so its length at entry bounds the iterations
    ([UpdateReceivePackets_drains] below). *)
Fixpoint UpdateReceivePackets_loop (n : nat) (c : Client) : Client :=
  match n with
  | O => c
  | S n' =>
      match ReceivePacket (networkInterface c) with
      | None => c
      | Some (received, ni) =>
          UpdateReceivePackets_loop n' (receive_packet received (set_networkInterface ni c))
      end
  end.

Definition UpdateReceivePackets (c : Client) : Client :=
  UpdateReceivePackets_loop (length (ni_queue (networkInterface c))) c.

(** [PROTOCOL_ASSERT( m_dataBlockSender )]: the state SENDING_CLIENT_DATA
    is entered only when there is client data, hence a sender; without one
    the model does nothing. *)
Definition UpdateSendClientData (c : Client) : Client :=
  if bool_decide (m_state c ≠ CLIENT_STATE_SENDING_CLIENT_DATA) then c
  else
    match m_dataBlockSender c with
    | None => c
    | Some sender =>
        if Sender_SendCompleted sender
        then set_m_state CLIENT_STATE_READY_FOR_CONNECTION c
        else
          let '(sender, sent) := Sender_Update (m_timeBase c) sender in
          let ni := networkInterface c in
          let c := set_networkInterface
                     (mkNetworkInterface (ni_sent ni ++ sent) (ni_queue ni)) c in
          set_m_dataBlockSender (Some sender) c
    end.

Definition UpdateTimeout (c : Client) : Client :=
  if IsDisconnected c then c
  else
    let timeout :=
      if IsConnected c then connectedTimeOut (m_config c)
      else connectingTimeOut (m_config c) in
    if (m_lastPacketReceiveTime c + timeout <? time (m_timeBase c))%float
    then DisconnectAndSetError CLIENT_ERROR_CONNECTION_TIMED_OUT
                               (ClientState_value (m_state c)) c
    else c.

Definition Update (timeBase : TimeBase) (c : Client) : Client :=
  let c := set_m_timeBase timeBase c in
  let c := if PROTOCOL_USE_RESOLVER then UpdateResolver c else c in
  let c := UpdateConnection c in
  let c := UpdateSendPackets c in
  let c := UpdateNetworkInterface c in
  let c := UpdateReceivePackets c in
  let c := UpdateSendClientData c in
  UpdateTimeout c.

(** *** Names used in the statements below *)

(** The state in which [Update] reaches [UpdateReceivePackets]. *)
Definition before_receive (timeBase : TimeBase) (c : Client) : Client :=
  let c := set_m_timeBase timeBase c in
  let c := if PROTOCOL_USE_RESOLVER then UpdateResolver c else c in
  let c := UpdateConnection c in
  let c := UpdateSendPackets c in
  UpdateNetworkInterface c.

(** The packets of the data block exchange. *)
Definition is_data_block (p : Packet) : bool :=
  match p with
  | DataBlockFragmentPacket _ _ _ _ _ _ _ | DataBlockFragmentAckPacket _ _ _ => true
  | _ => false
  end.

(** The states between the challenge and the connection. *)
Definition exchanging (s : ClientState) : Prop :=
  s = CLIENT_STATE_SENDING_CHALLENGE_RESPONSE
  ∨ s = CLIENT_STATE_SENDING_CLIENT_DATA
  ∨ s = CLIENT_STATE_READY_FOR_CONNECTION.



(** The pairs of state and packet kind for which [UpdateReceivePackets]
    has a case; a Disconnected packet is looked at in every state. *)
Definition handled (s : ClientState) (p : Packet) : bool :=
  match p, s with
  | DisconnectedPacket _ _, _ => true
  | ConnectionChallengePacket _ _, CLIENT_STATE_SENDING_CONNECTION_REQUEST => true
  | ConnectionDeniedPacket _ _, CLIENT_STATE_SENDING_CONNECTION_REQUEST => true
  | ReadyForConnectionPacket _ _, CLIENT_STATE_SENDING_CHALLENGE_RESPONSE => true
  | DataBlockFragmentPacket _ _ _ _ _ _ _,
    (CLIENT_STATE_SENDING_CHALLENGE_RESPONSE | CLIENT_STATE_SENDING_CLIENT_DATA
     | CLIENT_STATE_READY_FOR_CONNECTION | CLIENT_STATE_CONNECTED) => true
  | DataBlockFragmentAckPacket _ _ _, CLIENT_STATE_SENDING_CLIENT_DATA => true
  | Connection_Packet _,
    (CLIENT_STATE_READY_FOR_CONNECTION | CLIENT_STATE_CONNECTED) => true
  | _, _ => false
  end.

(** One iteration of the receive loop on a packet known to be at the
    front of the queue: the packet is dequeued, then processed. *)
Definition receive_next (c : Client) (received : Received) : Client :=
  let ni := networkInterface c in
  receive_packet received
    (set_networkInterface (mkNetworkInterface (ni_sent ni) (tail (ni_queue ni))) c).

(** The farewell [Disconnect] sends, unless already disconnected. *)
Definition farewell (c : Client) : list (Address * Packet) :=
  if IsDisconnected c then []
  else [(m_address c, DisconnectedPacket (m_clientGuid c) (m_serverGuid c))].

(** The interval between two packets of [UpdateSendPackets]. *)
Definition timeBetweenPackets (c : Client) : float :=
  float_of_double
    (1 / (if IsConnected c then connectedSendRate (m_config c)
          else connectingSendRate (m_config c)))%float.

(** The timeout that applies to the state of the client. *)
Definition timeout (c : Client) : float :=
  if IsConnected c then connectedTimeOut (m_config c) else connectingTimeOut (m_config c).

(** A step from [c] to [c'] that does not go back in the handshake: it
    ends DISCONNECTED or in a state not before the one it started in,
    and does not leave DISCONNECTED. *)
Definition onwards (c c' : Client) : Prop :=
  (m_state c = CLIENT_STATE_DISCONNECTED → m_state c' = CLIENT_STATE_DISCONNECTED)
  ∧ (m_state c' = CLIENT_STATE_DISCONNECTED
     ∨ ClientState_value (m_state c) ≤ ClientState_value (m_state c')).

(** A step that keeps the error, or ends with an error other than
    RESOLVE_HOSTNAME_TIMED_OUT. *)
Definition unreported (c c' : Client) : Prop :=
  m_error c' = m_error c ∨ m_error c' ≠ CLIENT_ERROR_RESOLVE_HOSTNAME_TIMED_OUT.

(** A step that is [onwards] and keeps the configuration and the time
    base. *)
Definition orderly (c c' : Client) : Prop :=
  onwards c c' ∧ m_timeBase c' = m_timeBase c ∧ m_config c' = m_config c.
End Model.

End Client.

(** ** The wire format of an input packet, in the words of the specification *)

Module Wire.
Import Stream Lockstep.

(** §4.1: "first input fully encoded; subsequent inputs encoded as a
    single changed bit plus, if set, the full input bits". *)
Definition input_bits (i : game.Input) : list bool :=
  [game.left i; game.right i; game.up i; game.down i; game.push i; game.pull i].

(** The inputs at indices [i .. i + n). *)
Fixpoint inputs_bits (n i : nat) (inputs : list game.Input) : list bool :=
  match n with
  | O => []
  | S n' =>
      let changed := game.Input_ne (inputs !!! i) (inputs !!! (i - 1)%nat) in
      changed :: (if changed then input_bits (inputs !!! i) else [])
              ++ inputs_bits n' (S i) inputs
  end.

Definition packet_bits (p : LockstepInputPacket) : list bool :=
  bits_of_Z 16 (sequence p) ++ bits_of_Z 9 (num_inputs p) ++
  (if decide (1 ≤ num_inputs p) then
     input_bits (inputs p !!! 0%nat) ++
     inputs_bits (Z.to_nat (num_inputs p - 1)) 1 (inputs p)
   else []).

(** A packet is valid when its fields fit their types and [num_inputs]
    is within the array. *)
Definition valid_input_packet (p : LockstepInputPacket) : Prop :=
  0 ≤ sequence p < 2 ^ 16 ∧ 0 ≤ num_inputs p ≤ MaxInputs.

(** Field-wise equality of the header and of the inputs in use. *)
Definition same_inputs (q p : LockstepInputPacket) : Prop :=
  sequence q = sequence p ∧ num_inputs q = num_inputs p ∧
  ∀ i, 0 ≤ i < num_inputs p → inputs q !!! Z.to_nat i = inputs p !!! Z.to_nat i.

End Wire.

(** ** Runs of the playout delay buffer and of the receiver's ack *)

Module Playout.
Import Lockstep.

Section Runs.
Context {A : Type} `{Inhabited A}.
Variable MaxSimFrames : Z.

(** A call made on the buffer by its owner. *)
Inductive call :=
| CallAddInputs (time : float) (sequence num_inputs : Z) (inputs : list A)
| CallGetFrames (time : float).

(** The calls in order; [emitted] collects the frames [GetFrames]
    hands out. *)
Fixpoint run (calls : list call) (b : LockstepPlayoutDelayBuffer A) (emitted : list A)
  : LockstepPlayoutDelayBuffer A * list A :=
  match calls with
  | [] => (b, emitted)
  | CallAddInputs time sequence num_inputs inputs :: calls =>
      run calls (AddInputs time sequence num_inputs inputs b) emitted
  | CallGetFrames time :: calls =>
      let '(b, _, frame_input) := GetFrames MaxSimFrames time b in
      run calls b (emitted ++ frame_input)
  end.

(** [seq_of] names the sequence number each input carries: in a batch
    with header [sequence] and [num_inputs] inputs, the input at index
    [i] is the one numbered [sequence - num_inputs + i] (16 bits). *)
Definition well_labelled (seq_of : A → Z) (c : call) : Prop :=
  match c with
  | CallAddInputs _ sequence num_inputs inputs =>
      ∀ i : nat, Z.of_nat i < num_inputs →
                 seq_of (inputs !!! i) = uint16_t (sequence - num_inputs + Z.of_nat i)
  | CallGetFrames _ => True
  end.

(** The sequence numbers [0, 1, 2, ...] of [n] inputs, wrapping at 16
    bits. *)
Definition sequence_numbers (n : nat) : list Z :=
  (λ k, uint16_t (Z.of_nat k)) <$> seq 0 n.

(** The inputs handed out so far followed by the inputs queued carry
    the sequence numbers 0, 1, 2, ... and the next expected number
    follows them. *)
Definition contiguous (seq_of : A → Z) (b : LockstepPlayoutDelayBuffer A)
    (emitted : list A) : Prop :=
  let all := emitted ++ input_queue b in
  seq_of <$> all = sequence_numbers (length all)
  ∧ most_recent_input b = uint16_t (Z.of_nat (length all)).

(** The index within a batch with header [sequence] and [num_inputs]
    inputs of the input the buffer is waiting for; it lies outside the
    batch when it is not below [num_inputs]. *)
Definition expected_index (b : LockstepPlayoutDelayBuffer A) (sequence num_inputs : Z) : Z :=
  uint16_t (most_recent_input b - (sequence - num_inputs)).

(** The inputs of a batch of [num_inputs] inputs from index [k] on. *)
Definition batch_from (k num_inputs : Z) (inputs : list A) : list A :=
  (λ i, inputs !!! i) <$> seq (Z.to_nat k) (Z.to_nat (num_inputs - k)).

(** The time passed to the first [AddInputs] among the calls. *)
Fixpoint first_add_time (calls : list call) : option float :=
  match calls with
  | [] => None
  | CallAddInputs time _ _ _ :: _ => Some time
  | CallGetFrames _ :: calls => first_add_time calls
  end.
End Runs.

Global Arguments call A : clear implicits.

End Playout.

Module Ack.
Import Lockstep.

(** The sequence numbers of the input packets for the right simulation
    among the packets of a tick, in order of arrival. *)
Definition input_sequences (queue : list (Z * Packet)) : list Z :=
  queue ≫= λ '(port, packet),
    match packet with
    | InputPacket p => if bool_decide (port = RightPort) then [sequence p] else []
    | AckPacket _ => []
    end.

(** §4.7: "compute ack = packet.sequence - 1". *)
Definition candidate_ack (sequence : Z) : Z := uint16_t (sequence - 1).

(** §4.7: "retain the maximum by sequence-wrap comparison". *)
Definition sequence_max (a b : Z) : Z := if sequence_greater_than b a then b else a.

Definition retained_ack (candidates : list Z) : Z :=
  match candidates with
  | [] => 0
  | c :: candidates => foldl sequence_max c candidates
  end.

(** What one input packet with header [sequence] does to the pair
    ([received_input_this_frame], [ack_sequence]) of the receive loop. *)
Definition note (tcp : bool) (ra : bool * Z) (sequence : Z) : bool * Z :=
  if tcp then ra
  else if ra.1 then (true, sequence_max ra.2 (candidate_ack sequence))
  else (true, candidate_ack sequence).

(** The candidates lie within half the sequence space above [base]: the
    range in which the wrap comparison is an order. *)
Definition within_window (base : Z) (candidates : list Z) : Prop :=
  Forall (λ c, uint16_t (c - base) < 2 ^ 15) candidates.

Definition valid_packet (received : Z * Packet) : Prop :=
  match received.2 with
  | InputPacket p => 0 ≤ sequence p < 2 ^ 16 ∧ 0 ≤ num_inputs p ≤ MaxInputs
  | AckPacket a => 0 ≤ ack a < 2 ^ 16
  end.

(** The input packets addressed to the right simulation among the
    packets of a tick, in order of arrival. *)
Definition input_packets (queue : list (Z * Packet)) : list LockstepInputPacket :=
  queue ≫= λ '(port, packet),
    match packet with
    | InputPacket p => if bool_decide (port = RightPort) then [p] else []
    | AckPacket _ => []
    end.

(** The acks of the ack packets addressed to the left simulation. *)
Definition ack_numbers (queue : list (Z * Packet)) : list Z :=
  queue ≫= λ '(port, packet),
    match packet with
    | InputPacket _ => []
    | AckPacket a => if bool_decide (port = LeftPort) then [ack a] else []
    end.

(** An input packet handed to the playout delay buffer at [time]. *)
Definition feed (time : float) (b : LockstepPlayoutDelayBuffer game.Input)
    (p : LockstepInputPacket) : LockstepPlayoutDelayBuffer game.Input :=
  AddInputs time (sequence p) (num_inputs p) (inputs p) b.

End Ack.

(** ** A loopback test double for the collaborators of the client *)

Module ClientExample.
Import Client.

(** Addresses are numbers, 0 being the invalid address; only "::1"
    parses.  A connection packet carries whether the channel will accept
    it.  The sender is its "send completed" flag, the receiver its error
    flag, raised by a fragment of a block larger than 100 bytes.  The
    resolver knows no host.  GUIDs are drawn from a counter. *)
Global Instance types : Types := {
  Address := Z;
  Connection := unit;
  ConnectionPacket := bool;
  ClientServerDataBlockSender := bool;
  ClientServerDataBlockReceiver := bool;
  Resolver := unit;
  Random := Z
}.

Global Instance collaborators : Collaborators := {
  PROTOCOL_USE_RESOLVER := true;
  MaxHostName := 64;
  Address_new := 0;
  Address_parse hostname := if bool_decide (hostname = "::1") then 1 else 0;
  Address_IsValid address := bool_decide (address ≠ 0);
  Address_GetPort address := address;
  Address_SetPort port address := port;
  Address_eq a b := bool_decide (a = b);
  Connection_Reset connection := connection;
  Connection_Update timeBase connection := connection;
  Connection_GetError connection := CONNECTION_ERROR_NONE;
  Connection_ReadPacket payload connection := (payload, connection);
  Connection_WritePacket connection := (true, connection);
  Sender_Clear sender := false;
  Sender_SetInfo info sender := sender;
  Sender_ProcessAck fragmentId sender := true;
  Sender_SendCompleted sender := sender;
  Sender_Update timeBase sender := (sender, []);
  Receiver_Clear receiver := false;
  Receiver_SetInfo info receiver := receiver;
  Receiver_ProcessFragment blockSize numFragments fragmentId fragmentBytes fragmentData
                           receiver := (receiver || bool_decide (100 < blockSize), []);
  Receiver_IsError receiver := receiver;
  Receiver_GetError receiver := 1;
  Resolver_Resolve hostname resolver := resolver;
  Resolver_Update timeBase resolver := resolver;
  Resolver_GetEntry hostname resolver := None;
  NetworkInterface_Update timeBase ni := ni;
  generate_guid random := (random, random + 1);
  float_of_double x := x
}.

Definition config : ClientConfig :=
  mkClientConfig None 1024 60 0 10%float 30%float 5%float 10%float 10000.

(** A client in [state], in a session with the server at address 1 under
    the GUIDs 7 and 9, that last received a packet at time 0 and is now
    at [now]; [queue] is what the network interface holds for it. *)
Definition client (state : ClientState) (now : float) (queue : list Received) : Client :=
  mkClient config None (mkNetworkInterface [] queue) 100 tt None (Some false)
           "" 1 7 9 state CLIENT_ERROR_NONE 0 0%float 0%float (mkTimeBase now 0%float).

(** A packet as received from [address]. *)
Definition from (address : Z) (p : Packet) : Received := mkReceived address p.

(** A Connection packet that the channel accepts, or not. *)
Definition connection_packet (accepted : bool) : Packet := Connection_Packet accepted.

(** A client that was never connected. *)
Definition idle : Client :=
  mkClient config None (mkNetworkInterface [] []) 100 tt None None
           "" 0 0 0 CLIENT_STATE_DISCONNECTED CLIENT_ERROR_NONE 0
           0%float 0%float (mkTimeBase 20%float 0%float).

(** Clients in the middle of a session, at time 3 or 6. *)
Definition ready : Client := client CLIENT_STATE_READY_FOR_CONNECTION 3%float [].

Definition requesting : Client := client CLIENT_STATE_SENDING_CONNECTION_REQUEST 6%float [].

Definition connected : Client := client CLIENT_STATE_CONNECTED 3%float [].

(** A client answering the challenge that receives a valid fragment six
    seconds after the last packet that counted. *)
Definition receiving_fragments : Client :=
  client CLIENT_STATE_SENDING_CHALLENGE_RESPONSE 0%float
         [from 1 (DataBlockFragmentPacket 7 9 10 1 0 10 [])].

Definition six_seconds : TimeBase := mkTimeBase 6%float 0.125%float.

(** A client uploading its data, with a sender that has not seen an ack
    yet. *)
Definition uploading : Client :=
  mkClient config None (mkNetworkInterface [] []) 100 tt (Some false) (Some false)
           "" 1 7 9 CLIENT_STATE_SENDING_CLIENT_DATA CLIENT_ERROR_NONE 0
           0%float 0%float (mkTimeBase 3%float 0%float).

End ClientExample.

(** ** The same test double with a channel that breaks *)

Module BrokenChannelExample.
Import Client ClientExample.

(** The loopback collaborators, except that the connection reports the
    error 1 whenever it is asked. *)
Definition collaborators : Collaborators := {|
  PROTOCOL_USE_RESOLVER := true;
  MaxHostName := 64;
  Address_new := 0;
  Address_parse hostname := if bool_decide (hostname = "::1") then 1 else 0;
  Address_IsValid address := bool_decide (address ≠ 0);
  Address_GetPort address := address;
  Address_SetPort port address := port;
  Address_eq a b := bool_decide (a = b);
  Connection_Reset connection := connection;
  Connection_Update timeBase connection := connection;
  Connection_GetError connection := 1;
  Connection_ReadPacket payload connection := (payload, connection);
  Connection_WritePacket connection := (true, connection);
  Sender_Clear sender := false;
  Sender_SetInfo info sender := sender;
  Sender_ProcessAck fragmentId sender := true;
  Sender_SendCompleted sender := sender;
  Sender_Update timeBase sender := (sender, []);
  Receiver_Clear receiver := false;
  Receiver_SetInfo info receiver := receiver;
  Receiver_ProcessFragment blockSize numFragments fragmentId fragmentBytes fragmentData
                           receiver := (receiver || bool_decide (100 < blockSize), []);
  Receiver_IsError receiver := receiver;
  Receiver_GetError receiver := 1;
  Resolver_Resolve hostname resolver := resolver;
  Resolver_Update timeBase resolver := resolver;
  Resolver_GetEntry hostname resolver := None;
  NetworkInterface_Update timeBase ni := ni;
  generate_guid random := (random, random + 1);
  float_of_double x := x
|}.

End BrokenChannelExample.

(** ** The same test double with a resolver that knows some hosts *)

Module ResolverExample.
Import Client ClientExample.

(** The entry of a lookup that succeeded with [address]. *)
Definition found (address : Z) : ResolveEntry := mkResolveEntry RESOLVE_SUCCEEDED address.

(** What the resolver holds for a host name: "server.example" resolved
    to address 5, "portless.example" resolved to an address without a
    port, "slow.example" still being looked up, "gone.example" failed,
    and nothing for any other name. *)
Definition GetEntry (hostname : string) : option ResolveEntry :=
  if bool_decide (hostname = "server.example") then Some (found 5)
  else if bool_decide (hostname = "portless.example") then Some (found 0)
  else if bool_decide (hostname = "slow.example") then Some (mkResolveEntry RESOLVE_PENDING 0)
  else if bool_decide (hostname = "gone.example") then Some (mkResolveEntry RESOLVE_FAILED 0)
  else None.

(** The loopback collaborators with that resolver. *)
Definition collaborators : Collaborators := {|
  PROTOCOL_USE_RESOLVER := true;
  MaxHostName := 64;
  Address_new := 0;
  Address_parse hostname := if bool_decide (hostname = "::1") then 1 else 0;
  Address_IsValid address := bool_decide (address ≠ 0);
  Address_GetPort address := address;
  Address_SetPort port address := port;
  Address_eq a b := bool_decide (a = b);
  Connection_Reset connection := connection;
  Connection_Update timeBase connection := connection;
  Connection_GetError connection := CONNECTION_ERROR_NONE;
  Connection_ReadPacket payload connection := (payload, connection);
  Connection_WritePacket connection := (true, connection);
  Sender_Clear sender := false;
  Sender_SetInfo info sender := sender;
  Sender_ProcessAck fragmentId sender := true;
  Sender_SendCompleted sender := sender;
  Sender_Update timeBase sender := (sender, []);
  Receiver_Clear receiver := false;
  Receiver_SetInfo info receiver := receiver;
  Receiver_ProcessFragment blockSize numFragments fragmentId fragmentBytes fragmentData
                           receiver := (receiver || bool_decide (100 < blockSize), []);
  Receiver_IsError receiver := receiver;
  Receiver_GetError receiver := 1;
  Resolver_Resolve hostname resolver := resolver;
  Resolver_Update timeBase resolver := resolver;
  Resolver_GetEntry hostname resolver := GetEntry hostname;
  NetworkInterface_Update timeBase ni := ni;
  generate_guid random := (random, random + 1);
  float_of_double x := x
|}.

(** A client with a resolver, waiting for the address of [hostname]
    since [Connect]. *)
Definition resolving (hostname : string) : Client :=
  mkClient config (Some tt) (mkNetworkInterface [] []) 100 tt None None
           hostname 0 0 0 CLIENT_STATE_RESOLVING_HOSTNAME CLIENT_ERROR_NONE 0
           3%float 0%float (mkTimeBase 3%float 0%float).

End ResolverExample.

(** ** Sample data for the lockstep pipeline *)

Module LockstepExample.
Import Lockstep Playout.

Definition pressed : game.Input := game.mkInput true false false false true false.

(** A packet whose first two inputs press buttons and whose later
    inputs release them. *)
Definition input_packet (sequence num_inputs : Z) : LockstepInputPacket :=
  mkLockstepInputPacket sequence num_inputs
    (replicate 2 pressed ++ replicate 254 game.Input_default).

Global Instance window : SlidingWindow unit := { SlidingWindow_Ack ack w := w }.

(** A receiver that finds two input packets, the later one first. *)
Definition receiver (tcp : bool) : LockstepInternal unit :=
  mkLockstepInternal tt LockstepPlayoutDelayBuffer_new
    (mkSimulator tcp
       [(RightPort, InputPacket (input_packet 3 3));
        (RightPort, InputPacket (input_packet 2 2))] []).

(** Inputs that are their own sequence numbers: a batch, a read, a batch
    that overlaps the first, a stale batch, and a read. *)
Definition calls : list (call Z) :=
  [CallAddInputs 0%float 2 2 [0; 1];
   CallGetFrames 1%float;
   CallAddInputs 1%float 4 3 [1; 2; 3];
   CallAddInputs 1%float 3 3 [0; 1; 2];
   CallGetFrames 2%float].

(** A running buffer holding three inputs, started at time 0. *)
Definition buffer : LockstepPlayoutDelayBuffer Z :=
  mkLockstepPlayoutDelayBuffer false 0%float 3 0 [0; 1; 2].

End LockstepExample.

(* ================================================================== *)
(** * Part II: properties                                              *)
(* ================================================================== *)

(** ** Bit streams *)

Module StreamFacts.
Import Stream.

Lemma length_bits_of_Z n v : length (bits_of_Z n v) = n.
Proof. revert v. induction n as [|n IH]; intros v; simpl; [done | by rewrite IH]. Qed.

Lemma Z_of_bits_of_Z n v : Z_of_bits (bits_of_Z n v) = v mod 2 ^ Z.of_nat n.
Proof.
  revert v. induction n as [|n IH]; intros v.
  - simpl. by rewrite Z.mod_1_r.
  - cbn [bits_of_Z Z_of_bits]. rewrite IH.
    replace (2 ^ Z.of_nat (S n)) with (2 * 2 ^ Z.of_nat n)
      by (rewrite Nat2Z.inj_succ, Z.pow_succ_r; lia).
    rewrite Z.rem_mul_r by lia.
    rewrite Zmod_odd. by destruct (Z.odd v).
Qed.

Lemma Z_of_bits_of_Z_small n v :
  0 ≤ v < 2 ^ Z.of_nat n → Z_of_bits (bits_of_Z n v) = v.
Proof. intros. rewrite Z_of_bits_of_Z. by apply Z.mod_small. Qed.

Lemma bits_of_byte_of_bits b0 b1 b2 b3 b4 b5 b6 b7 :
  bits_of_byte (Byte.of_bits (b0, (b1, (b2, (b3, (b4, (b5, (b6, b7)))))))) =
  [b0; b1; b2; b3; b4; b5; b6; b7].
Proof. unfold bits_of_byte. by rewrite Byte.to_bits_of_bits. Qed.

(** Packing whole bytes loses nothing. *)
Lemma bits_of_bytes_of_bits k l :
  length l = (8 * k)%nat →
  bits_of_bytes (bytes_of_bits l) = l ∧ length (bytes_of_bits l) = k.
Proof.
  revert l. induction k as [|k IH]; intros l Hl.
  - destruct l; [done | simpl in Hl; lia].
  - do 8 (destruct l as [|? l]; [simpl in Hl; lia |]).
    destruct (IH l) as [IH1 IH2]; [simpl in Hl; lia |].
    cbn [bytes_of_bits]. split.
    + unfold bits_of_bytes in *. rewrite bind_cons, bits_of_byte_of_bits, IH1. done.
    + simpl. by rewrite IH2.
Qed.

(** What a read stream over the caller's buffer sees after a flush: the
    bits written, then padding and whatever the buffer held. *)
Lemma read_after_flush (w : WriteStream) (buffer : list byte) (bytes : Z) :
  (length (w_bits w) + 32 ≤ 8 * Z.to_nat bytes)%nat →
  ∃ rest, r_bits (ReadStream_new (WriteStream_buffer buffer w) bytes) = w_bits w ++ rest.
Proof.
  intros Hlen. unfold ReadStream_new, WriteStream_buffer, WriteStream_Flush. cbn [r_bits].
  set (bits := w_bits w) in *.
  set (pad := ((32 - length bits `mod` 32) `mod` 32)%nat).
  assert (Hk : ∃ k, length (bits ++ replicate pad false) = (8 * k)%nat
                    ∧ (k ≤ Z.to_nat bytes)%nat).
  { rewrite length_app, length_replicate. subst pad.
    pose proof (Nat.div_mod_eq (length bits) 32) as Hdiv.
    pose proof (Nat.mod_upper_bound (length bits) 32) as Hmod.
    set (q := (length bits / 32)%nat) in *. set (r := (length bits `mod` 32)%nat) in *.
    destruct (decide (r = 0)%nat) as [E|E].
    - exists (4 * q)%nat. rewrite E in *. change ((32 - 0) `mod` 32)%nat with 0%nat. lia.
    - exists (4 * q + 4)%nat. rewrite (Nat.mod_small (32 - r) 32) by lia. lia. }
  destruct Hk as (k & Hk & Hle).
  destruct (bits_of_bytes_of_bits k _ Hk) as [Hbits Hbytes].
  rewrite take_app, (take_ge (bytes_of_bits _)) by lia.
  unfold bits_of_bytes in *. rewrite bind_app, Hbits, <- app_assoc. eauto.
Qed.

(** *** The primitives, in each direction *)

Lemma write_bits (w : WriteStream) v n :
  (length (w_bits w) + n ≤ w_capacity w)%nat →
  SerializeBits w v n = Some (v, mkWriteStream (w_bits w ++ bits_of_Z n v) (w_capacity w)).
Proof. intros. cbn. by rewrite decide_True. Qed.

Lemma read_bits v n x rest :
  0 ≤ v < 2 ^ Z.of_nat n →
  SerializeBits (mkReadStream (bits_of_Z n v ++ rest)) x n = Some (v, mkReadStream rest).
Proof.
  intros. cbn. rewrite decide_True by (rewrite length_app, length_bits_of_Z; lia).
  rewrite take_app_length', drop_app_length' by (by rewrite length_bits_of_Z).
  by rewrite Z_of_bits_of_Z_small.
Qed.

Lemma write_bool (w : WriteStream) (b : bool) :
  (length (w_bits w) + 1 ≤ w_capacity w)%nat →
  serialize_bool w b = Some (b, mkWriteStream (w_bits w ++ [b]) (w_capacity w)).
Proof.
  intros. unfold serialize_bool. rewrite write_bits by done. by destruct b.
Qed.

Lemma read_bool (b x : bool) rest :
  serialize_bool (mkReadStream (b :: rest)) x = Some (b, mkReadStream rest).
Proof. by destruct b. Qed.

Lemma write_uint16 (w : WriteStream) v :
  (length (w_bits w) + 16 ≤ w_capacity w)%nat →
  serialize_uint16 w v = Some (v, mkWriteStream (w_bits w ++ bits_of_Z 16 v) (w_capacity w)).
Proof. intros. unfold serialize_uint16. by rewrite write_bits. Qed.

Lemma read_uint16 v x rest :
  0 ≤ v < 2 ^ 16 →
  serialize_uint16 (mkReadStream (bits_of_Z 16 v ++ rest)) x = Some (v, mkReadStream rest).
Proof. intros. unfold serialize_uint16. by rewrite read_bits. Qed.

Lemma write_int (w : WriteStream) v min max :
  min ≤ v ≤ max →
  (length (w_bits w) + bits_required min max ≤ w_capacity w)%nat →
  serialize_int w v min max =
  Some (v, mkWriteStream (w_bits w ++ bits_of_Z (bits_required min max) (v - min))
                         (w_capacity w)).
Proof.
  intros. unfold serialize_int. rewrite write_bits by done. cbn.
  rewrite decide_True by lia. do 2 f_equal. lia.
Qed.

Lemma read_int v min max x rest :
  min ≤ v ≤ max →
  serialize_int (mkReadStream (bits_of_Z (bits_required min max) (v - min) ++ rest))
                x min max = Some (v, mkReadStream rest).
Proof.
  intros Hv. unfold serialize_int. rewrite read_bits.
  - cbn. rewrite decide_True by lia. do 2 f_equal. lia.
  - split; [lia |]. unfold bits_required.
    destruct (decide (max - min + 1 ≤ 1)) as [Hle|Hgt].
    + assert (v - min = 0) as -> by lia. apply Z.pow_pos_nonneg; lia.
    + rewrite Z2Nat.id by apply Z.log2_up_nonneg.
      pose proof (Z.log2_up_spec (max - min + 1)). lia.
Qed.

End StreamFacts.

(** ** Serialisation of the lockstep input packet *)

Module SerializeFacts.
Import Stream Lockstep Wire StreamFacts.

Lemma Input_ne_false a b : game.Input_ne a b = false → a = b.
Proof.
  destruct a, b. unfold game.Input_ne, game.Input_eq. cbn.
  rewrite negb_false_iff, !andb_true_iff. intros H. destruct_and!.
  repeat match goal with E : eqb _ _ = true |- _ => apply eqb_prop in E end.
  congruence.
Qed.

Lemma Input_ne_refl a : game.Input_ne a a = false.
Proof. destruct a as [[] [] [] [] [] []]; reflexivity. Qed.

Lemma write_input (w : WriteStream) (i : game.Input) :
  (length (w_bits w) + 6 ≤ w_capacity w)%nat →
  serialize_input w i = Some (i, mkWriteStream (w_bits w ++ input_bits i) (w_capacity w)).
Proof.
  intros Hcap. unfold serialize_input, input_bits.
  repeat (rewrite write_bool by (cbn [w_bits w_capacity]; rewrite ?length_app; cbn; lia);
          cbn [mbind option_bind w_bits w_capacity]).
  destruct i. cbn. by rewrite <- !app_assoc.
Qed.

Lemma read_input (i x : game.Input) rest :
  serialize_input (mkReadStream (input_bits i ++ rest)) x = Some (i, mkReadStream rest).
Proof.
  unfold serialize_input, input_bits. cbn [app].
  repeat (rewrite read_bool; cbn [mbind option_bind]).
  by destruct i.
Qed.

Lemma length_input_bits i : length (input_bits i) = 6%nat.
Proof. reflexivity. Qed.

Lemma length_inputs_bits n i inputs : (length (inputs_bits n i inputs) ≤ 7 * n)%nat.
Proof.
  revert i. induction n as [|n IH]; intros i; cbn [inputs_bits]; [done |].
  specialize (IH (S i)). cbn [length]. rewrite length_app.
  destruct (game.Input_ne _ _); unfold input_bits; cbn [length]; lia.
Qed.

(** Writing leaves the array as it was and emits the compressed form. *)
Lemma write_loop n i inputs (w : WriteStream) :
  (length (w_bits w) + 7 * n ≤ w_capacity w)%nat →
  serialize_inputs_loop n i inputs w =
  Some (inputs, mkWriteStream (w_bits w ++ inputs_bits n i inputs) (w_capacity w)).
Proof.
  revert i w. induction n as [|n IH]; intros i w Hcap.
  - cbn. rewrite app_nil_r. by destruct w.
  - cbn [serialize_inputs_loop inputs_bits]. cbn [IsWriting IsReading WriteStream_Stream].
    rewrite write_bool by lia. cbn [mbind option_bind].
    destruct (game.Input_ne (inputs !!! i) (inputs !!! (i - 1)%nat)) eqn:Hne.
    + rewrite write_input by (cbn [w_bits w_capacity]; rewrite length_app; cbn; lia).
      cbn [mbind option_bind].
      assert (<[i := inputs !!! i]> inputs = inputs) as ->.
      { apply list_insert_id'. intros Hi. by apply list_lookup_lookup_total_lt. }
      rewrite IH by (cbn [w_bits w_capacity]; rewrite !length_app; cbn; lia).
      cbn [w_bits w_capacity]. do 3 f_equal. rewrite <- !app_assoc. done.
    + cbn [mbind option_bind].
      rewrite IH by (cbn [w_bits w_capacity]; rewrite !length_app; cbn; lia).
      cbn [w_bits w_capacity]. do 3 f_equal. rewrite <- !app_assoc. done.
Qed.

(** Reading the compressed form of [src] into an array that already
    agrees with [src] below [i] makes it agree below [i + n]. *)
Lemma read_loop n i (src dst : list game.Input) rest :
  (1 ≤ i)%nat → (i + n ≤ length dst)%nat →
  (∀ j, (j < i)%nat → dst !!! j = src !!! j) →
  ∃ dst', serialize_inputs_loop n i dst (mkReadStream (inputs_bits n i src ++ rest))
          = Some (dst', mkReadStream rest)
          ∧ length dst' = length dst
          ∧ ∀ j, (j < i + n)%nat → dst' !!! j = src !!! j.
Proof.
  revert i dst. induction n as [|n IH]; intros i dst Hi Hlen Hagree.
  - exists dst. cbn. split_and!; [done | done |]. intros j Hj. apply Hagree. lia.
  - cbn [serialize_inputs_loop inputs_bits]. cbn [IsWriting IsReading ReadStream_Stream].
    rewrite <- app_comm_cons, read_bool. cbn [mbind option_bind].
    destruct (game.Input_ne (src !!! i) (src !!! (i - 1)%nat)) eqn:Hne.
    + rewrite <- app_assoc, read_input. cbn [mbind option_bind].
      destruct (IH (S i) (<[i := src !!! i]> dst)) as (dst' & Hrun & Hl & Hag).
      * lia.
      * rewrite length_insert. lia.
      * intros j Hj. destruct (decide (j = i)) as [->|Hji].
        -- rewrite list_lookup_total_insert_eq by lia. done.
        -- rewrite list_lookup_total_insert_ne by done. apply Hagree. lia.
      * exists dst'. rewrite Hrun. split_and!; [done | by rewrite Hl, length_insert |].
        intros j Hj. apply Hag. lia.
    + cbn [app mbind option_bind]. apply Input_ne_false in Hne.
      destruct (IH (S i) (<[i := dst !!! (i - 1)%nat]> dst)) as (dst' & Hrun & Hl & Hag).
      * lia.
      * rewrite length_insert. lia.
      * intros j Hj. destruct (decide (j = i)) as [->|Hji].
        -- rewrite list_lookup_total_insert_eq by lia.
           rewrite Hagree by lia. done.
        -- rewrite list_lookup_total_insert_ne by done. apply Hagree. lia.
      * exists dst'. rewrite Hrun. split_and!; [done | by rewrite Hl, length_insert |].
        intros j Hj. apply Hag. lia.
Qed.

Lemma length_packet_bits p :
  0 ≤ num_inputs p ≤ MaxInputs → (length (packet_bits p) ≤ 1816)%nat.
Proof.
  intros Hn. unfold packet_bits, MaxInputs in *.
  rewrite !length_app, !length_bits_of_Z.
  destruct (decide (1 ≤ num_inputs p)); [|cbn; lia].
  rewrite length_app, length_input_bits.
  pose proof (length_inputs_bits (Z.to_nat (num_inputs p - 1)) 1 (inputs p)). lia.
Qed.

(** The write direction: the packet comes back unchanged and the stream
    has grown by [packet_bits]. *)
Lemma write_packet (w : WriteStream) p :
  0 ≤ num_inputs p ≤ MaxInputs →
  (length (w_bits w) + 1816 ≤ w_capacity w)%nat →
  LockstepInputPacket_Serialize w p =
  Some (p, mkWriteStream (w_bits w ++ packet_bits p) (w_capacity w)).
Proof.
  intros Hn Hcap. unfold LockstepInputPacket_Serialize, packet_bits.
  rewrite write_uint16 by lia. cbn [mbind option_bind].
  rewrite write_int by (try done; cbn [w_bits w_capacity]; rewrite length_app, length_bits_of_Z;
                        change (bits_required 0 MaxInputs) with 9%nat; lia).
  cbn [mbind option_bind w_bits w_capacity].
  change (bits_required 0 MaxInputs) with 9%nat. rewrite Z.sub_0_r.
  unfold MaxInputs in Hn.
  destruct (decide (1 ≤ num_inputs p)) as [Hge|Hlt].
  - rewrite write_input
      by (cbn [w_bits w_capacity]; rewrite !length_app, !length_bits_of_Z; lia).
    cbn [mbind option_bind w_bits w_capacity].
    assert (<[0%nat := inputs p !!! 0%nat]> (inputs p) = inputs p) as ->.
    { apply list_insert_id'. intros Hi. by apply list_lookup_lookup_total_lt. }
    rewrite write_loop
      by (cbn [w_bits w_capacity]; rewrite !length_app, !length_bits_of_Z; cbn; lia).
    cbn [mbind option_bind w_bits w_capacity]. destruct p. cbn [sequence num_inputs inputs].
    do 3 f_equal. by rewrite <- !app_assoc.
  - destruct p. cbn [sequence num_inputs inputs].
    do 3 f_equal. by rewrite app_nil_r, <- !app_assoc.
Qed.

(** The read direction, into a packet whose array has room. *)
Lemma read_packet p q rest :
  0 ≤ sequence p < 2 ^ 16 → 0 ≤ num_inputs p ≤ MaxInputs →
  (Z.to_nat MaxInputs ≤ length (inputs q))%nat →
  ∃ q', LockstepInputPacket_Serialize (mkReadStream (packet_bits p ++ rest)) q
        = Some (q', mkReadStream rest)
        ∧ sequence q' = sequence p ∧ num_inputs q' = num_inputs p
        ∧ ∀ j, (Z.of_nat j < num_inputs p) → inputs q' !!! j = inputs p !!! j.
Proof.
  intros Hs Hn Hlen. unfold LockstepInputPacket_Serialize, packet_bits.
  rewrite <- !app_assoc, read_uint16 by done. cbn [mbind option_bind].
  pose proof (read_int (num_inputs p) 0 MaxInputs (num_inputs q)) as Hint.
  change (bits_required 0 MaxInputs) with 9%nat in Hint. rewrite Z.sub_0_r in Hint.
  rewrite Hint by done. cbn [mbind option_bind]. clear Hint.
  unfold MaxInputs in *.
  destruct (decide (1 ≤ num_inputs p)) as [Hge|Hlt].
  - rewrite <- app_assoc, read_input. cbn [mbind option_bind].
    destruct (read_loop (Z.to_nat (num_inputs p - 1)) 1 (inputs p)
                        (<[0%nat := inputs p !!! 0%nat]> (inputs q)) rest)
      as (dst' & Hrun & Hl & Hag).
    + lia.
    + rewrite length_insert. lia.
    + intros j Hj. assert (j = 0%nat) as -> by lia.
      rewrite list_lookup_total_insert_eq by lia. done.
    + rewrite Hrun. cbn [mbind option_bind]. eexists. split; [done |]. cbn.
      split_and!; [done | done |]. intros j Hj. apply Hag. lia.
  - cbn [app]. eexists. split; [done |]. cbn. split_and!; [done | done |]. intros j Hj. lia.
Qed.

End SerializeFacts.

Module RoundTrip.
Import Stream Lockstep Wire StreamFacts SerializeFacts.

Lemma write_then_read p (buffer : list byte) :
  valid_input_packet p →
  ∃ w q,
    SerializeWrite (WriteStream_new MaxPacketSize) (InputPacket p) = Some w
    ∧ w_bits w = packet_bits p
    ∧ SerializeRead (ReadStream_new (WriteStream_buffer buffer w) MaxPacketSize)
                    (InputPacket LockstepInputPacket_new) = Some (InputPacket q)
    ∧ same_inputs q p.
Proof.
  intros [Hs Hn].
  pose proof (length_packet_bits p Hn) as Hsize.
  set (w := mkWriteStream (packet_bits p) (Z.to_nat (8 * MaxPacketSize))).
  assert (Hw : SerializeWrite (WriteStream_new MaxPacketSize) (InputPacket p) = Some w).
  { unfold SerializeWrite, Packet_Serialize, WriteStream_new.
    rewrite write_packet by (try done; unfold MaxPacketSize; cbn [w_bits w_capacity length]; lia).
    done. }
  destruct (read_after_flush w buffer MaxPacketSize) as [rest Hrest].
  { cbn [w_bits w]. unfold MaxPacketSize. lia. }
  destruct (read_packet p LockstepInputPacket_new rest Hs Hn) as (q & Hq & ? & ? & Hin).
  { unfold LockstepInputPacket_new. cbn [inputs]. by rewrite length_replicate. }
  exists w, q. split_and!; [done | done | | split_and!; [done | done |]].
  - unfold SerializeRead, Packet_Serialize.
    destruct (ReadStream_new _ _) as [bits] eqn:Hbits. cbn [r_bits] in Hrest. subst bits.
    cbn [w_bits w]. rewrite Hq. done.
  - intros i Hi. specialize (Hin (Z.to_nat i)). apply Hin. lia.
Qed.

Lemma reserialize_input (buffer : list byte) p :
  valid_input_packet p →
  ∃ q buffer', reserialize buffer (InputPacket p) = Some (InputPacket q, buffer')
               ∧ same_inputs q p.
Proof.
  intros Hp. destruct (write_then_read p buffer Hp) as (w & q & Hw & _ & Hr & Hq).
  exists q, (WriteStream_buffer buffer w). split; [|done].
  unfold reserialize. rewrite Hw. cbn [mbind option_bind GetType].
  change (Create LOCKSTEP_PACKET_INPUT) with (Some (InputPacket LockstepInputPacket_new)).
  cbn [mbind option_bind]. rewrite Hr. done.
Qed.

Lemma reserialize_ack (buffer : list byte) a :
  0 ≤ ack a < 2 ^ 16 →
  ∃ buffer', reserialize buffer (AckPacket a) = Some (AckPacket a, buffer').
Proof.
  intros Ha.
  set (w := mkWriteStream (bits_of_Z 16 (ack a)) (Z.to_nat (8 * MaxPacketSize))).
  assert (Hw : SerializeWrite (WriteStream_new MaxPacketSize) (AckPacket a) = Some w).
  { unfold SerializeWrite, Packet_Serialize, LockstepAckPacket_Serialize, WriteStream_new.
    rewrite write_uint16 by (unfold MaxPacketSize; cbn [w_bits w_capacity length]; lia). done. }
  destruct (read_after_flush w buffer MaxPacketSize) as [rest Hrest].
  { cbn [w_bits w]. rewrite length_bits_of_Z. unfold MaxPacketSize. lia. }
  exists (WriteStream_buffer buffer w).
  unfold reserialize. rewrite Hw. cbn [mbind option_bind GetType].
  change (Create LOCKSTEP_PACKET_ACK) with (Some (AckPacket (mkLockstepAckPacket 0))).
  cbn [mbind option_bind].
  unfold SerializeRead, Packet_Serialize, LockstepAckPacket_Serialize.
  destruct (ReadStream_new _ _) as [bits] eqn:Hbits. cbn [r_bits] in Hrest. subst bits.
  cbn [w_bits w]. rewrite read_uint16 by done. by destruct a.
Qed.

(** C8. For every valid [LockstepInputPacket] (sequence a 16-bit value,
    [0 <= num_inputs <= MaxInputs]), writing it to a stream over a
    [MaxPacketSize] buffer succeeds and produces the compressed encoding
    of the specification (the first input in full, each later input as a
    changed bit followed, if set, by the input); flushing it into the
    buffer and reading a fresh packet back from the buffer succeeds, and
    the packet read has the same sequence, the same [num_inputs], and the
    same inputs at every index below [num_inputs]. *)
Theorem input_packet_roundtrip (p : LockstepInputPacket) (buffer : list byte) :
  0 ≤ sequence p < 2 ^ 16 →
  0 ≤ num_inputs p ≤ MaxInputs →
  ∃ w q,
    SerializeWrite (WriteStream_new MaxPacketSize) (InputPacket p) = Some w
    ∧ w_bits w = packet_bits p
    ∧ SerializeRead (ReadStream_new (WriteStream_buffer buffer w) MaxPacketSize)
                    (InputPacket LockstepInputPacket_new) = Some (InputPacket q)
    ∧ sequence q = sequence p
    ∧ num_inputs q = num_inputs p
    ∧ ∀ i, 0 ≤ i < num_inputs p → inputs q !!! Z.to_nat i = inputs p !!! Z.to_nat i.
Proof.
  intros Hs Hn.
  destruct (write_then_read p buffer (conj Hs Hn)) as (w & q & Hw & Hb & Hr & H1 & H2 & H3).
  exists w, q. done.
Qed.

End RoundTrip.

(** ** The playout delay buffer *)

Module PlayoutFacts.
Import Lockstep Playout.

Lemma uint16_t_add_l x y : uint16_t (uint16_t x + y) = uint16_t (x + y).
Proof. unfold uint16_t. by rewrite Z.add_mod_idemp_l. Qed.

Section Facts.
Context {A : Type} `{Inhabited A}.
Implicit Types b : LockstepPlayoutDelayBuffer A.

(** What the loop of [GetFrames] does, for any number of iterations
    left and any values of the counters on entry. *)
Lemma GetFrames_loop_spec n time b num_frames frame_input :
  ∃ emitted : list A,
    let k := length emitted in
    GetFrames_loop n time b num_frames frame_input =
      (mkLockstepPlayoutDelayBuffer (stopped b) (start_time b) (most_recent_input b)
         (Nat.iter k next_frame (frame b)) (drop k (input_queue b)),
       num_frames + Z.of_nat k, frame_input ++ emitted)
    ∧ (k ≤ n)%nat
    ∧ input_queue b = emitted ++ drop k (input_queue b)
    ∧ (∀ j, (j < k)%nat →
         (time <? play_time (start_time b) (Nat.iter j next_frame (frame b)))%float = false)
    ∧ ((k < n)%nat →
         drop k (input_queue b) = [] ∨
         (time <? play_time (start_time b) (Nat.iter k next_frame (frame b)))%float = true).
Proof.
  revert b num_frames frame_input.
  induction n as [|n IH]; intros b num_frames frame_input.
  - exists []. cbn. rewrite Z.add_0_r, app_nil_r. destruct b.
    split_and!; [done | done | done | intros; lia | intros; lia].
  - cbn [GetFrames_loop]. unfold frame_time.
    destruct (time <? play_time (start_time b) (frame b))%float eqn:Hdue.
    { exists []. cbn. rewrite Z.add_0_r, app_nil_r. destruct b.
      split_and!; [done | lia | done | intros; lia | by right]. }
    destruct (input_queue b) as [|input queue] eqn:Hq.
    { exists []. cbn. rewrite Z.add_0_r, app_nil_r. destruct b. cbn in *. subst.
      split_and!; [done | lia | done | intros; lia | by left]. }
    destruct (IH (mkLockstepPlayoutDelayBuffer (stopped b) (start_time b)
                    (most_recent_input b) (next_frame (frame b)) queue)
                 (num_frames + 1) (frame_input ++ [input]))
      as (emitted & Hrun & Hk & Hqueue & Hplayed & Hstop).
    cbn [stopped start_time most_recent_input frame input_queue] in *.
    exists (input :: emitted). cbn [length drop]. rewrite Hrun.
    rewrite Nat.iter_succ_r, <- app_assoc. cbn [app].
    split_and!.
    + do 2 f_equal. lia.
    + lia.
    + by rewrite <- Hqueue.
    + intros [|j] Hj; [done |]. rewrite Nat.iter_succ_r. apply Hplayed. lia.
    + intros Hlt. apply Hstop. lia.
Qed.

(** One iteration of [AddInputs]: an input is appended only when its
    sequence number is the expected one, which then moves on by one. *)
Lemma AddInputs_body_spec first_input_sequence (inputs : list A) i b :
  let sequence := uint16_t (first_input_sequence + Z.of_nat i) in
  (sequence = most_recent_input b →
     AddInputs_body first_input_sequence inputs i b =
     mkLockstepPlayoutDelayBuffer (stopped b) (start_time b)
       (uint16_t (most_recent_input b + 1)) (frame b) (input_queue b ++ [inputs !!! i]))
  ∧ (sequence ≠ most_recent_input b →
     AddInputs_body first_input_sequence inputs i b = b).
Proof.
  cbn zeta. unfold AddInputs_body. split; intros Hs.
  - rewrite decide_True by done. by rewrite Hs.
  - by rewrite decide_False.
Qed.

Variable seq_of : A → Z.
Local Abbreviation contiguous := (Playout.contiguous seq_of).

Lemma AddInputs_body_contiguous first_input_sequence (inputs : list A) i b emitted :
  seq_of (inputs !!! i) = uint16_t (first_input_sequence + Z.of_nat i) →
  contiguous b emitted →
  contiguous (AddInputs_body first_input_sequence inputs i b) emitted.
Proof.
  intros Hlabel [Hseq Hnext]. unfold AddInputs_body.
  destruct (decide _) as [Heq|]; [|done].
  unfold Playout.contiguous. cbn [input_queue most_recent_input].
  rewrite app_assoc, length_app, fmap_app, Hseq. cbn [length fmap list_fmap].
  unfold sequence_numbers. rewrite Nat.add_1_r, seq_S, fmap_app. cbn [fmap list_fmap].
  split.
  - rewrite Hlabel, Heq, Hnext. done.
  - rewrite Heq, Hnext, uint16_t_add_l. f_equal. lia.
Qed.

Lemma AddInputs_loop_contiguous n i first_input_sequence (inputs : list A) b emitted :
  (∀ j, (i ≤ j < i + n)%nat →
        seq_of (inputs !!! j) = uint16_t (first_input_sequence + Z.of_nat j)) →
  contiguous b emitted →
  contiguous (AddInputs_loop n i first_input_sequence inputs b) emitted.
Proof.
  revert i b. induction n as [|n IH]; intros i b Hlabel Hb; [done |].
  cbn [AddInputs_loop]. apply IH.
  - intros j Hj. apply Hlabel. lia.
  - apply AddInputs_body_contiguous; [apply Hlabel; lia | done].
Qed.

Lemma AddInputs_contiguous time sequence num_inputs (inputs : list A) b emitted :
  well_labelled seq_of (CallAddInputs time sequence num_inputs inputs) →
  contiguous b emitted →
  contiguous (AddInputs time sequence num_inputs inputs b) emitted.
Proof.
  intros Hlabel Hb. unfold AddInputs. apply AddInputs_loop_contiguous.
  - intros j Hj. cbn in Hlabel. rewrite Hlabel by lia. by rewrite uint16_t_add_l.
  - by destruct (stopped b).
Qed.

Lemma GetFrames_contiguous MaxSimFrames time b emitted :
  contiguous b emitted →
  contiguous (GetFrames MaxSimFrames time b).1.1
             (emitted ++ (GetFrames MaxSimFrames time b).2).
Proof.
  intros Hb. unfold GetFrames. destruct (stopped b).
  - cbn. by rewrite app_nil_r.
  - destruct (GetFrames_loop_spec (Z.to_nat MaxSimFrames) time b 0 [])
      as (out & -> & _ & Hqueue & _).
    unfold Playout.contiguous in *. cbn [fst snd input_queue most_recent_input app].
    by rewrite <- app_assoc, <- Hqueue.
Qed.

Lemma run_contiguous MaxSimFrames (calls : list (call A)) b emitted :
  Forall (well_labelled seq_of) calls →
  contiguous b emitted →
  contiguous (run MaxSimFrames calls b emitted).1 (run MaxSimFrames calls b emitted).2.
Proof.
  revert b emitted. induction calls as [|c calls IH]; intros b emitted Hcalls Hb; [done |].
  apply Forall_cons in Hcalls as [Hc Hcalls].
  destruct c as [time sequence num_inputs inputs | time]; cbn [run].
  - apply IH; [done |]. by apply AddInputs_contiguous.
  - pose proof (GetFrames_contiguous MaxSimFrames time b emitted Hb) as Hget.
    destruct (GetFrames MaxSimFrames time b) as [[b' num_frames] frame_input].
    apply IH; done.
Qed.
End Facts.

Lemma sequence_numbers_lookup n i :
  (i < n)%nat → sequence_numbers n !! i = Some (uint16_t (Z.of_nat i)).
Proof.
  intros Hi. unfold sequence_numbers. rewrite list_lookup_fmap, lookup_seq_lt by done. done.
Qed.

Lemma sequence_numbers_lookup_inv n i x :
  sequence_numbers n !! i = Some x → x = uint16_t (Z.of_nat i).
Proof.
  intros Hx. assert (i < n)%nat as Hi.
  { apply lookup_lt_Some in Hx. unfold sequence_numbers in Hx.
    by rewrite length_fmap, length_seq in Hx. }
  rewrite sequence_numbers_lookup in Hx by done. congruence.
Qed.

Lemma sequence_numbers_NoDup n : Z.of_nat n ≤ 65536 → NoDup (sequence_numbers n).
Proof.
  intros Hn. unfold sequence_numbers. apply NoDup_fmap_2_strong; [|apply NoDup_seq].
  intros x y Hx%elem_of_seq Hy%elem_of_seq. unfold uint16_t.
  rewrite !Z.mod_small by lia. lia.
Qed.

(** C7. [GetFrames] at [time] hands out at most [MaxSimFrames] frames.
    The frames handed out are the front of the input queue, in order;
    each was handed out while the buffer was not stopped and [time] was
    not before the play time [start_time + (frame + 0.5) * (1/60) +
    PlayoutDelay] of the frame counter at that moment; each pops one
    input, advances the frame counter by one and the output count by
    one; and when fewer than [MaxSimFrames] frames come out, the buffer
    is stopped, or the queue is empty, or [time] is before the play time
    of the next frame.  Nothing else in the buffer changes. *)
Theorem GetFrames_frames {A : Type} (MaxSimFrames : Z) (time : float)
    (b : LockstepPlayoutDelayBuffer A) :
  let '(b', num_frames, frame_input) := GetFrames MaxSimFrames time b in
  let k := length frame_input in
  num_frames = Z.of_nat k
  ∧ num_frames ≤ Z.max 0 MaxSimFrames
  ∧ input_queue b = frame_input ++ input_queue b'
  ∧ frame b' = Nat.iter k next_frame (frame b)
  ∧ stopped b' = stopped b
  ∧ start_time b' = start_time b
  ∧ most_recent_input b' = most_recent_input b
  ∧ (∀ j, (j < k)%nat →
       stopped b = false ∧
       (time <? play_time (start_time b) (Nat.iter j next_frame (frame b)))%float = false)
  ∧ (num_frames < MaxSimFrames →
       stopped b = true ∨ input_queue b' = [] ∨ (time <? frame_time b')%float = true).
Proof.
  unfold GetFrames. destruct (stopped b) eqn:Hstopped.
  - cbn. split_and!; try done; [lia | intros; lia | by left].
  - destruct (GetFrames_loop_spec (Z.to_nat MaxSimFrames) time b 0 [])
      as (out & -> & Hk & Hqueue & Hplayed & Hstop).
    cbn [app length stopped start_time most_recent_input frame input_queue].
    unfold frame_time. cbn [start_time frame].
    split_and!; try done; [lia | |].
    + intros j Hj. split; [done | by apply Hplayed].
    + intros Hlt. right. apply Hstop. lia.
Qed.

(** C5. Take any sequence of [AddInputs] and [GetFrames] calls on a
    freshly constructed playout delay buffer, with batches that overlap,
    repeat or arrive out of order in any way, each input of a batch
    carrying the sequence number its position in the batch gives it.
    An iteration of [AddInputs] appends its input exactly when the
    input's sequence number is [most_recent_input], which then advances
    by one.  Hence the frames handed out by [GetFrames] followed by the
    inputs still queued carry the sequence numbers 0, 1, 2, ... (16-bit
    wrap): each number is the previous one plus one and greater than it
    under the wrap comparison, no number repeats within one turn of the
    16-bit counter, and [most_recent_input] is the number that follows. *)
Theorem playout_sequence_contiguous {A : Type} `{Inhabited A} (seq_of : A → Z)
    (MaxSimFrames : Z) (calls : list (call A)) :
  Forall (well_labelled seq_of) calls →
  let '(b, emitted) := run MaxSimFrames calls LockstepPlayoutDelayBuffer_new [] in
  let numbers := seq_of <$> (emitted ++ input_queue b) in
  (∀ first_input_sequence inputs i (b0 : LockstepPlayoutDelayBuffer A),
     let b1 := AddInputs_body first_input_sequence inputs i b0 in
     (uint16_t (first_input_sequence + Z.of_nat i) = most_recent_input b0 →
        input_queue b1 = input_queue b0 ++ [inputs !!! i]
        ∧ most_recent_input b1 = uint16_t (most_recent_input b0 + 1))
     ∧ (uint16_t (first_input_sequence + Z.of_nat i) ≠ most_recent_input b0 → b1 = b0))
  ∧ numbers = sequence_numbers (length numbers)
  ∧ most_recent_input b = uint16_t (Z.of_nat (length numbers))
  ∧ (∀ i x y, numbers !! i = Some x → numbers !! S i = Some y →
       y = uint16_t (x + 1) ∧ sequence_greater_than y x = true)
  ∧ (Z.of_nat (length numbers) ≤ 65536 → NoDup numbers).
Proof.
  intros Hcalls.
  pose proof (run_contiguous seq_of MaxSimFrames calls LockstepPlayoutDelayBuffer_new []
                             Hcalls) as Hrun.
  destruct (run MaxSimFrames calls LockstepPlayoutDelayBuffer_new []) as [b emitted].
  destruct Hrun as [Hseq Hnext]; [by split |]. cbn [fst snd] in *. cbn zeta.
  rewrite length_fmap. split_and!.
  - intros first_input_sequence inputs i b0.
    destruct (AddInputs_body_spec first_input_sequence inputs i b0) as [Hyes Hno].
    split; [|done]. intros Heq. by rewrite Hyes.
  - done.
  - done.
  - rewrite Hseq. intros i x y Hx Hy.
    apply sequence_numbers_lookup_inv in Hx, Hy. subst x y.
    assert (uint16_t (Z.of_nat (S i)) = uint16_t (uint16_t (Z.of_nat i) + 1)) as Hsucc.
    { rewrite uint16_t_add_l. f_equal. lia. }
    split; [done |]. rewrite Hsucc. unfold sequence_greater_than, uint16_t.
    apply bool_decide_eq_true.
    rewrite Zminus_mod_idemp_l.
    replace (Z.of_nat i `mod` 2 ^ 16 + 1 - Z.of_nat i `mod` 2 ^ 16) with 1 by lia.
    by rewrite Z.mod_small.
  - intros Hlen. rewrite Hseq. by apply sequence_numbers_NoDup.
Qed.

End PlayoutFacts.

(** ** The receiver's ack *)

Module AckFacts.
Import Stream Lockstep Ack RoundTrip.

(** Within a window the wrap comparison is the order of the offsets. *)
Lemma sequence_greater_than_window base a b :
  uint16_t (a - base) < 2 ^ 15 → uint16_t (b - base) < 2 ^ 15 →
  sequence_greater_than a b = bool_decide (uint16_t (b - base) < uint16_t (a - base)).
Proof.
  unfold sequence_greater_than, uint16_t. intros Ha Hb.
  apply bool_decide_ext.
  change (2 ^ 16) with 65536 in *. change (2 ^ 15) with 32768 in *.
  Z.div_mod_to_equations. lia.
Qed.

Lemma retained_ack_max base c candidates :
  within_window base (c :: candidates) →
  let r := foldl sequence_max c candidates in
  r ∈ c :: candidates
  ∧ uint16_t (r - base) < 2 ^ 15
  ∧ Forall (λ x, uint16_t (x - base) ≤ uint16_t (r - base)) (c :: candidates).
Proof.
  cbn zeta. revert c. induction candidates as [|x candidates IH]; intros c Hwin.
  - apply Forall_cons in Hwin as [Hc _]. cbn.
    split_and!; [apply list_elem_of_here | done | by repeat constructor].
  - apply Forall_cons in Hwin as [Hc Hwin]. pose proof Hwin as Hwin'.
    apply Forall_cons in Hwin' as [Hx _]. cbn [foldl].
    assert ((sequence_max c x = c ∨ sequence_max c x = x)
            ∧ uint16_t (c - base) ≤ uint16_t (sequence_max c x - base)
            ∧ uint16_t (x - base) ≤ uint16_t (sequence_max c x - base)
            ∧ uint16_t (sequence_max c x - base) < 2 ^ 15) as (Hin & Hcm & Hxm & Hm).
    { unfold sequence_max. rewrite (sequence_greater_than_window base x c) by done.
      case_bool_decide; split_and!; try done; try lia; auto. }
    destruct (IH (sequence_max c x)) as (Hr & Hrw & Hall).
    { apply Forall_cons. split; [done |]. by apply Forall_cons in Hwin as [_ ?]. }
    apply Forall_cons in Hall as [Hmr Hall].
    split_and!; [| done |].
    { rewrite !elem_of_cons in *. destruct Hr as [Hr|Hr]; [|auto].
      rewrite Hr. destruct Hin as [->| ->]; auto. }
    repeat (apply Forall_cons; split); [lia | lia | done].
Qed.

Section Loop.
Context {W : Type} `{SlidingWindow W}.
Implicit Types l : LockstepInternal W.

Lemma receive_input_spec time p l r :
  let '(l', r') := receive_input time p l r in
  network_simulator l' = network_simulator l
  ∧ (received_input_this_frame r', ack_sequence r')
    = note (tcp_mode (network_simulator l))
           (received_input_this_frame r, ack_sequence r) (sequence p).
Proof.
  unfold receive_input, note, GetTCPMode, sequence_max, candidate_ack.
  cbn [network_simulator fst snd].
  destruct (tcp_mode (network_simulator l)); cbn [negb]; [done |].
  destruct (received_input_this_frame r) eqn:Hr; cbn [negb]; [|done].
  destruct (sequence_greater_than _ _); cbn; by rewrite ?Hr.
Qed.

Lemma receive_packet_spec time received l r :
  valid_packet received →
  ∃ l' r', receive_packet time received l r = Some (l', r')
           ∧ network_simulator l' = network_simulator l
           ∧ (received_input_this_frame r', ack_sequence r')
             = foldl (note (tcp_mode (network_simulator l)))
                     (received_input_this_frame r, ack_sequence r)
                     (input_sequences [received]).
Proof.
  destruct received as [port [p | a]]; unfold valid_packet; cbn [snd]; intros Hvalid.
  - destruct (reserialize_input (buffer r) p Hvalid) as (q & buffer' & Hrt & Hseq & _).
    unfold receive_packet. rewrite Hrt. cbn [mbind option_bind GetType].
    rewrite bool_decide_eq_true_2 by done. cbn [andb].
    unfold input_sequences. cbn [mbind list_bind app].
    case_bool_decide.
    + pose proof (receive_input_spec time q l
                    (mkReceiveLocals (received_input_this_frame r) (ack_sequence r)
                                     buffer')) as Hspec.
      destruct (receive_input _ _ _ _) as [l' r'].
      exists l', r'. destruct Hspec as [Hsim Hra].
      split_and!; [done | done |]. rewrite Hra, Hseq. done.
    + cbn. eauto.
  - destruct (reserialize_ack (buffer r) a Hvalid) as (buffer' & Hrt).
    unfold receive_packet. rewrite Hrt. cbn [mbind option_bind GetType].
    rewrite bool_decide_eq_false_2 by done. cbn [andb].
    rewrite (bool_decide_eq_true_2 (LOCKSTEP_PACKET_ACK = LOCKSTEP_PACKET_ACK)) by done.
    cbn [andb]. unfold input_sequences. cbn [mbind list_bind app foldl].
    destruct (bool_decide (port = LeftPort) && negb _); eauto.
Qed.

Lemma receive_loop_spec time queue l r :
  Forall valid_packet queue →
  ∃ l' r', receive_loop time queue l r = Some (l', r')
           ∧ network_simulator l' = network_simulator l
           ∧ (received_input_this_frame r', ack_sequence r')
             = foldl (note (tcp_mode (network_simulator l)))
                     (received_input_this_frame r, ack_sequence r)
                     (input_sequences queue).
Proof.
  revert l r. induction queue as [|received queue IH]; intros l r Hvalid.
  - cbn. eauto.
  - apply Forall_cons in Hvalid as [Hone Hrest].
    destruct (receive_packet_spec time received l r Hone) as (l1 & r1 & Hrun1 & Hsim1 & Hra1).
    destruct (IH l1 r1 Hrest) as (l2 & r2 & Hrun2 & Hsim2 & Hra2).
    exists l2, r2. cbn [receive_loop]. rewrite Hrun1. cbn [mbind option_bind].
    split_and!; [done | congruence |].
    rewrite Hra2, Hra1, Hsim1.
    change (received :: queue) with ([received] ++ queue).
    unfold input_sequences at 3. rewrite bind_app, foldl_app. done.
Qed.

Lemma foldl_note_tcp ra sequences : foldl (note true) ra sequences = ra.
Proof. revert ra. induction sequences as [|s sequences IH]; intros ra; [done | apply IH]. Qed.

Lemma foldl_note_received a sequences :
  foldl (note false) (true, a) sequences
  = (true, foldl sequence_max a (candidate_ack <$> sequences)).
Proof.
  revert a. induction sequences as [|s sequences IH]; intros a; [done |].
  cbn [foldl fmap list_fmap]. unfold note at 2. cbn [fst snd]. apply IH.
Qed.
End Loop.

(** C6. On the receiver, over the packets of one tick (all well formed):
    the candidate ack of an input packet is its [sequence - 1] (16 bits);
    the [ack_sequence] retained is the candidates folded, in order of
    arrival, with the maximum under the 16-bit wrap comparison, which is
    one of the candidates and is not exceeded by any candidate whenever
    the candidates lie within one comparison window; and the tick sends
    exactly one [AckPacket], carrying [ack_sequence], to the left port
    if at least one input packet was received and the simulator is not
    in TCP mode, and sends nothing otherwise: in TCP mode the receiver
    never sends an ack. *)
Theorem receiver_ack {W : Type} `{SlidingWindow W} (MaxSimFrames : Z) (time : float)
    (buffer0 : list byte) (l : LockstepInternal W) :
  let sim := network_simulator l in
  let candidates := candidate_ack <$> input_sequences (sim_queue sim) in
  Forall valid_packet (sim_queue sim) →
  ∃ l' num_frames frame_input,
    Update_receive MaxSimFrames time buffer0 l = Some (l', num_frames, frame_input)
    ∧ sim_sent (network_simulator l') =
        sim_sent sim ++
        (if negb (tcp_mode sim) && bool_decide (candidates ≠ [])
         then [(LeftPort, AckPacket (mkLockstepAckPacket (retained_ack candidates)))]
         else [])
    ∧ (tcp_mode sim = true → sim_sent (network_simulator l') = sim_sent sim)
    ∧ (∀ base, candidates ≠ [] → within_window base candidates →
         retained_ack candidates ∈ candidates
         ∧ ∀ c, c ∈ candidates → sequence_greater_than c (retained_ack candidates) = false).
Proof.
  cbn zeta. intros Hvalid. unfold Update_receive.
  set (sim := network_simulator l) in *.
  set (l0 := mkLockstepInternal _ _ _).
  destruct (receive_loop_spec time (sim_queue sim) l0 (mkReceiveLocals false 0 buffer0) Hvalid)
    as (l1 & r1 & Hrun & Hsim & Hra).
  rewrite Hrun. cbn [mbind option_bind].
  cbn [network_simulator l0 tcp_mode received_input_this_frame ack_sequence] in Hsim, Hra.
  set (sequences := input_sequences (sim_queue sim)) in *.
  assert (Hsent : ∀ l2 : LockstepInternal W, network_simulator l2 = network_simulator
              (if received_input_this_frame r1
               then mkLockstepInternal (input_sliding_window l1) (playout_delay_buffer l1)
                      (SendPacket LeftPort (AckPacket (mkLockstepAckPacket (ack_sequence r1)))
                                  (network_simulator l1))
               else l1) →
            sim_sent (network_simulator l2) =
            sim_sent sim ++
            (if negb (tcp_mode sim) && bool_decide (candidate_ack <$> sequences ≠ [])
             then [(LeftPort, AckPacket (mkLockstepAckPacket
                                           (retained_ack (candidate_ack <$> sequences))))]
             else [])).
  { intros l2 ->. destruct (tcp_mode sim) eqn:Htcp.
    - rewrite foldl_note_tcp in Hra. injection Hra as -> _.
      rewrite Hsim. cbn. by rewrite app_nil_r.
    - destruct sequences as [|s sequences'].
      + cbn in Hra. injection Hra as -> _. rewrite Hsim. cbn. by rewrite app_nil_r.
      + cbn [foldl] in Hra. unfold note at 2 in Hra. cbn [fst snd] in Hra.
        rewrite foldl_note_received in Hra. injection Hra as -> ->.
        cbn [network_simulator SendPacket sim_sent]. rewrite Hsim. cbn. done. }
  destruct (GetFrames MaxSimFrames time _) as [[b num_frames] frame_input] eqn:Hget.
  eexists _, num_frames, frame_input. split; [done |].
  cbn [network_simulator]. split_and!.
  - apply Hsent. done.
  - intros Htcp. rewrite (Hsent _ eq_refl), Htcp. cbn. by rewrite app_nil_r.
  - intros base Hne Hwin.
    destruct (candidate_ack <$> sequences) as [|c candidates] eqn:Hc; [done |].
    destruct (retained_ack_max base c candidates Hwin) as (Hin & Hrw & Hall).
    cbn [retained_ack]. split; [done |].
    intros x Hx. rewrite Forall_forall in Hall. specialize (Hall x Hx).
    rewrite (sequence_greater_than_window base); [| |done].
    + apply bool_decide_eq_false. lia.
    + unfold within_window in Hwin. rewrite Forall_forall in Hwin. by apply Hwin.
Qed.

End AckFacts.

(** ** The playout delay buffer: batches in closed form *)

Module PlayoutMore.
Import Lockstep Playout PlayoutFacts.

Section Facts.
Context {A : Type} `{Inhabited A}.
Implicit Types b : LockstepPlayoutDelayBuffer A.

Lemma AddInputs_loop_app n1 n2 i first_input_sequence (inputs : list A) b :
  AddInputs_loop (n1 + n2) i first_input_sequence inputs b =
  AddInputs_loop n2 (i + n1) first_input_sequence inputs
                 (AddInputs_loop n1 i first_input_sequence inputs b).
Proof.
  revert i b. induction n1 as [|n1 IH]; intros i b; cbn [AddInputs_loop Nat.add].
  - by rewrite Nat.add_0_r.
  - rewrite IH. f_equal. lia.
Qed.

(** Iterations whose sequence numbers are all different from the
    expected one leave the buffer alone. *)
Lemma AddInputs_loop_skip n i first_input_sequence (inputs : list A) b :
  (∀ j, (i ≤ j < i + n)%nat →
        uint16_t (first_input_sequence + Z.of_nat j) ≠ most_recent_input b) →
  AddInputs_loop n i first_input_sequence inputs b = b.
Proof.
  revert i. induction n as [|n IH]; intros i Hj; [done |].
  cbn [AddInputs_loop].
  destruct (AddInputs_body_spec first_input_sequence inputs i b) as [_ ->].
  - apply IH. intros j ?. apply Hj. lia.
  - apply Hj. lia.
Qed.

(** Once an iteration meets the expected sequence number, it and every
    later iteration append. *)
Lemma AddInputs_loop_take n i first_input_sequence (inputs : list A) b :
  uint16_t (first_input_sequence + Z.of_nat i) = most_recent_input b →
  AddInputs_loop n i first_input_sequence inputs b =
  mkLockstepPlayoutDelayBuffer (stopped b) (start_time b)
    (uint16_t (most_recent_input b + Z.of_nat n)) (frame b)
    (input_queue b ++ ((λ j, inputs !!! j) <$> seq i n)).
Proof.
  revert i b. induction n as [|n IH]; intros i b Hi.
  - assert (uint16_t (most_recent_input b) = most_recent_input b) as Hm.
    { rewrite <- Hi. unfold uint16_t. by rewrite Z.mod_mod. }
    cbn [AddInputs_loop seq fmap list_fmap Z.of_nat].
    rewrite app_nil_r, Z.add_0_r, Hm. by destruct b.
  - cbn [AddInputs_loop].
    destruct (AddInputs_body_spec first_input_sequence inputs i b) as [Hyes _].
    rewrite Hyes by done.
    rewrite IH; cbn [stopped start_time most_recent_input frame input_queue].
    + rewrite uint16_t_add_l, <- app_assoc. cbn [seq fmap list_fmap app].
      do 2 f_equal. lia.
    + rewrite <- Hi, uint16_t_add_l. f_equal. lia.
Qed.

(** The expected input sits at [expected_index], and nowhere before. *)
Lemma expected_index_spec b sequence num_inputs :
  0 ≤ most_recent_input b < 2 ^ 16 →
  let k := expected_index b sequence num_inputs in
  0 ≤ k < 2 ^ 16
  ∧ uint16_t (uint16_t (sequence - num_inputs) + k) = most_recent_input b
  ∧ ∀ j, 0 ≤ j < k → uint16_t (uint16_t (sequence - num_inputs) + j) ≠ most_recent_input b.
Proof.
  intros Hrange. cbn zeta. unfold expected_index, uint16_t.
  set (m := most_recent_input b) in *. set (f := sequence - num_inputs).
  split; [|split].
  - apply Z.mod_pos_bound. lia.
  - rewrite Z.add_mod_idemp_l, Z.add_mod_idemp_r by lia.
    replace (f + (m - f)) with m by lia. by apply Z.mod_small.
  - intros j Hj Heq. rewrite Z.add_mod_idemp_l in Heq by lia.
    assert ((m - f) `mod` 2 ^ 16 = j `mod` 2 ^ 16) as Hmod.
    { rewrite <- Heq, Zminus_mod_idemp_l. f_equal. lia. }
    rewrite (Z.mod_small j) in Hmod; [lia |].
    pose proof (Z.mod_pos_bound (m - f) (2 ^ 16)). lia.
Qed.

Lemma batch_from_nil k num_inputs (inputs : list A) :
  num_inputs ≤ k → batch_from k num_inputs inputs = [].
Proof. intros Hk. unfold batch_from. by replace (Z.to_nat (num_inputs - k)) with 0%nat by lia. Qed.

(** [AddInputs] in closed form. *)
Lemma AddInputs_eq time sequence num_inputs (inputs : list A) b :
  0 ≤ most_recent_input b < 2 ^ 16 →
  let k := expected_index b sequence num_inputs in
  AddInputs time sequence num_inputs inputs b =
  mkLockstepPlayoutDelayBuffer false
    (if stopped b then time else start_time b)
    (if bool_decide (k < num_inputs) then uint16_t sequence else most_recent_input b)
    (frame b)
    (input_queue b ++ batch_from k num_inputs inputs).
Proof.
  intros Hrange k. unfold AddInputs.
  set (b0 := if stopped b then _ else b).
  assert (b0 = mkLockstepPlayoutDelayBuffer false (if stopped b then time else start_time b)
                 (most_recent_input b) (frame b) (input_queue b)) as ->.
  { subst b0. by destruct b as [[] ? ? ? ?]. }
  destruct (expected_index_spec b sequence num_inputs Hrange) as (Hk & Hat & Hbefore).
  fold k in Hk, Hat, Hbefore.
  case_bool_decide as Hin.
  - replace (Z.to_nat num_inputs) with (Z.to_nat k + Z.to_nat (num_inputs - k))%nat by lia.
    rewrite AddInputs_loop_app, (AddInputs_loop_skip (Z.to_nat k) 0).
    + rewrite AddInputs_loop_take; cbn [stopped start_time most_recent_input frame input_queue].
      * unfold batch_from. f_equal. rewrite <- Hat, uint16_t_add_l, <- Z.add_assoc, uint16_t_add_l.
        f_equal. lia.
      * rewrite <- Hat. f_equal. lia.
    + intros j Hj. cbn [most_recent_input]. apply Hbefore. lia.
  - rewrite AddInputs_loop_skip.
    + by rewrite batch_from_nil, app_nil_r by lia.
    + intros j Hj. cbn [most_recent_input]. apply Hbefore. lia.
Qed.

(** [AddInputs] and [GetFrames] never touch each other's counters. *)
Lemma AddInputs_loop_frame n i first_input_sequence (inputs : list A) b :
  let b' := AddInputs_loop n i first_input_sequence inputs b in
  stopped b' = stopped b ∧ start_time b' = start_time b ∧ frame b' = frame b.
Proof.
  cbn zeta. revert i b. induction n as [|n IH]; intros i b; [done |].
  cbn [AddInputs_loop]. destruct (IH (S i) (AddInputs_body first_input_sequence inputs i b))
    as (-> & -> & ->).
  unfold AddInputs_body. by destruct (decide _).
Qed.

Lemma iter_next_frame k x : Nat.iter k next_frame (uint64_t x) = uint64_t (x + Z.of_nat k).
Proof.
  induction k as [|k IH].
  - cbn [Nat.iter nat_rect Z.of_nat]. by rewrite Z.add_0_r.
  - rewrite Nat.iter_succ, IH. unfold next_frame, uint64_t. rewrite Z.add_mod_idemp_l by lia. f_equal. lia.
Qed.

Lemma run_frame MaxSimFrames (calls : list (call A)) b emitted :
  frame b = uint64_t (Z.of_nat (length emitted)) →
  let '(b', emitted') := run MaxSimFrames calls b emitted in
  frame b' = uint64_t (Z.of_nat (length emitted')).
Proof.
  revert b emitted. induction calls as [|c calls IH]; intros b emitted Hb; [done |].
  destruct c as [time sequence num_inputs inputs | time]; cbn [run].
  - apply IH. unfold AddInputs.
    destruct (AddInputs_loop_frame (Z.to_nat num_inputs) 0 (uint16_t (sequence - num_inputs))
                inputs (if stopped b
                        then mkLockstepPlayoutDelayBuffer false time (most_recent_input b)
                               (frame b) (input_queue b)
                        else b)) as (_ & _ & ->).
    by destruct (stopped b).
  - unfold GetFrames. destruct (stopped b).
    + rewrite app_nil_r. by apply IH.
    + destruct (GetFrames_loop_spec (Z.to_nat MaxSimFrames) time b 0 []) as (out & -> & _).
      cbn [app]. apply IH. cbn [frame]. rewrite Hb, iter_next_frame, length_app.
      f_equal. lia.
Qed.

Lemma run_running MaxSimFrames (calls : list (call A)) b emitted :
  stopped b = false →
  let '(b', _) := run MaxSimFrames calls b emitted in
  stopped b' = false ∧ start_time b' = start_time b.
Proof.
  revert b emitted. induction calls as [|c calls IH]; intros b emitted Hb; [done |].
  destruct c as [time sequence num_inputs inputs | time]; cbn [run].
  - set (b1 := AddInputs time sequence num_inputs inputs b).
    assert (stopped b1 = false ∧ start_time b1 = start_time b) as [H1 H2].
    { subst b1. unfold AddInputs. rewrite Hb.
      destruct (AddInputs_loop_frame (Z.to_nat num_inputs) 0
                  (uint16_t (sequence - num_inputs)) inputs b) as (-> & -> & _). done. }
    specialize (IH b1 emitted H1). destruct (run MaxSimFrames calls b1 emitted).
    by rewrite <- H2.
  - unfold GetFrames. rewrite Hb.
    destruct (GetFrames_loop_spec (Z.to_nat MaxSimFrames) time b 0 []) as (out & -> & _).
    cbn [app].
    specialize (IH (mkLockstepPlayoutDelayBuffer (stopped b) (start_time b)
                      (most_recent_input b) (Nat.iter (length out) next_frame (frame b))
                      (drop (length out) (input_queue b))) (emitted ++ out) Hb).
    done.
Qed.

Lemma run_stopped MaxSimFrames (calls : list (call A)) b emitted :
  stopped b = true →
  let '(b', emitted') := run MaxSimFrames calls b emitted in
  match first_add_time calls with
  | None => b' = b ∧ emitted' = emitted
  | Some time => stopped b' = false ∧ start_time b' = time
  end.
Proof.
  revert b emitted. induction calls as [|c calls IH]; intros b emitted Hb; [done |].
  destruct c as [time sequence num_inputs inputs | time]; cbn [run first_add_time].
  - set (b1 := AddInputs time sequence num_inputs inputs b).
    assert (stopped b1 = false ∧ start_time b1 = time) as [H1 H2].
    { subst b1. unfold AddInputs. rewrite Hb.
      destruct (AddInputs_loop_frame (Z.to_nat num_inputs) 0
                  (uint16_t (sequence - num_inputs)) inputs
                  (mkLockstepPlayoutDelayBuffer false time (most_recent_input b) (frame b)
                     (input_queue b))) as (-> & -> & _). done. }
    pose proof (run_running MaxSimFrames calls b1 emitted H1) as Hrun.
    destruct (run MaxSimFrames calls b1 emitted). by rewrite <- H2.
  - unfold GetFrames. rewrite Hb, app_nil_r. by apply IH.
Qed.

(** X5. [AddInputs] in closed form.  With [k] the index in the batch of
    the input the buffer is waiting for, a batch appends exactly its
    inputs from index [k] on, in order, and leaves [most_recent_input] at
    the batch's header sequence number; a batch that does not contain
    the expected input ([num_inputs <= k]: a stale batch, or one from
    the future that would leave a gap) appends nothing and leaves
    [most_recent_input] alone.  In both cases the buffer is running
    afterwards, its clock starts at [time] only if it was stopped, and
    the frame counter is untouched. *)
Theorem AddInputs_closed_form time sequence num_inputs (inputs : list A) b :
  0 ≤ most_recent_input b < 2 ^ 16 →
  let k := expected_index b sequence num_inputs in
  let b' := AddInputs time sequence num_inputs inputs b in
  0 ≤ k
  ∧ stopped b' = false
  ∧ start_time b' = (if stopped b then time else start_time b)
  ∧ frame b' = frame b
  ∧ input_queue b' = input_queue b ++ batch_from k num_inputs inputs
  ∧ (k < num_inputs →
       most_recent_input b' = uint16_t sequence
       ∧ Z.of_nat (length (input_queue b')) = Z.of_nat (length (input_queue b)) + (num_inputs - k))
  ∧ (num_inputs ≤ k →
       most_recent_input b' = most_recent_input b ∧ input_queue b' = input_queue b).
Proof.
  intros Hrange k b'. subst b'. rewrite AddInputs_eq by done. fold k.
  cbn [stopped start_time most_recent_input frame input_queue].
  destruct (expected_index_spec b sequence num_inputs Hrange) as (Hk & _).
  split_and!; try done; [lia | |].
  - intros Hin. rewrite bool_decide_eq_true_2 by done. split; [done |].
    unfold batch_from. rewrite length_app, length_fmap, length_seq. fold k in Hk. lia.
  - intros Hout. rewrite bool_decide_eq_false_2 by lia.
    by rewrite batch_from_nil, app_nil_r.
Qed.

(** X6. A retransmitted batch is harmless: adding the same batch a
    second time, at whatever time, changes nothing.  The batch may hold
    up to 65535 inputs. *)
Theorem AddInputs_idempotent time time' sequence num_inputs (inputs : list A) b :
  0 ≤ most_recent_input b < 2 ^ 16 →
  num_inputs < 2 ^ 16 →
  AddInputs time' sequence num_inputs inputs (AddInputs time sequence num_inputs inputs b)
  = AddInputs time sequence num_inputs inputs b.
Proof.
  intros Hrange Hn. rewrite (AddInputs_eq time) by done.
  destruct (expected_index_spec b sequence num_inputs Hrange) as (Hk & _).
  set (k := expected_index b sequence num_inputs) in *.
  set (b1 := mkLockstepPlayoutDelayBuffer _ _ _ _ _).
  assert (0 ≤ most_recent_input b1 < 2 ^ 16) as Hrange1.
  { subst b1. cbn [most_recent_input]. case_bool_decide; [|done].
    apply Z.mod_pos_bound. lia. }
  assert (num_inputs ≤ expected_index b1 sequence num_inputs) as Hout.
  { unfold expected_index. subst b1. cbn [most_recent_input]. case_bool_decide as Hin.
    - unfold uint16_t. rewrite Zminus_mod_idemp_l.
      replace (sequence - (sequence - num_inputs)) with num_inputs by lia.
      rewrite Z.mod_small; lia.
    - fold (expected_index b sequence num_inputs). fold k. lia. }
  rewrite AddInputs_eq by done.
  rewrite bool_decide_eq_false_2, batch_from_nil, app_nil_r by lia.
  done.
Qed.

(** X7. Over any sequence of calls on a fresh buffer, the frame counter
    is the number of frames handed out so far (a 64-bit counter); the
    buffer stays stopped, and hands out nothing, until the first
    [AddInputs]; and from then on it is running with [start_time] the
    time of that first call, which no later call changes. *)
Theorem run_clock MaxSimFrames (calls : list (call A)) :
  let '(b, emitted) := run MaxSimFrames calls LockstepPlayoutDelayBuffer_new [] in
  frame b = uint64_t (Z.of_nat (length emitted))
  ∧ match first_add_time calls with
    | None => b = LockstepPlayoutDelayBuffer_new ∧ emitted = []
    | Some time => stopped b = false ∧ start_time b = time
    end.
Proof.
  pose proof (run_frame MaxSimFrames calls LockstepPlayoutDelayBuffer_new [] eq_refl) as Hf.
  pose proof (run_stopped MaxSimFrames calls LockstepPlayoutDelayBuffer_new [] eq_refl) as Hc.
  destruct (run MaxSimFrames calls LockstepPlayoutDelayBuffer_new []) as [b emitted].
  done.
Qed.
End Facts.

End PlayoutMore.

(** ** The packets of the demo on the wire, and what the receive loop
       does with them *)

Module ReceiverMore.
Import Stream Lockstep Wire Ack StreamFacts SerializeFacts RoundTrip AckFacts.

Lemma length_inputs_bits_lower n i inputs : (n ≤ length (inputs_bits n i inputs))%nat.
Proof.
  revert i. induction n as [|n IH]; intros i; cbn [inputs_bits length]; [lia |].
  rewrite length_app. specialize (IH (S i)). lia.
Qed.

Lemma length_inputs_bits_same n i inputs :
  (∀ j, (i ≤ j < i + n)%nat → inputs !!! j = inputs !!! (j - 1)%nat) →
  length (inputs_bits n i inputs) = n.
Proof.
  revert i. induction n as [|n IH]; intros i Hsame; cbn [inputs_bits length]; [done |].
  rewrite Hsame, Input_ne_refl by lia. cbn [app]. rewrite IH; [done |].
  intros j Hj. apply Hsame. lia.
Qed.

(** X8. The size of an input packet on the wire.  A valid packet always
    fits the write stream over [MaxPacketSize] bytes.  It takes 25 bits
    (16 of sequence number, 9 of count) when it carries no input;
    otherwise 6 bits of first input and, for each later input, one bit
    when it equals the one before and seven when it does not: between
    [30 + num_inputs] and [24 + 7 * num_inputs] bits, the lower bound
    being met when all inputs are equal.  That is at most 1816 bits, or
    227 of the 1024 bytes. *)
Theorem input_packet_size (p : LockstepInputPacket) :
  valid_input_packet p →
  ∃ w, SerializeWrite (WriteStream_new MaxPacketSize) (InputPacket p) = Some w
       ∧ let bits := Z.of_nat (length (w_bits w)) in
         let n := num_inputs p in
         bits ≤ 1816
         ∧ (n = 0 → bits = 25)
         ∧ (1 ≤ n → 30 + n ≤ bits ≤ 24 + 7 * n)
         ∧ (1 ≤ n →
            (∀ i, (1 ≤ i)%nat → Z.of_nat i < n → inputs p !!! i = inputs p !!! (i - 1)%nat) →
            bits = 30 + n).
Proof.
  intros Hvalid. destruct (write_then_read p [] Hvalid) as (w & _ & Hwrite & Hbits & _).
  exists w. split; [done |]. cbn zeta. rewrite Hbits.
  destruct Hvalid as [_ Hn].
  pose proof (length_packet_bits p Hn) as Hmax.
  unfold packet_bits in *. rewrite !length_app, !length_bits_of_Z in *.
  destruct (decide (1 ≤ num_inputs p)) as [Hpos|Hzero].
  - rewrite length_app, length_input_bits in *.
    pose proof (length_inputs_bits (Z.to_nat (num_inputs p - 1)) 1 (inputs p)) as Hupper.
    pose proof (length_inputs_bits_lower (Z.to_nat (num_inputs p - 1)) 1 (inputs p)) as Hlower.
    split_and!; try (intros; lia).
    intros _ Hsame. rewrite length_inputs_bits_same; [lia |].
    intros j Hj. apply Hsame; lia.
  - cbn [length] in *. split_and!; intros; lia.
Qed.

(** X9. The packet factory and the round trip of any packet.  The
    factory makes a packet exactly for the types below
    [LOCKSTEP_NUM_PACKETS], and of the type asked for.  Re-serialising a
    well formed packet the way the receive loop does (write it, make a
    fresh packet of its type, read that back): always succeeds, gives a
    packet of the same type, an equal ack for an ack packet, and the same
    header and inputs in use for an input packet. *)
Theorem reserialize_preserves (buffer : list byte) (received : Z * Packet) :
  valid_packet received →
  (∀ type, Create type = None ↔ ¬ (0 ≤ type < LOCKSTEP_NUM_PACKETS))
  ∧ (∀ type packet, Create type = Some packet → GetType packet = type)
  ∧ ∃ read_packet buffer',
      reserialize buffer received.2 = Some (read_packet, buffer')
      ∧ GetType read_packet = GetType received.2
      ∧ match received.2, read_packet with
        | InputPacket p, InputPacket q => same_inputs q p
        | AckPacket a, AckPacket a' => a' = a
        | _, _ => False
        end.
Proof.
  intros Hvalid. split_and!.
  - intros type. unfold Create, LOCKSTEP_PACKET_INPUT, LOCKSTEP_PACKET_ACK,
      LOCKSTEP_NUM_PACKETS. repeat destruct (decide _); split; (done || lia).
  - intros type packet. unfold Create. repeat destruct (decide _); [| |done].
    + intros [= <-]. done.
    + intros [= <-]. done.
  - destruct received as [port [p | a]]; unfold valid_packet in Hvalid; cbn [snd] in *.
    + destruct (reserialize_input buffer p Hvalid) as (q & buffer' & Hrt & Hsame).
      by exists (InputPacket q), buffer'.
    + destruct (reserialize_ack buffer a Hvalid) as (buffer' & Hrt).
      by exists (AckPacket a), buffer'.
Qed.

Lemma AddInputs_loop_ext n i first_input_sequence (inputs inputs' : list game.Input) b :
  (∀ j, (i ≤ j < i + n)%nat → inputs' !!! j = inputs !!! j) →
  AddInputs_loop n i first_input_sequence inputs' b
  = AddInputs_loop n i first_input_sequence inputs b.
Proof.
  revert i b. induction n as [|n IH]; intros i b Hsame; [done |].
  cbn [AddInputs_loop]. unfold AddInputs_body. rewrite Hsame by lia.
  apply IH. intros j Hj. apply Hsame. lia.
Qed.

(** The buffer reads only the inputs in use. *)
Lemma feed_same_inputs time b q p : same_inputs q p → feed time b q = feed time b p.
Proof.
  intros (Hsequence & Hnum & Hsame). unfold feed, AddInputs. rewrite Hsequence, Hnum.
  apply AddInputs_loop_ext.
  intros j Hj. rewrite <- (Nat2Z.id j). apply Hsame. lia.
Qed.

Section Loop.
Context {W : Type} `{SlidingWindow W}.
Implicit Types l : LockstepInternal W.

Lemma receive_packet_feeds time received l r :
  valid_packet received →
  ∃ l' r', receive_packet time received l r = Some (l', r')
           ∧ network_simulator l' = network_simulator l
             ∧ playout_delay_buffer l' =
                 foldl (feed time) (playout_delay_buffer l) (input_packets [received])
             ∧ input_sliding_window l' =
                 if tcp_mode (network_simulator l) then input_sliding_window l
                 else foldl (λ w a, SlidingWindow_Ack a w) (input_sliding_window l)
                            (ack_numbers [received]).
Proof.
  destruct received as [port [p | a]]; unfold valid_packet; cbn [snd]; intros Hvalid.
  - destruct (reserialize_input (buffer r) p Hvalid) as (q & buffer' & Hrt & Hsame).
    unfold receive_packet. rewrite Hrt. cbn [mbind option_bind GetType].
    rewrite bool_decide_eq_true_2 by done. cbn [andb].
    unfold input_packets, ack_numbers. cbn [mbind list_bind app foldl].
    case_bool_decide.
    + unfold receive_input. eexists _, _. split; [done |].
      cbn [network_simulator playout_delay_buffer input_sliding_window foldl].
      split_and!; [done | by apply feed_same_inputs | by destruct (tcp_mode _)].
    + eexists _, _. split; [done |]. cbn [foldl]. by destruct (tcp_mode _).
  - destruct (reserialize_ack (buffer r) a Hvalid) as (buffer' & Hrt).
    unfold receive_packet. rewrite Hrt. cbn [mbind option_bind GetType].
    rewrite bool_decide_eq_false_2 by done. cbn [andb].
    rewrite (bool_decide_eq_true_2 (LOCKSTEP_PACKET_ACK = LOCKSTEP_PACKET_ACK)) by done.
    cbn [andb]. unfold input_packets, ack_numbers, GetTCPMode.
    cbn [mbind list_bind app foldl].
    case_bool_decide; destruct (tcp_mode (network_simulator l)) eqn:Htcp; cbn [negb andb];
      eexists _, _; (split; [done |]);
      cbn [network_simulator playout_delay_buffer input_sliding_window foldl];
      by rewrite ?Htcp.
Qed.

Lemma receive_loop_feeds time queue l r :
  Forall valid_packet queue →
  ∃ l' r', receive_loop time queue l r = Some (l', r')
           ∧ network_simulator l' = network_simulator l
             ∧ playout_delay_buffer l' =
                 foldl (feed time) (playout_delay_buffer l) (input_packets queue)
             ∧ input_sliding_window l' =
                 if tcp_mode (network_simulator l) then input_sliding_window l
                 else foldl (λ w a, SlidingWindow_Ack a w) (input_sliding_window l)
                            (ack_numbers queue).
Proof.
  revert l r. induction queue as [|received queue IH]; intros l r Hvalid.
  - exists l, r. split; [done |]. cbn. by destruct (tcp_mode _).
  - apply Forall_cons in Hvalid as [Hone Hrest].
    destruct (receive_packet_feeds time received l r Hone)
      as (l1 & r1 & Hrun1 & Hsim1 & Hbuf1 & Hwin1).
    destruct (IH l1 r1 Hrest) as (l2 & r2 & Hrun2 & Hsim2 & Hbuf2 & Hwin2).
    exists l2, r2. cbn [receive_loop]. rewrite Hrun1. cbn [mbind option_bind].
    split; [done |].
    change (received :: queue) with ([received] ++ queue).
    unfold input_packets, ack_numbers. rewrite !bind_app, !foldl_app.
    fold (input_packets [received]) (input_packets queue).
    fold (ack_numbers [received]) (ack_numbers queue).
    split_and!; [congruence | by rewrite Hbuf2, Hbuf1 |].
    rewrite Hwin2, Hsim1, Hwin1. by destruct (tcp_mode _).
Qed.
End Loop.

(** X10. What one tick of the receiver does with the packets it finds
    (all well formed).  The playout delay buffer is fed the inputs of
    exactly the input packets addressed to the right port, in order of
    arrival and in either mode, after their round trip through the byte
    buffer, and [GetFrames] then runs on the result.  Outside TCP mode
    the sliding window is acked with exactly the acks of the ack packets
    addressed to the left port, in order; in TCP mode ack packets are
    ignored and the receive loop leaves the window alone.  Packets for
    any other port are dropped.  The simulator's queue is drained. *)
Theorem Update_receive_feeds {W : Type} `{SlidingWindow W} (MaxSimFrames : Z)
    (time : float) (buffer0 : list byte) (l : LockstepInternal W) :
  let sim := network_simulator l in
  Forall valid_packet (sim_queue sim) →
  ∃ l' num_frames frame_input,
    Update_receive MaxSimFrames time buffer0 l = Some (l', num_frames, frame_input)
    ∧ (playout_delay_buffer l', num_frames, frame_input) =
        GetFrames MaxSimFrames time
          (foldl (feed time) (playout_delay_buffer l) (input_packets (sim_queue sim)))
    ∧ input_sliding_window l' =
        (if tcp_mode sim then input_sliding_window l
         else foldl (λ w a, SlidingWindow_Ack a w) (input_sliding_window l)
                    (ack_numbers (sim_queue sim)))
    ∧ sim_queue (network_simulator l') = []
    ∧ tcp_mode (network_simulator l') = tcp_mode sim.
Proof.
  cbn zeta. intros Hvalid. unfold Update_receive.
  set (sim := network_simulator l) in *.
  set (l0 := mkLockstepInternal _ _ _).
  destruct (receive_loop_feeds time (sim_queue sim) l0 (mkReceiveLocals false 0 buffer0) Hvalid)
    as (l1 & r1 & Hrun & Hsim & Hbuf & Hwin).
  rewrite Hrun. cbn [mbind option_bind].
  cbn [l0 network_simulator playout_delay_buffer input_sliding_window tcp_mode] in Hsim, Hbuf, Hwin.
  set (l2 := if received_input_this_frame r1 then _ else l1).
  assert (playout_delay_buffer l2 = playout_delay_buffer l1
          ∧ input_sliding_window l2 = input_sliding_window l1
          ∧ sim_queue (network_simulator l2) = []
          ∧ tcp_mode (network_simulator l2) = tcp_mode sim) as (Hb2 & Hw2 & Hq2 & Ht2).
  { subst l2. destruct (received_input_this_frame r1);
      cbn [playout_delay_buffer input_sliding_window network_simulator SendPacket
           sim_queue tcp_mode]; by rewrite Hsim. }
  rewrite Hb2, Hbuf.
  destruct (GetFrames MaxSimFrames time _) as [[b num_frames] frame_input].
  eexists _, num_frames, frame_input. split; [done |].
  cbn [playout_delay_buffer input_sliding_window network_simulator].
  split_and!; [done | by rewrite Hw2, Hwin | done | done].
Qed.

End ReceiverMore.

(** ** The client *)

Module ClientFacts.
Import Client.

Section Facts.
Context `{Types} `{!Collaborators}.
Implicit Types c : Client.

(** *** Disconnect *)

Lemma Disconnect_disconnected c :
  m_state c = CLIENT_STATE_DISCONNECTED → Disconnect c = c.
Proof. intros Hs. unfold Disconnect, IsDisconnected. by rewrite bool_decide_eq_true_2. Qed.

Lemma Disconnect_state c : m_state (Disconnect c) = CLIENT_STATE_DISCONNECTED.
Proof. unfold Disconnect, IsDisconnected. by case_bool_decide. Qed.

(** What [Disconnect] leaves alone. *)
Lemma Disconnect_frame c :
  m_error (Disconnect c) = m_error c
  ∧ m_extendedError (Disconnect c) = m_extendedError c
  ∧ m_lastPacketReceiveTime (Disconnect c) = m_lastPacketReceiveTime c
  ∧ m_accumulator (Disconnect c) = m_accumulator c
  ∧ m_timeBase (Disconnect c) = m_timeBase c
  ∧ m_config (Disconnect c) = m_config c
  ∧ resolver (Disconnect c) = resolver c
  ∧ random (Disconnect c) = random c
  ∧ ni_queue (networkInterface (Disconnect c)) = ni_queue (networkInterface c).
Proof. unfold Disconnect, IsDisconnected. by case_bool_decide. Qed.

Lemma DisconnectAndSetError_spec error extendedError c :
  let c' := DisconnectAndSetError error extendedError c in
  m_state c' = CLIENT_STATE_DISCONNECTED
  ∧ m_error c' = error
  ∧ m_extendedError c' = uint32_t extendedError
  ∧ m_lastPacketReceiveTime c' = m_lastPacketReceiveTime c
  ∧ m_timeBase c' = m_timeBase c
  ∧ m_config c' = m_config c
  ∧ ni_queue (networkInterface c') = ni_queue (networkInterface c).
Proof.
  cbn zeta. unfold DisconnectAndSetError. cbn.
  pose proof (Disconnect_state c) as Hs.
  destruct (Disconnect_frame c) as (? & ? & ? & ? & ? & ? & ? & ? & ?).
  split_and!; done.
Qed.

(** C9. [Disconnect] changes nothing when the client is already
    DISCONNECTED.  Otherwise it hands exactly one packet to the network
    interface, a Disconnected packet for the current address stamped
    with the current [clientGuid] and [serverGuid]; resets the
    connection; clears the data block sender and receiver (those that
    exist); clears the session data (hostname, address and both GUIDs);
    and sets the state to DISCONNECTED.  It leaves [error] and
    [extendedError] as they were ([ClearError] is a separate call), as
    well as every other member. *)
Theorem Disconnect_spec c :
  (m_state c = CLIENT_STATE_DISCONNECTED → Disconnect c = c)
  ∧ (m_state c ≠ CLIENT_STATE_DISCONNECTED →
     let c' := Disconnect c in
     networkInterface c' =
       mkNetworkInterface
         (ni_sent (networkInterface c) ++
          [(m_address c, DisconnectedPacket (m_clientGuid c) (m_serverGuid c))])
         (ni_queue (networkInterface c))
     ∧ m_connection c' = Connection_Reset (m_connection c)
     ∧ m_dataBlockSender c' = Sender_Clear <$> m_dataBlockSender c
     ∧ m_dataBlockReceiver c' = Receiver_Clear <$> m_dataBlockReceiver c
     ∧ m_hostname c' = ""
     ∧ m_address c' = Address_new
     ∧ m_clientGuid c' = 0
     ∧ m_serverGuid c' = 0
     ∧ m_state c' = CLIENT_STATE_DISCONNECTED
     ∧ m_error c' = m_error c
     ∧ m_extendedError c' = m_extendedError c
     ∧ m_lastPacketReceiveTime c' = m_lastPacketReceiveTime c
     ∧ m_accumulator c' = m_accumulator c
     ∧ m_timeBase c' = m_timeBase c
     ∧ m_config c' = m_config c
     ∧ resolver c' = resolver c
     ∧ random c' = random c).
Proof.
  split; [apply Disconnect_disconnected |].
  intros Hs. cbn zeta. unfold Disconnect, IsDisconnected.
  rewrite bool_decide_eq_false_2 by done. cbn. done.
Qed.

(** *** UpdateReceivePackets *)

(** No iteration of the receive loop adds to the queue of the network
    interface. *)
Lemma receive_packet_queue received c :
  ni_queue (networkInterface (receive_packet received c)) = ni_queue (networkInterface c).
Proof.
  pose proof (λ e x c, proj2 (proj2 (proj2 (proj2 (proj2 (proj2
                (DisconnectAndSetError_spec e x c))))))) as Hd. cbn zeta in Hd.
  unfold receive_packet, ProcessDisconnected, ProcessDataBlockFragment,
    ProcessDataBlockFragmentAck.
  destruct (packet received), (m_state c);
    repeat first [ done | rewrite Hd | progress cbn
                 | case_bool_decide | case_match ].
Qed.

(** The loop comes to its end: with as many iterations as packets were
    queued, the queue is empty afterwards. *)
Lemma UpdateReceivePackets_drains c :
  ni_queue (networkInterface (UpdateReceivePackets c)) = [].
Proof.
  unfold UpdateReceivePackets.
  remember (length (ni_queue (networkInterface c))) as n eqn:Hn.
  revert c Hn. induction n as [|n IH]; intros c Hn.
  - cbn. by destruct (ni_queue (networkInterface c)).
  - cbn [UpdateReceivePackets_loop]. unfold ReceivePacket.
    destruct (ni_queue (networkInterface c)) as [|received queue] eqn:Hq; [done |].
    apply IH. rewrite receive_packet_queue. cbn. cbn in Hn. lia.
Qed.

(** C1 as amended. When the client is in READY_FOR_CONNECTION and
    receives a Connection packet, it moves to CONNECTED whether or not
    [ReadPacket] accepts the packet: the state is assigned before the
    packet is read.  The connection is left as [ReadPacket] leaves it,
    and [lastPacketReceiveTime] is set to the current time exactly
    when the read succeeds; otherwise it keeps its value. *)
Theorem ready_connection_packet c received payload :
  m_state c = CLIENT_STATE_READY_FOR_CONNECTION →
  packet received = Connection_Packet payload →
  let c' := receive_packet received c in
  let '(result, connection) := Connection_ReadPacket payload (m_connection c) in
  m_state c' = CLIENT_STATE_CONNECTED
  ∧ m_connection c' = connection
  ∧ m_lastPacketReceiveTime c' =
      (if result then time (m_timeBase c) else m_lastPacketReceiveTime c).
Proof.
  intros Hs Hp. cbn zeta. unfold receive_packet. rewrite Hp, Hs.
  rewrite bool_decide_eq_true_2 by done. cbn [m_connection set_m_state].
  destruct (Connection_ReadPacket payload (m_connection c)) as [[] connection]; done.
Qed.

(** The checks the handlers make.  A ReadyForConnection or a
    Disconnected packet is dropped with no change of the client unless
    its source address, its [clientGuid] and its [serverGuid] all match
    the session's.  A DataBlockFragment or a DataBlockFragmentAck packet
    is dropped with no change of the client unless its [clientGuid] and
    its [serverGuid] both match. *)
Lemma mismatched_packets_dropped c :
  (∀ address clientGuid serverGuid,
      Address_eq address (m_address c) = false
      ∨ clientGuid ≠ m_clientGuid c ∨ serverGuid ≠ m_serverGuid c →
      receive_packet (mkReceived address (ReadyForConnectionPacket clientGuid serverGuid)) c
      = c
      ∧ receive_packet (mkReceived address (DisconnectedPacket clientGuid serverGuid)) c
        = c)
  ∧ (∀ address clientGuid serverGuid blockSize numFragments fragmentId fragmentBytes
       fragmentData,
      clientGuid ≠ m_clientGuid c ∨ serverGuid ≠ m_serverGuid c →
      receive_packet
        (mkReceived address
           (DataBlockFragmentPacket clientGuid serverGuid blockSize numFragments
                                    fragmentId fragmentBytes fragmentData)) c = c
      ∧ receive_packet
          (mkReceived address
             (DataBlockFragmentAckPacket clientGuid serverGuid fragmentId)) c = c).
Proof.
  split.
  - intros address clientGuid serverGuid Hmis.
    unfold receive_packet, ProcessDisconnected. cbn [packet GetAddress].
    split.
    + destruct (m_state c); try done.
      destruct Hmis as [-> | [Hg | Hg]]; [done | |].
      * rewrite (bool_decide_eq_false_2 (clientGuid = _)) by done.
        by rewrite andb_false_r.
      * rewrite (bool_decide_eq_false_2 (serverGuid = _)) by done.
        by rewrite andb_false_r.
    + destruct Hmis as [-> | [Hg | Hg]]; [done | |].
      * destruct (negb _); [done |]. by rewrite bool_decide_eq_true_2.
      * destruct (negb _); [done |]. case_bool_decide; [done |].
        by rewrite bool_decide_eq_true_2.
  - intros address clientGuid serverGuid blockSize numFragments fragmentId fragmentBytes
           fragmentData Hmis.
    unfold receive_packet, ProcessDataBlockFragment, ProcessDataBlockFragmentAck.
    cbn [packet GetAddress].
    assert (bool_decide (clientGuid ≠ m_clientGuid c) = true
            ∨ bool_decide (clientGuid ≠ m_clientGuid c) = false
              ∧ bool_decide (serverGuid ≠ m_serverGuid c) = true) as Hcases.
    { destruct Hmis as [Hg | Hg].
      - left. by apply bool_decide_eq_true_2.
      - destruct (bool_decide (clientGuid ≠ m_clientGuid c)); [by left |].
        right. split; [done |]. by apply bool_decide_eq_true_2. }
    split; destruct (m_state c); try done;
      destruct Hcases as [-> | [-> ->]]; done.
Qed.

(** C2. The code does not do what the specification says where the
    source address is concerned.  Take a packet from an address that is not the
    session's.  A Connection packet is handed to the connection all the
    same: it takes a client in READY_FOR_CONNECTION to CONNECTED, and
    in CONNECTED it refreshes [lastPacketReceiveTime] when the
    connection accepts it.  A DataBlockFragment under the session's
    GUIDs is processed by the data block receiver, and disconnects the
    client with DATA_BLOCK_ERROR when that leaves the receiver in error.
    A DataBlockFragmentAck under the session's GUIDs is handed to the
    data block sender.  None of these handlers compares the address,
    which the handlers of the challenge, the denial, the ready packet
    and the disconnect do. *)
Theorem packets_from_stranger_accepted c address :
  Address_eq address (m_address c) = false →
  (∀ payload,
     let c' := receive_packet (mkReceived address (Connection_Packet payload)) c in
     let read := Connection_ReadPacket payload (m_connection c) in
     (m_state c = CLIENT_STATE_READY_FOR_CONNECTION ∨ m_state c = CLIENT_STATE_CONNECTED →
      m_state c' = CLIENT_STATE_CONNECTED
      ∧ m_connection c' = read.2
      ∧ m_lastPacketReceiveTime c' =
          (if read.1 then time (m_timeBase c) else m_lastPacketReceiveTime c)))
  ∧ (∀ blockSize numFragments fragmentId fragmentBytes fragmentData receiver,
       let fragment :=
         DataBlockFragmentPacket (m_clientGuid c) (m_serverGuid c) blockSize numFragments
                                 fragmentId fragmentBytes fragmentData in
       let c' := receive_packet (mkReceived address fragment) c in
       let processed :=
         Receiver_ProcessFragment blockSize numFragments fragmentId fragmentBytes
                                  fragmentData receiver in
       handled (m_state c) fragment = true →
       m_dataBlockReceiver c = Some receiver →
       if Receiver_IsError processed.1
       then m_state c' = CLIENT_STATE_DISCONNECTED
            ∧ m_error c' = CLIENT_ERROR_DATA_BLOCK_ERROR
       else m_state c' = m_state c ∧ m_dataBlockReceiver c' = Some processed.1)
  ∧ (∀ fragmentId sender,
       m_state c = CLIENT_STATE_SENDING_CLIENT_DATA →
       m_dataBlockSender c = Some sender →
       m_dataBlockSender
         (receive_packet
            (mkReceived address
               (DataBlockFragmentAckPacket (m_clientGuid c) (m_serverGuid c) fragmentId)) c)
       = Some (Sender_ProcessAck fragmentId sender)).
Proof.
  intros _. split_and!.
  - intros payload. cbn zeta. intros Hs. unfold receive_packet. cbn [packet].
    destruct (Connection_ReadPacket payload (m_connection c)) as [result connection] eqn:Hread.
    destruct Hs as [Hs | Hs]; rewrite Hs;
      rewrite ?bool_decide_eq_true_2, ?bool_decide_eq_false_2 by done;
      cbn [m_connection set_m_state]; rewrite Hread; by destruct result.
  - intros blockSize numFragments fragmentId fragmentBytes fragmentData receiver.
    cbn zeta. intros Hhandled Hreceiver.
    assert (receive_packet
              (mkReceived address
                 (DataBlockFragmentPacket (m_clientGuid c) (m_serverGuid c) blockSize
                    numFragments fragmentId fragmentBytes fragmentData)) c
            = ProcessDataBlockFragment (m_clientGuid c) (m_serverGuid c) blockSize
                numFragments fragmentId fragmentBytes fragmentData c) as ->.
    { unfold receive_packet. cbn [packet]. unfold handled in Hhandled.
      destruct (m_state c); done. }
    unfold ProcessDataBlockFragment.
    rewrite !bool_decide_eq_false_2 by (intros Hne; by apply Hne).
    rewrite Hreceiver.
    destruct (Receiver_ProcessFragment _ _ _ _ _ _) as [receiver' sent]. cbn [fst snd].
    destruct (Receiver_IsError receiver'); [|done].
    set (c1 := set_m_dataBlockReceiver _ _).
    by destruct (DisconnectAndSetError_spec CLIENT_ERROR_DATA_BLOCK_ERROR
                   (Receiver_GetError receiver') c1) as (-> & -> & _).
  - intros fragmentId sender Hs Hsender. unfold receive_packet. cbn [packet].
    rewrite Hs. unfold ProcessDataBlockFragmentAck.
    rewrite !bool_decide_eq_false_2 by (intros Hne; by apply Hne). by rewrite Hsender.
Qed.

(** *** UpdateTimeout *)

(** C4 as amended. When the client is not DISCONNECTED,
    [UpdateTimeout] disconnects with error CONNECTION_TIMED_OUT and
    [extendedError] equal to the state held just before, exactly when
    [lastPacketReceiveTime + timeout < now], where [timeout] is
    [connectedTimeOut] when CONNECTED and [connectingTimeOut]
    otherwise; when the comparison fails it changes nothing.  When the
    client is DISCONNECTED it changes nothing, whatever the times are.
    [Connect(address)] does not touch [lastPacketReceiveTime], so the
    timeout runs from the last packet received, not from the call of
    [Connect]. *)
Theorem UpdateTimeout_spec c :
  let timeout :=
    if bool_decide (m_state c = CLIENT_STATE_CONNECTED)
    then connectedTimeOut (m_config c) else connectingTimeOut (m_config c) in
  let expired := (m_lastPacketReceiveTime c + timeout <? time (m_timeBase c))%float in
  (m_state c ≠ CLIENT_STATE_DISCONNECTED → expired = true →
     UpdateTimeout c = DisconnectAndSetError CLIENT_ERROR_CONNECTION_TIMED_OUT
                                             (ClientState_value (m_state c)) c
     ∧ m_state (UpdateTimeout c) = CLIENT_STATE_DISCONNECTED
     ∧ m_error (UpdateTimeout c) = CLIENT_ERROR_CONNECTION_TIMED_OUT
     ∧ m_extendedError (UpdateTimeout c) = ClientState_value (m_state c))
  ∧ (m_state c ≠ CLIENT_STATE_DISCONNECTED → expired = false → UpdateTimeout c = c)
  ∧ (m_state c = CLIENT_STATE_DISCONNECTED → UpdateTimeout c = c)
  ∧ (∀ address,
       m_lastPacketReceiveTime (Connect_address address c) = m_lastPacketReceiveTime c).
Proof.
  cbn zeta. unfold UpdateTimeout, IsDisconnected, IsConnected. split_and!.
  - intros Hs Hexp. rewrite bool_decide_eq_false_2, Hexp by done.
    destruct (DisconnectAndSetError_spec CLIENT_ERROR_CONNECTION_TIMED_OUT
                (ClientState_value (m_state c)) c) as (? & ? & Hext & _).
    split_and!; [done | done | done |]. rewrite Hext. by destruct (m_state c).
  - intros Hs Hexp. by rewrite bool_decide_eq_false_2, Hexp.
  - intros Hs. by rewrite bool_decide_eq_true_2.
  - intros address. unfold Connect_address, ClearError.
    destruct (generate_guid _) as [guid random']. cbn.
    by destruct (Disconnect_frame c) as (_ & _ & -> & _).
Qed.

(** *** Data block packets and the time of the last packet *)

Lemma ProcessDataBlockFragment_frame clientGuid serverGuid blockSize numFragments
    fragmentId fragmentBytes fragmentData c :
  let c' := ProcessDataBlockFragment clientGuid serverGuid blockSize numFragments
                                     fragmentId fragmentBytes fragmentData c in
  m_lastPacketReceiveTime c' = m_lastPacketReceiveTime c
  ∧ m_config c' = m_config c
  ∧ m_timeBase c' = m_timeBase c
  ∧ (m_state c' = m_state c ∧ m_error c' = m_error c
     ∨ m_state c' = CLIENT_STATE_DISCONNECTED ∧ m_error c' = CLIENT_ERROR_DATA_BLOCK_ERROR).
Proof.
  cbn zeta. unfold ProcessDataBlockFragment.
  repeat case_bool_decide; try by (split_and!; try done; left).
  destruct (m_dataBlockReceiver c) as [receiver|]; [|by (split_and!; try done; left)].
  destruct (Receiver_ProcessFragment _ _ _ _ _ _) as [receiver' sent].
  destruct (Receiver_IsError receiver'); [|by (split_and!; try done; left)].
  match goal with |- context [DisconnectAndSetError ?e ?x ?c0] =>
    destruct (DisconnectAndSetError_spec e x c0) as (Hs & He & _ & Hl & Ht & Hc & _)
  end.
  rewrite Hl, Ht, Hc, Hs, He. split_and!; try done. by right.
Qed.

Lemma ProcessDataBlockFragmentAck_frame clientGuid serverGuid fragmentId c :
  let c' := ProcessDataBlockFragmentAck clientGuid serverGuid fragmentId c in
  m_lastPacketReceiveTime c' = m_lastPacketReceiveTime c
  ∧ m_config c' = m_config c
  ∧ m_timeBase c' = m_timeBase c
  ∧ m_state c' = m_state c ∧ m_error c' = m_error c.
Proof.
  cbn zeta. unfold ProcessDataBlockFragmentAck.
  repeat case_bool_decide; try done. by destruct (m_dataBlockSender c).
Qed.

Lemma receive_data_block_frame received c :
  is_data_block (packet received) = true →
  let c' := receive_packet received c in
  m_lastPacketReceiveTime c' = m_lastPacketReceiveTime c
  ∧ m_config c' = m_config c
  ∧ m_timeBase c' = m_timeBase c
  ∧ (m_state c' = m_state c ∧ m_error c' = m_error c
     ∨ m_state c' = CLIENT_STATE_DISCONNECTED ∧ m_error c' = CLIENT_ERROR_DATA_BLOCK_ERROR).
Proof.
  intros Hp. cbn zeta. unfold receive_packet.
  destruct (packet received) as [| | | | |cg sg bs nf fi fb fd|cg sg fi| |]; try done.
  - pose proof (ProcessDataBlockFragment_frame cg sg bs nf fi fb fd c) as Hf.
    revert Hf. cbn zeta.
    destruct (m_state c) eqn:Hs; intros Hf; try done; by (split_and!; try done; left).
  - pose proof (ProcessDataBlockFragmentAck_frame cg sg fi c) as Hf.
    revert Hf. cbn zeta.
    destruct (m_state c) eqn:Hs; intros (? & ? & ? & ? & ?); split_and!; try done; by left.
Qed.

(** While only data block packets are queued, the receive loop keeps the
    time of the last packet, and the client either stays where it is in
    the exchange or is disconnected by a data block error. *)
Lemma receive_loop_data_blocks n c :
  Forall (λ received, is_data_block (packet received) = true)
         (ni_queue (networkInterface c)) →
  exchanging (m_state c) →
  let c' := UpdateReceivePackets_loop n c in
  m_lastPacketReceiveTime c' = m_lastPacketReceiveTime c
  ∧ m_config c' = m_config c
  ∧ m_timeBase c' = m_timeBase c
  ∧ (m_state c' = m_state c
     ∨ m_state c' = CLIENT_STATE_DISCONNECTED ∧ m_error c' = CLIENT_ERROR_DATA_BLOCK_ERROR).
Proof.
  cbn zeta.
  enough (Hgen : ∀ n c,
    Forall (λ received, is_data_block (packet received) = true)
           (ni_queue (networkInterface c)) →
    ∀ (s : ClientState),
    (m_state c = s
     ∨ m_state c = CLIENT_STATE_DISCONNECTED ∧ m_error c = CLIENT_ERROR_DATA_BLOCK_ERROR) →
    let c' := UpdateReceivePackets_loop n c in
    m_lastPacketReceiveTime c' = m_lastPacketReceiveTime c
    ∧ m_config c' = m_config c
    ∧ m_timeBase c' = m_timeBase c
    ∧ (m_state c' = s
       ∨ m_state c' = CLIENT_STATE_DISCONNECTED ∧ m_error c' = CLIENT_ERROR_DATA_BLOCK_ERROR)).
  { intros Hq _. apply (Hgen n c Hq (m_state c)). by left. }
  clear n c. induction n as [|n IH]; intros c Hq s Hs; cbn zeta; [done |].
  cbn [UpdateReceivePackets_loop]. unfold ReceivePacket.
  destruct (ni_queue (networkInterface c)) as [|received queue] eqn:Hqueue; [done |].
  apply Forall_cons in Hq as [Hone Hrest].
  set (c1 := set_networkInterface _ c).
  destruct (receive_data_block_frame received c1 Hone) as (Hl & Hc & Ht & Hstate).
  destruct (IH (receive_packet received c1)) with (s := s) as (Hl' & Hc' & Ht' & Hstate').
  - by rewrite receive_packet_queue.
  - destruct Hstate as [[-> ->] | ?]; [done | by right].
  - rewrite Hl', Hc', Ht', Hl, Hc, Ht. done.
Qed.

Lemma UpdateResolver_frame c :
  m_state c ≠ CLIENT_STATE_RESOLVING_HOSTNAME →
  let c' := UpdateResolver c in
  m_state c' = m_state c
  ∧ m_lastPacketReceiveTime c' = m_lastPacketReceiveTime c
  ∧ m_config c' = m_config c
  ∧ m_timeBase c' = m_timeBase c.
Proof.
  intros Hs. cbn zeta. unfold UpdateResolver.
  rewrite bool_decide_eq_true_2 by done. done.
Qed.

Lemma UpdateConnection_not_connected c :
  m_state c ≠ CLIENT_STATE_CONNECTED → UpdateConnection c = c.
Proof. intros Hs. unfold UpdateConnection. by rewrite bool_decide_eq_false_2. Qed.

Lemma UpdateSendPackets_frame c :
  let c' := UpdateSendPackets c in
  m_state c' = m_state c
  ∧ m_lastPacketReceiveTime c' = m_lastPacketReceiveTime c
  ∧ m_config c' = m_config c
  ∧ m_timeBase c' = m_timeBase c
  ∧ m_error c' = m_error c.
Proof.
  cbn zeta. unfold UpdateSendPackets, send.
  case_bool_decide; [done |].
  destruct (_ <=? _)%float; [|done].
  cbn [m_state set_m_accumulator].
  destruct (m_state c) eqn:Hs; try done.
  destruct (Connection_WritePacket _). done.
Qed.

Lemma before_receive_exchanging timeBase c :
  exchanging (m_state c) →
  let c0 := before_receive timeBase c in
  m_state c0 = m_state c
  ∧ m_lastPacketReceiveTime c0 = m_lastPacketReceiveTime c
  ∧ m_config c0 = m_config c
  ∧ m_timeBase c0 = timeBase.
Proof.
  intros Hs. cbn zeta. unfold before_receive.
  set (c1 := set_m_timeBase timeBase c).
  assert (m_state c ≠ CLIENT_STATE_RESOLVING_HOSTNAME ∧ m_state c ≠ CLIENT_STATE_CONNECTED)
    as [Hnr Hnc] by (destruct Hs as [-> | [-> | ->]]; done).
  set (c2 := if PROTOCOL_USE_RESOLVER then UpdateResolver c1 else c1).
  assert (m_state c2 = m_state c
          ∧ m_lastPacketReceiveTime c2 = m_lastPacketReceiveTime c
          ∧ m_config c2 = m_config c
          ∧ m_timeBase c2 = timeBase) as (Hs2 & Hl2 & Hc2 & Ht2).
  { subst c2. destruct PROTOCOL_USE_RESOLVER; [|done].
    by destruct (UpdateResolver_frame c1 Hnr) as (-> & -> & -> & ->). }
  rewrite UpdateConnection_not_connected by (by rewrite Hs2).
  destruct (UpdateSendPackets_frame c2) as (Hs3 & Hl3 & Hc3 & Ht3 & _).
  unfold UpdateNetworkInterface.
  cbn [m_state m_lastPacketReceiveTime m_config m_timeBase set_networkInterface].
  by rewrite Hs3, Hl3, Hc3, Ht3.
Qed.

Lemma UpdateSendClientData_frame c :
  let c' := UpdateSendClientData c in
  m_lastPacketReceiveTime c' = m_lastPacketReceiveTime c
  ∧ m_config c' = m_config c
  ∧ m_timeBase c' = m_timeBase c
  ∧ m_error c' = m_error c
  ∧ (m_state c' = m_state c ∨ m_state c' = CLIENT_STATE_READY_FOR_CONNECTION).
Proof.
  cbn zeta. unfold UpdateSendClientData.
  case_bool_decide; [by (split_and!; try done; left) |].
  destruct (m_dataBlockSender c) as [sender|]; [|by (split_and!; try done; left)].
  destruct (Sender_SendCompleted sender); [by (split_and!; try done; right) |].
  destruct (Sender_Update _ _). by (split_and!; try done; left).
Qed.

(** C10. Processing a DataBlockFragment or a DataBlockFragmentAck
    packet never changes [lastPacketReceiveTime]; a packet whose
    processing changes it is a ConnectionChallenge, a
    ReadyForConnection, or a Connection packet that [ReadPacket]
    accepted.  Consequently, for a client between the challenge and
    the connection whose [Update] finds only data block packets to
    receive while more than [connectingTimeOut] has passed since
    [lastPacketReceiveTime]: the update leaves it DISCONNECTED with
    [lastPacketReceiveTime] unchanged, and with error
    CONNECTION_TIMED_OUT unless a fragment made the data block
    receiver fail, in which case the receive loop has already
    disconnected it with DATA_BLOCK_ERROR. *)
Theorem data_blocks_do_not_refresh_timeout :
  (∀ c received,
      is_data_block (packet received) = true →
      m_lastPacketReceiveTime (receive_packet received c) = m_lastPacketReceiveTime c)
  ∧ (∀ c received,
      m_lastPacketReceiveTime (receive_packet received c) ≠ m_lastPacketReceiveTime c →
      (∃ clientGuid serverGuid,
          packet received = ConnectionChallengePacket clientGuid serverGuid)
      ∨ (∃ clientGuid serverGuid,
            packet received = ReadyForConnectionPacket clientGuid serverGuid)
      ∨ (∃ payload, packet received = Connection_Packet payload
                    ∧ (Connection_ReadPacket payload (m_connection c)).1 = true))
  ∧ (∀ timeBase c,
      exchanging (m_state c) →
      Forall (λ received, is_data_block (packet received) = true)
             (ni_queue (networkInterface (before_receive timeBase c))) →
      (m_lastPacketReceiveTime c + connectingTimeOut (m_config c) <? time timeBase)%float
        = true →
      let received := UpdateReceivePackets (before_receive timeBase c) in
      let c' := Update timeBase c in
      m_state c' = CLIENT_STATE_DISCONNECTED
      ∧ m_lastPacketReceiveTime c' = m_lastPacketReceiveTime c
      ∧ (m_state received ≠ CLIENT_STATE_DISCONNECTED
         ∧ m_error c' = CLIENT_ERROR_CONNECTION_TIMED_OUT
         ∨ m_state received = CLIENT_STATE_DISCONNECTED
           ∧ m_error received = CLIENT_ERROR_DATA_BLOCK_ERROR
           ∧ m_error c' = CLIENT_ERROR_DATA_BLOCK_ERROR)).
Proof.
  split_and!.
  - intros c received Hp. by destruct (receive_data_block_frame received c Hp) as [-> _].
  - intros c received Hne.
    destruct (packet received) as [cg|cg sg|cg r|cg sg|cg sg|cg sg bs nf fi fb fd|cg sg fi
                                  |payload|cg sg] eqn:Hp.
    + exfalso. apply Hne. unfold receive_packet. rewrite Hp. by destruct (m_state c).
    + left. eauto.
    + exfalso. apply Hne. unfold receive_packet. rewrite Hp.
      destruct (m_state c); try done. destruct (_ && _); [|done].
      by destruct (DisconnectAndSetError_spec CLIENT_ERROR_CONNECTION_REQUEST_DENIED r c)
        as (_ & _ & _ & -> & _).
    + exfalso. apply Hne. unfold receive_packet. rewrite Hp. by destruct (m_state c).
    + right. left. eauto.
    + exfalso. apply Hne.
      apply (receive_data_block_frame received c). by rewrite Hp.
    + exfalso. apply Hne.
      apply (receive_data_block_frame received c). by rewrite Hp.
    + right. right. exists payload. split; [done |].
      destruct (Connection_ReadPacket payload (m_connection c)) as [[] connection] eqn:Hr;
        [done |].
      exfalso. apply Hne. unfold receive_packet. rewrite Hp.
      destruct (m_state c) eqn:Hs; try done.
      * rewrite bool_decide_eq_true_2 by done. cbn [m_connection set_m_state].
        by rewrite Hr.
      * rewrite bool_decide_eq_false_2 by done. by rewrite Hr.
    + exfalso. apply Hne. unfold receive_packet, ProcessDisconnected. rewrite Hp.
      repeat (destruct (negb _) || case_bool_decide; [done |]).
      by destruct (DisconnectAndSetError_spec CLIENT_ERROR_DISCONNECTED_FROM_SERVER 0 c)
        as (_ & _ & _ & -> & _).
  - intros timeBase c Hs Hq Hexp. cbn zeta.
    change (Update timeBase c)
      with (UpdateTimeout (UpdateSendClientData
                             (UpdateReceivePackets (before_receive timeBase c)))).
    destruct (before_receive_exchanging timeBase c Hs) as (Hs0 & Hl0 & Hc0 & Ht0).
    set (c0 := before_receive timeBase c) in *.
    assert (exchanging (m_state c0)) as Hex0 by (by rewrite Hs0).
    destruct (receive_loop_data_blocks (length (ni_queue (networkInterface c0))) c0 Hq Hex0)
      as (Hl1 & Hc1 & Ht1 & Hs1).
    fold (UpdateReceivePackets c0) in Hl1, Hc1, Ht1, Hs1.
    set (c1 := UpdateReceivePackets c0) in *.
    destruct (UpdateSendClientData_frame c1) as (Hl2 & Hc2 & Ht2 & He2 & Hs2).
    set (c2 := UpdateSendClientData c1) in *.
    destruct Hs1 as [Hs1 | [Hs1 He1]].
    + assert (exchanging (m_state c2)) as Hex2.
      { destruct Hs2 as [-> | ->]; [by rewrite Hs1 | by right; right]. }
      assert (m_state c2 ≠ CLIENT_STATE_DISCONNECTED ∧ m_state c2 ≠ CLIENT_STATE_CONNECTED)
        as [Hnd Hnc].
      { destruct Hex2 as [-> | [-> | ->]]; done. }
      unfold UpdateTimeout, IsDisconnected, IsConnected.
      rewrite !bool_decide_eq_false_2 by done.
      rewrite Hl2, Hc2, Ht2, Hl1, Hc1, Ht1, Hl0, Hc0, Ht0, Hexp.
      match goal with |- context [DisconnectAndSetError ?e ?x ?c0] =>
        destruct (DisconnectAndSetError_spec e x c0) as (-> & -> & _ & -> & _)
      end.
      split_and!; [done | congruence |]. left. split; [|done].
      rewrite Hs1. destruct Hex0 as [-> | [-> | ->]]; done.
    + assert (m_state c2 = CLIENT_STATE_DISCONNECTED) as Hs2'.
      { unfold c2, UpdateSendClientData. by rewrite Hs1. }
      unfold UpdateTimeout, IsDisconnected. rewrite bool_decide_eq_true_2 by done.
      split_and!; [done | congruence |]. right. split_and!; [done | done | congruence].
Qed.

(** *** Connect by host name *)


(** *** The error invariant *)




Lemma Connect_address_error address c : m_error (Connect_address address c) = CLIENT_ERROR_NONE.
Proof. unfold Connect_address. by destruct (generate_guid _). Qed.









(** *** A disconnected client *)

Lemma receive_packet_disconnected received c :
  m_state c = CLIENT_STATE_DISCONNECTED →
  let c' := receive_packet received c in
  m_state c' = CLIENT_STATE_DISCONNECTED
  ∧ networkInterface c' = networkInterface c
  ∧ m_lastPacketReceiveTime c' = m_lastPacketReceiveTime c
  ∧ m_accumulator c' = m_accumulator c.
Proof.
  intros Hs. cbn zeta. unfold receive_packet. rewrite Hs.
  destruct (packet received); try done.
  unfold ProcessDisconnected, DisconnectAndSetError.
  rewrite (Disconnect_disconnected c Hs).
  repeat first [ destruct (negb _); [done |] | case_bool_decide; [done |] ].
  done.
Qed.

Lemma receive_loop_disconnected n c :
  m_state c = CLIENT_STATE_DISCONNECTED →
  let c' := UpdateReceivePackets_loop n c in
  m_state c' = CLIENT_STATE_DISCONNECTED
  ∧ ni_sent (networkInterface c') = ni_sent (networkInterface c)
  ∧ m_lastPacketReceiveTime c' = m_lastPacketReceiveTime c
  ∧ m_accumulator c' = m_accumulator c.
Proof.
  cbn zeta. revert c. induction n as [|n IH]; intros c Hs; [done |].
  cbn [UpdateReceivePackets_loop]. unfold ReceivePacket.
  destruct (ni_queue (networkInterface c)) as [|received queue]; [done |].
  set (c1 := set_networkInterface _ c).
  destruct (receive_packet_disconnected received c1 Hs) as (Hs' & Hni & Hl & Ha).
  destruct (IH _ Hs') as (-> & -> & -> & ->). rewrite Hni, Hl, Ha. done.
Qed.

(** X2. §8: "A client in DISCONNECTED sends no packets and refreshes no
    timers".  An [Update] of a DISCONNECTED client leaves it DISCONNECTED,
    hands no packet to the network interface beyond what the interface's
    own update does, and leaves [lastPacketReceiveTime] and the send
    accumulator as they were. *)
Theorem disconnected_client_is_quiet timeBase c :
  m_state c = CLIENT_STATE_DISCONNECTED →
  let c' := Update timeBase c in
  m_state c' = CLIENT_STATE_DISCONNECTED
  ∧ ni_sent (networkInterface c')
    = ni_sent (NetworkInterface_Update timeBase (networkInterface c))
  ∧ m_lastPacketReceiveTime c' = m_lastPacketReceiveTime c
  ∧ m_accumulator c' = m_accumulator c.
Proof.
  intros Hs. cbn zeta. unfold Update.
  set (c1 := set_m_timeBase timeBase c).
  set (c2 := if PROTOCOL_USE_RESOLVER then UpdateResolver c1 else c1).
  assert (m_state c2 = CLIENT_STATE_DISCONNECTED
          ∧ networkInterface c2 = networkInterface c
          ∧ m_lastPacketReceiveTime c2 = m_lastPacketReceiveTime c
          ∧ m_accumulator c2 = m_accumulator c
          ∧ m_timeBase c2 = timeBase) as (Hs2 & Hni2 & Hl2 & Ha2 & Ht2).
  { subst c2. destruct PROTOCOL_USE_RESOLVER; [|done].
    unfold UpdateResolver. cbn [m_state set_resolver c1 set_m_timeBase].
    rewrite Hs. rewrite bool_decide_eq_true_2 by done. done. }
  rewrite UpdateConnection_not_connected by (by rewrite Hs2).
  assert (UpdateSendPackets c2 = c2) as ->.
  { unfold UpdateSendPackets. rewrite Hs2. done. }
  set (c3 := UpdateNetworkInterface c2).
  assert (m_state c3 = CLIENT_STATE_DISCONNECTED) as Hs3 by done.
  destruct (receive_loop_disconnected (length (ni_queue (networkInterface c3))) c3 Hs3)
    as (Hs4 & Hni4 & Hl4 & Ha4).
  fold (UpdateReceivePackets c3) in Hs4, Hni4, Hl4, Ha4.
  set (c4 := UpdateReceivePackets c3) in *.
  assert (UpdateSendClientData c4 = c4) as ->.
  { unfold UpdateSendClientData. rewrite Hs4. done. }
  assert (UpdateTimeout c4 = c4) as ->.
  { unfold UpdateTimeout, IsDisconnected. by rewrite bool_decide_eq_true_2. }
  rewrite Hni4, Hl4, Ha4.
  unfold c3, UpdateNetworkInterface.
  cbn [networkInterface m_lastPacketReceiveTime m_accumulator set_networkInterface].
  by rewrite Hni2, Hl2, Ha2, Ht2.
Qed.

(** *** Connect and the handshake *)

(** X3. [Connect(address)] disconnects any session in progress (the
    farewell packet goes to the old address), clears the error, draws a
    fresh [clientGuid], and enters SENDING_CONNECTION_REQUEST for
    [address]. *)
Theorem Connect_address_spec address c :
  let c' := Connect_address address c in
  m_state c' = CLIENT_STATE_SENDING_CONNECTION_REQUEST
  ∧ m_address c' = address
  ∧ m_clientGuid c' = (generate_guid (random c)).1
  ∧ random c' = (generate_guid (random c)).2
  ∧ m_serverGuid c' = m_serverGuid (Disconnect c)
  ∧ m_error c' = CLIENT_ERROR_NONE
  ∧ m_extendedError c' = 0
  ∧ networkInterface c' = networkInterface (Disconnect c)
  ∧ m_lastPacketReceiveTime c' = m_lastPacketReceiveTime c.
Proof.
  cbn zeta. unfold Connect_address, ClearError.
  cbn [random set_m_address set_m_state set_m_extendedError set_m_error].
  destruct (Disconnect_frame c) as (_ & _ & Hl & _ & _ & _ & _ & -> & _).
  destruct (generate_guid (random c)) as [guid random']. cbn. by rewrite Hl.
Qed.

(** X4. The accepted transitions of the handshake.  In
    SENDING_CONNECTION_REQUEST a ConnectionChallenge with the session's
    address and [clientGuid] records the [serverGuid], refreshes
    [lastPacketReceiveTime] and moves to SENDING_CHALLENGE_RESPONSE; a
    ConnectionDenied with the session's address and [clientGuid]
    disconnects with CONNECTION_REQUEST_DENIED and the server's reason.
    In SENDING_CHALLENGE_RESPONSE a ReadyForConnection with the session's
    address and GUIDs refreshes [lastPacketReceiveTime] and moves to
    READY_FOR_CONNECTION when there is no client data to send and to
    SENDING_CLIENT_DATA otherwise. *)
Theorem handshake_transitions c address :
  Address_eq address (m_address c) = true →
  (∀ serverGuid,
     m_state c = CLIENT_STATE_SENDING_CONNECTION_REQUEST →
     let c' := receive_packet
                 (mkReceived address (ConnectionChallengePacket (m_clientGuid c) serverGuid))
                 c in
     m_state c' = CLIENT_STATE_SENDING_CHALLENGE_RESPONSE
     ∧ m_serverGuid c' = serverGuid
     ∧ m_lastPacketReceiveTime c' = time (m_timeBase c))
  ∧ (∀ reason,
       m_state c = CLIENT_STATE_SENDING_CONNECTION_REQUEST →
       let c' := receive_packet
                   (mkReceived address (ConnectionDeniedPacket (m_clientGuid c) reason)) c in
       m_state c' = CLIENT_STATE_DISCONNECTED
       ∧ m_error c' = CLIENT_ERROR_CONNECTION_REQUEST_DENIED
       ∧ m_extendedError c' = uint32_t reason)
  ∧ (m_state c = CLIENT_STATE_SENDING_CHALLENGE_RESPONSE →
     let c' := receive_packet
                 (mkReceived address
                    (ReadyForConnectionPacket (m_clientGuid c) (m_serverGuid c))) c in
     m_state c' = match clientData (m_config c) with
                  | Some _ => CLIENT_STATE_SENDING_CLIENT_DATA
                  | None => CLIENT_STATE_READY_FOR_CONNECTION
                  end
     ∧ m_lastPacketReceiveTime c' = time (m_timeBase c)).
Proof.
  intros Ha. split_and!.
  - intros serverGuid Hs. cbn zeta. unfold receive_packet. cbn [packet GetAddress].
    rewrite Hs, Ha, bool_decide_eq_true_2 by done. done.
  - intros reason Hs. cbn zeta. unfold receive_packet. cbn [packet GetAddress].
    rewrite Hs, Ha, bool_decide_eq_true_2 by done. cbn [andb].
    by destruct (DisconnectAndSetError_spec CLIENT_ERROR_CONNECTION_REQUEST_DENIED reason c)
      as (-> & -> & -> & _).
  - intros Hs. cbn zeta. unfold receive_packet. cbn [packet GetAddress].
    rewrite Hs, Ha, !bool_decide_eq_true_2 by done. cbn [andb].
    by destruct (clientData (m_config c)).
Qed.
End Facts.

End ClientFacts.

(** ** protocol::Client: the remaining member functions *)

Module ClientMore.
Import Client ClientFacts.

Section Facts.
Context `{Types} `{!Collaborators}.
Implicit Types c : Client.

(** *** Disconnect and Connect *)

Lemma Disconnect_sent c :
  ni_sent (networkInterface (Disconnect c)) = ni_sent (networkInterface c) ++ farewell c.
Proof.
  unfold Disconnect, farewell. destruct (IsDisconnected c); [by rewrite app_nil_r | done].
Qed.

Lemma Disconnect_twice c : Disconnect (Disconnect c) = Disconnect c.
Proof. apply Disconnect_disconnected, Disconnect_state. Qed.

Lemma Disconnect_ClearError c : Disconnect (ClearError (Disconnect c)) = ClearError (Disconnect c).
Proof. apply Disconnect_disconnected. cbn. apply Disconnect_state. Qed.

(** X11. Disconnecting is idempotent.  A second [Disconnect] changes
    nothing and sends nothing: the farewell packet goes out once, to the
    address and under the GUIDs of the session that ends.  A second
    [DisconnectAndSetError] only overwrites the error and extended
    error: the error latched first is lost. *)
Theorem Disconnect_idempotent c error extendedError error' extendedError' :
  Disconnect (Disconnect c) = Disconnect c
  ∧ ni_sent (networkInterface (Disconnect c)) = ni_sent (networkInterface c) ++ farewell c
  ∧ farewell (Disconnect c) = []
  ∧ DisconnectAndSetError error' extendedError' (DisconnectAndSetError error extendedError c)
    = DisconnectAndSetError error' extendedError' c.
Proof.
  split_and!.
  - apply Disconnect_twice.
  - apply Disconnect_sent.
  - unfold farewell, IsDisconnected. by rewrite Disconnect_state, bool_decide_eq_true_2.
  - unfold DisconnectAndSetError.
    set (d := Disconnect c).
    rewrite (Disconnect_disconnected (_ |> set_m_error error |> set_m_extendedError _)).
    + done.
    + cbn. apply Disconnect_state.
Qed.

(** X12. [Connect( const char * )].  A host name that parses as an
    address connects exactly as [Connect( const Address & )] does.
    Otherwise, with the resolver compiled in and configured, the prior
    session is ended, the error cleared, the resolver asked for the
    name, and the client enters RESOLVING_HOSTNAME with the name cut to
    [MaxHostName - 1] characters and [lastPacketReceiveTime] set to the
    time of the last [Update]; with the resolver compiled out it ends
    DISCONNECTED with INVALID_CONNECT_ADDRESS. *)
Theorem Connect_hostname_spec hostname c :
  let address := Address_parse hostname in
  let c' := Connect_hostname hostname c in
  (Address_IsValid address = true → c' = Connect_address address c)
  ∧ (Address_IsValid address = false → PROTOCOL_USE_RESOLVER = true →
     ∀ r, resolver c = Some r →
       m_state c' = CLIENT_STATE_RESOLVING_HOSTNAME
       ∧ m_error c' = CLIENT_ERROR_NONE
       ∧ m_extendedError c' = 0
       ∧ resolver c' = Some (Resolver_Resolve hostname r)
       ∧ m_hostname c' = String.substring 0 (Z.to_nat (MaxHostName - 1)) hostname
       ∧ m_lastPacketReceiveTime c' = time (m_timeBase c)
       ∧ m_address c' = m_address (Disconnect c)
       ∧ networkInterface c' = networkInterface (Disconnect c))
  ∧ (Address_IsValid address = false → PROTOCOL_USE_RESOLVER = false →
       m_state c' = CLIENT_STATE_DISCONNECTED
       ∧ m_error c' = CLIENT_ERROR_INVALID_CONNECT_ADDRESS
       ∧ m_extendedError c' = 0
       ∧ networkInterface c' = networkInterface (Disconnect c)).
Proof.
  cbn zeta. unfold Connect_hostname.
  destruct (Disconnect_frame c) as (_ & _ & _ & _ & Htime & _ & Hres & _).
  split_and!.
  - intros ->. unfold Connect_address. rewrite Disconnect_ClearError.
    set (d := Disconnect c). done.
  - intros -> -> r Hr.
    assert (resolver (ClearError (Disconnect c)) = Some r) as Hr' by (cbn; congruence).
    rewrite bool_decide_eq_false_2 by congruence.
    set (d := Disconnect c) in *. cbn. rewrite Hres, Hr. cbn. by rewrite Htime.
  - intros -> ->. unfold DisconnectAndSetError. rewrite Disconnect_ClearError.
    set (d := Disconnect c). cbn. split_and!; try done. apply Disconnect_state.
Qed.

(** *** The steps of Update before the receive loop *)

(** X13. [UpdateSendPackets].  Below SENDING_CONNECTION_REQUEST it does
    nothing at all.  From there on the accumulator takes the elapsed
    time, and when it has reached the send interval of the state
    (connecting or connected rate) the interval is taken off it and at
    most one packet goes out, always to the address of the session: a
    connection request, a challenge response or a ready packet under the
    session's GUIDs, or a packet written by the channel when CONNECTED.
    In SENDING_CLIENT_DATA the interval is taken off but no packet is
    sent.  The state and the receive queue never change. *)
Theorem UpdateSendPackets_spec c :
  let c' := UpdateSendPackets c in
  let accumulated := (m_accumulator c + deltaTime (m_timeBase c))%float in
  let due := (timeBetweenPackets c <=? accumulated)%float in
  m_state c' = m_state c
  ∧ ni_queue (networkInterface c') = ni_queue (networkInterface c)
  ∧ (ClientState_value (m_state c)
     < ClientState_value CLIENT_STATE_SENDING_CONNECTION_REQUEST → c' = c)
  ∧ (ClientState_value CLIENT_STATE_SENDING_CONNECTION_REQUEST
     ≤ ClientState_value (m_state c) →
     m_accumulator c'
     = (if due then accumulated - timeBetweenPackets c else accumulated)%float
     ∧ ni_sent (networkInterface c') =
         ni_sent (networkInterface c) ++
         (if due then
            match m_state c with
            | CLIENT_STATE_SENDING_CONNECTION_REQUEST =>
                [(m_address c, ConnectionRequestPacket (m_clientGuid c))]
            | CLIENT_STATE_SENDING_CHALLENGE_RESPONSE =>
                [(m_address c, ChallengeResponsePacket (m_clientGuid c) (m_serverGuid c))]
            | CLIENT_STATE_READY_FOR_CONNECTION =>
                [(m_address c, ReadyForConnectionPacket (m_clientGuid c) (m_serverGuid c))]
            | CLIENT_STATE_CONNECTED =>
                [(m_address c, Connection_Packet (Connection_WritePacket (m_connection c)).1)]
            | _ => []
            end
          else [])
     ∧ m_connection c' =
         (if due && IsConnected c then (Connection_WritePacket (m_connection c)).2
          else m_connection c)).
Proof.
  cbn zeta. unfold UpdateSendPackets, timeBetweenPackets, IsConnected.
  destruct c as [cfg res ni rnd conn snd rcv host addr cg sg st err xerr last acc tb].
  cbn [m_state m_accumulator m_timeBase m_config m_connection m_address m_clientGuid
       m_serverGuid networkInterface set_m_accumulator].
  case_bool_decide as Hlow.
  - split_and!; [done | done | done |]. intros Hge. lia.
  - set (interval := float_of_double _).
    destruct (interval <=? acc + deltaTime tb)%float eqn:Hdue; cbn [andb].
    + destruct st; try (exfalso; apply Hlow; reflexivity);
        cbn -[Z.lt Z.le ClientState_value];
        try destruct (Connection_WritePacket conn) as [p conn'];
        cbn -[Z.lt Z.le ClientState_value];
        rewrite ?app_nil_r; (split_and!; [done | done | intros Hlt; by destruct Hlow | done]).
    + cbn -[Z.lt Z.le ClientState_value]. rewrite app_nil_r.
      split_and!; [done | done | intros Hlt; by destruct Hlow | done].
Qed.

Lemma Connect_address_frame address c :
  let c' := Connect_address address c in
  m_state c' = CLIENT_STATE_SENDING_CONNECTION_REQUEST
  ∧ m_error c' = CLIENT_ERROR_NONE
  ∧ m_address c' = address
  ∧ m_lastPacketReceiveTime c' = m_lastPacketReceiveTime c
  ∧ m_timeBase c' = m_timeBase c
  ∧ m_config c' = m_config c
  ∧ networkInterface c' = networkInterface (Disconnect c).
Proof.
  cbn zeta. unfold Connect_address.
  destruct (Disconnect_frame c) as (_ & _ & Hlast & _ & Htime & Hconfig & _).
  set (d := Disconnect c) in *.
  destruct (generate_guid _) as [guid random']. cbn. done.
Qed.

(** X14. [UpdateResolver] while RESOLVING_HOSTNAME, with a resolver
    configured.  The resolver is updated and then asked for the entry
    of the host name.  While the lookup is pending nothing else happens.
    A failed lookup, or no entry for the name, ends DISCONNECTED with
    RESOLVE_HOSTNAME_FAILED.  A lookup that succeeded connects to the
    first address of the result, with the configured default port put
    in when the address has port 0: the client enters
    SENDING_CONNECTION_REQUEST without error and without refreshing
    [lastPacketReceiveTime].  Leaving RESOLVING_HOSTNAME either way goes
    through [Disconnect], which sends one Disconnected packet to the
    address the client holds at that moment (the unset address after
    [Connect]). *)
Theorem UpdateResolver_spec c r :
  m_state c = CLIENT_STATE_RESOLVING_HOSTNAME →
  resolver c = Some r →
  let r' := Resolver_Update (m_timeBase c) r in
  let entry := Resolver_GetEntry (m_hostname c) r' in
  let c' := UpdateResolver c in
  let left := ni_sent (networkInterface c) ++
              [(m_address c, DisconnectedPacket (m_clientGuid c) (m_serverGuid c))] in
  resolver c' = Some r'
  ∧ (status <$> entry = Some RESOLVE_PENDING → c' = set_resolver (Some r') c)
  ∧ (entry = None ∨ status <$> entry = Some RESOLVE_FAILED →
       m_state c' = CLIENT_STATE_DISCONNECTED
       ∧ m_error c' = CLIENT_ERROR_RESOLVE_HOSTNAME_FAILED
       ∧ m_extendedError c' = 0
       ∧ ni_sent (networkInterface c') = left)
  ∧ (∀ e, entry = Some e → status e = RESOLVE_SUCCEEDED →
       m_state c' = CLIENT_STATE_SENDING_CONNECTION_REQUEST
       ∧ m_error c' = CLIENT_ERROR_NONE
       ∧ m_address c' =
           (if bool_decide (Address_GetPort (result_address_0 e) = 0)
            then Address_SetPort (defaultServerPort (m_config c)) (result_address_0 e)
            else result_address_0 e)
       ∧ m_lastPacketReceiveTime c' = m_lastPacketReceiveTime c
       ∧ ni_sent (networkInterface c') = left).
Proof.
  intros Hstate Hr. cbn zeta. unfold UpdateResolver. rewrite Hr.
  cbn [fmap option_fmap option_map].
  set (c1 := set_resolver _ c).
  assert (m_state c1 = CLIENT_STATE_RESOLVING_HOSTNAME) as Hstate1 by done.
  assert (farewell c1 = [(m_address c, DisconnectedPacket (m_clientGuid c) (m_serverGuid c))])
    as Hfarewell.
  { unfold farewell, IsDisconnected. rewrite Hstate1. done. }
  rewrite bool_decide_eq_false_2 by (rewrite Hstate1; intros Hne; by apply Hne).
  change (resolver c1) with (Some (Resolver_Update (m_timeBase c) r)).
  change (m_hostname c1) with (m_hostname c).
  cbn [mbind option_bind].
  destruct (Disconnect_frame c1) as (_ & _ & _ & _ & _ & _ & Hres & _).
  assert (∀ error, let c' := DisconnectAndSetError error 0 c1 in
            resolver c' = resolver c1
            ∧ m_state c' = CLIENT_STATE_DISCONNECTED
            ∧ m_error c' = error
            ∧ m_extendedError c' = 0
            ∧ ni_sent (networkInterface c') =
                ni_sent (networkInterface c) ++
                [(m_address c, DisconnectedPacket (m_clientGuid c) (m_serverGuid c))])
    as Hfail.
  { intros error. cbn zeta. unfold DisconnectAndSetError.
    pose proof (Disconnect_state c1) as Hs. pose proof (Disconnect_sent c1) as Hsent.
    rewrite Hfarewell in Hsent. set (d := Disconnect c1) in *. cbn. done. }
  destruct (Resolver_GetEntry _ _) as [e|] eqn:Hentry; cbn [fmap option_fmap option_map].
  - destruct (status e) eqn:Hstatus;
      rewrite ?bool_decide_eq_true_2, ?bool_decide_eq_false_2, ?bool_decide_eq_true_2,
        ?bool_decide_eq_false_2 by done.
    + split_and!; [done | done | intros [|]; done | intros e' [= <-]; congruence].
    + destruct (Connect_address_frame
                  (if bool_decide (Address_GetPort (result_address_0 e) = 0)
                   then Address_SetPort (defaultServerPort (m_config c1)) (result_address_0 e)
                   else result_address_0 e) c1) as (Hs & He & Ha & Hl & _ & _ & Hni).
      split_and!.
      * unfold Connect_address. set (d := Disconnect c1) in *.
        destruct (generate_guid _). cbn. done.
      * done.
      * intros [|]; done.
      * intros e' [= <-] _. split_and!; [done | done | done | done |].
        rewrite Hni, Disconnect_sent, Hfarewell. done.
    + destruct (Hfail CLIENT_ERROR_RESOLVE_HOSTNAME_FAILED) as (Hr1 & Hrest).
      split_and!; [done | done | done | intros e' [= <-]; congruence].
  - destruct (Hfail CLIENT_ERROR_RESOLVE_HOSTNAME_FAILED) as (Hr1 & Hrest).
    split_and!; [done | done | done | done].
Qed.

(** *** The receive loop *)

(** X15. A Disconnected packet is looked at before the switch on the
    state, so in every state: when its address and both GUIDs match the
    session, the client disconnects with DISCONNECTED_FROM_SERVER and
    extended error 0, sending its own farewell unless it was already
    DISCONNECTED.  In DISCONNECTED the session values are the unset
    address and zero GUIDs, and a packet matching those still overwrites
    whatever error was latched. *)
Theorem disconnected_packet_spec c address :
  Address_eq address (m_address c) = true →
  let c' := receive_packet
              (mkReceived address (DisconnectedPacket (m_clientGuid c) (m_serverGuid c)))
              c in
  c' = DisconnectAndSetError CLIENT_ERROR_DISCONNECTED_FROM_SERVER 0 c
  ∧ m_state c' = CLIENT_STATE_DISCONNECTED
  ∧ m_error c' = CLIENT_ERROR_DISCONNECTED_FROM_SERVER
  ∧ m_extendedError c' = 0
  ∧ m_lastPacketReceiveTime c' = m_lastPacketReceiveTime c
  ∧ ni_sent (networkInterface c') = ni_sent (networkInterface c) ++ farewell c.
Proof.
  intros Haddress. cbn zeta. unfold receive_packet. cbn [packet GetAddress].
  unfold ProcessDisconnected. rewrite Haddress. cbn [negb].
  rewrite !bool_decide_eq_false_2 by (intros Hne; by apply Hne).
  destruct (DisconnectAndSetError_spec CLIENT_ERROR_DISCONNECTED_FROM_SERVER 0 c)
    as (Hs & He & Hx & Hl & _).
  split_and!; [done | done | done | done | done |].
  unfold DisconnectAndSetError. pose proof (Disconnect_sent c) as Hsent.
  set (d := Disconnect c) in *. done.
Qed.

(** X16. Packets the state has no case for are dropped without any
    effect.  In DISCONNECTED and RESOLVING_HOSTNAME that is every packet
    but a Disconnected one; a challenge or a denial counts only in
    SENDING_CONNECTION_REQUEST, a ready packet only in
    SENDING_CHALLENGE_RESPONSE, a fragment ack only in
    SENDING_CLIENT_DATA, a fragment only from SENDING_CHALLENGE_RESPONSE
    on, a connection packet only in READY_FOR_CONNECTION and CONNECTED;
    connection requests and challenge responses, which only a server
    should see, are dropped in every state. *)
Theorem unhandled_packets_dropped c received :
  handled (m_state c) (packet received) = false →
  receive_packet received c = c.
Proof.
  unfold receive_packet, handled.
  destruct (packet received), (m_state c); done.
Qed.

(** X17. A fragment with the session's GUIDs, in a state that takes
    fragments.  Without a receiver (no server data expected) it is
    dropped.  Otherwise the receiver processes it and whatever the
    receiver sends goes out; if that leaves the receiver in error, the
    client disconnects with DATA_BLOCK_ERROR, the extended error being
    the receiver's error code read before the disconnect clears the
    receiver; if not, only the receiver and the packets sent change. *)
Theorem data_block_fragment_spec c address blockSize numFragments fragmentId
    fragmentBytes fragmentData :
  let fragment :=
    DataBlockFragmentPacket (m_clientGuid c) (m_serverGuid c) blockSize numFragments
                            fragmentId fragmentBytes fragmentData in
  handled (m_state c) fragment = true →
  let c' := receive_packet (mkReceived address fragment) c in
  match m_dataBlockReceiver c with
  | None => c' = c
  | Some receiver =>
      let processed :=
        Receiver_ProcessFragment blockSize numFragments fragmentId fragmentBytes
                                 fragmentData receiver in
      if Receiver_IsError processed.1 then
        m_state c' = CLIENT_STATE_DISCONNECTED
        ∧ m_error c' = CLIENT_ERROR_DATA_BLOCK_ERROR
        ∧ m_extendedError c' = uint32_t (Receiver_GetError processed.1)
        ∧ m_dataBlockReceiver c' = Some (Receiver_Clear processed.1)
        ∧ ni_sent (networkInterface c') =
            ni_sent (networkInterface c) ++ processed.2 ++
            [(m_address c, DisconnectedPacket (m_clientGuid c) (m_serverGuid c))]
      else
        c' = set_m_dataBlockReceiver (Some processed.1)
               (set_networkInterface
                  (mkNetworkInterface (ni_sent (networkInterface c) ++ processed.2)
                                      (ni_queue (networkInterface c))) c)
  end.
Proof.
  cbn zeta. intros Hhandled.
  assert (receive_packet
            (mkReceived address
               (DataBlockFragmentPacket (m_clientGuid c) (m_serverGuid c) blockSize
                                        numFragments fragmentId fragmentBytes fragmentData)) c
          = ProcessDataBlockFragment (m_clientGuid c) (m_serverGuid c) blockSize numFragments
                                     fragmentId fragmentBytes fragmentData c) as ->.
  { unfold receive_packet. cbn [packet]. unfold handled in Hhandled.
    destruct (m_state c); done. }
  assert (m_state c ≠ CLIENT_STATE_DISCONNECTED) as Hlive.
  { intros Hs. rewrite Hs in Hhandled. done. }
  unfold ProcessDataBlockFragment.
  rewrite !bool_decide_eq_false_2 by (intros Hne; by apply Hne).
  destruct (m_dataBlockReceiver c) as [receiver|] eqn:Hreceiver; [|done].
  destruct (Receiver_ProcessFragment _ _ _ _ _ _) as [receiver' sent]. cbn [fst snd].
  destruct (Receiver_IsError receiver'); [|done].
  set (c1 := set_m_dataBlockReceiver _ _).
  assert (m_state c1 ≠ CLIENT_STATE_DISCONNECTED) as Hlive1 by done.
  destruct (DisconnectAndSetError_spec CLIENT_ERROR_DATA_BLOCK_ERROR
              (Receiver_GetError receiver') c1) as (Hs & He & Hx & _).
  split_and!; [done | done | done | |].
  - unfold DisconnectAndSetError, Disconnect, IsDisconnected.
    rewrite bool_decide_eq_false_2 by done. done.
  - unfold DisconnectAndSetError. pose proof (Disconnect_sent c1) as Hsent.
    unfold farewell, IsDisconnected in Hsent. rewrite bool_decide_eq_false_2 in Hsent by done.
    set (d := Disconnect c1) in *. cbn. rewrite Hsent. cbn. by rewrite <- app_assoc.
Qed.

Lemma receive_next_queue c received :
  ni_queue (networkInterface (receive_next c received)) = tail (ni_queue (networkInterface c)).
Proof. unfold receive_next. by rewrite receive_packet_queue. Qed.

Lemma UpdateReceivePackets_loop_fold n c :
  (length (ni_queue (networkInterface c)) ≤ n)%nat →
  UpdateReceivePackets_loop n c = foldl receive_next c (ni_queue (networkInterface c)).
Proof.
  revert c. induction n as [|n IH]; intros c Hn.
  - destruct (ni_queue (networkInterface c)); [done | cbn in Hn; lia].
  - cbn [UpdateReceivePackets_loop]. unfold ReceivePacket.
    destruct (ni_queue (networkInterface c)) as [|received queue] eqn:Hqueue; [done |].
    cbn [foldl].
    assert (receive_packet received
              (set_networkInterface
                 (mkNetworkInterface (ni_sent (networkInterface c)) queue) c)
            = receive_next c received) as ->.
    { unfold receive_next. by rewrite Hqueue. }
    pose proof (receive_next_queue c received) as Hnext. rewrite Hqueue in Hnext.
    rewrite IH; rewrite Hnext; [done |]. cbn in Hn. cbn [tail]. lia.
Qed.

(** X18. The receive loop ends: [UpdateReceivePackets] processes the
    packets queued at entry one after the other, in order of arrival,
    each after it was taken off the queue, and leaves the queue empty;
    running the loop for longer changes nothing. *)
Theorem UpdateReceivePackets_fold c :
  UpdateReceivePackets c = foldl receive_next c (ni_queue (networkInterface c))
  ∧ ni_queue (networkInterface (UpdateReceivePackets c)) = []
  ∧ ∀ n, (length (ni_queue (networkInterface c)) ≤ n)%nat →
         UpdateReceivePackets_loop n c = UpdateReceivePackets c.
Proof.
  split_and!.
  - by apply UpdateReceivePackets_loop_fold.
  - apply UpdateReceivePackets_drains.
  - intros n Hn. unfold UpdateReceivePackets. by rewrite !UpdateReceivePackets_loop_fold.
Qed.

Local Ltac fields :=
  cbn [m_config resolver networkInterface random m_connection m_dataBlockSender
       m_dataBlockReceiver m_hostname m_address m_clientGuid m_serverGuid m_state m_error
       m_extendedError m_lastPacketReceiveTime m_accumulator m_timeBase
       set_networkInterface set_m_connection set_m_dataBlockSender set_m_dataBlockReceiver
       set_m_serverGuid set_m_state set_m_lastPacketReceiveTime
       ni_sent ni_queue packet GetAddress fst snd].

(** X19. The whole handshake can complete within one drain of the
    queue.  A client in SENDING_CONNECTION_REQUEST that finds, from the
    server's address, a challenge for its clientGuid, a ready packet
    under the GUIDs of that challenge and a connection packet, in this
    order, ends the drain CONNECTED when it has no client data to send,
    whatever the channel makes of the connection packet; with client
    data it ends in SENDING_CLIENT_DATA and the connection packet is
    dropped.  It has then recorded the serverGuid, refreshed
    [lastPacketReceiveTime], sent nothing and kept its error. *)
Theorem handshake_in_one_drain c address serverGuid payload :
  m_state c = CLIENT_STATE_SENDING_CONNECTION_REQUEST →
  Address_eq address (m_address c) = true →
  ni_queue (networkInterface c) =
    [mkReceived address (ConnectionChallengePacket (m_clientGuid c) serverGuid);
     mkReceived address (ReadyForConnectionPacket (m_clientGuid c) serverGuid);
     mkReceived address (Connection_Packet payload)] →
  let c' := UpdateReceivePackets c in
  m_state c' = match clientData (m_config c) with
               | None => CLIENT_STATE_CONNECTED
               | Some _ => CLIENT_STATE_SENDING_CLIENT_DATA
               end
  ∧ m_connection c' = match clientData (m_config c) with
                      | None => (Connection_ReadPacket payload (m_connection c)).2
                      | Some _ => m_connection c
                      end
  ∧ m_serverGuid c' = serverGuid
  ∧ m_clientGuid c' = m_clientGuid c
  ∧ m_address c' = m_address c
  ∧ m_lastPacketReceiveTime c' = time (m_timeBase c)
  ∧ m_error c' = m_error c
  ∧ networkInterface c' = mkNetworkInterface (ni_sent (networkInterface c)) [].
Proof.
  intros Hstate Haddress Hqueue. cbn zeta. unfold UpdateReceivePackets.
  rewrite UpdateReceivePackets_loop_fold, Hqueue by done. cbn [foldl].
  destruct c as [cfg res [sent queue] rnd conn snd rcv host addr cg sg st err xerr last acc tb].
  cbn [m_state m_address networkInterface ni_queue m_clientGuid] in Hstate, Haddress, Hqueue.
  subst st queue. fields.
  set (info := mkClientServerInfo addr cg serverGuid).
  match goal with
  | |- context [receive_next (receive_next ?c1 _) _] =>
      assert (c1 = mkClient cfg res
                     (mkNetworkInterface sent
                        [mkReceived address (ReadyForConnectionPacket cg serverGuid);
                         mkReceived address (Connection_Packet payload)])
                     rnd conn (Sender_SetInfo info <$> snd) (Receiver_SetInfo info <$> rcv)
                     host addr cg serverGuid CLIENT_STATE_SENDING_CHALLENGE_RESPONSE
                     err xerr (time tb) acc tb) as ->
  end.
  { unfold receive_next, receive_packet. fields. cbn [tail].
    rewrite Haddress, bool_decide_eq_true_2 by done. done. }
  match goal with
  | |- context [receive_next ?c2 (mkReceived address (Connection_Packet payload))] =>
      assert (c2 = mkClient cfg res
                     (mkNetworkInterface sent [mkReceived address (Connection_Packet payload)])
                     rnd conn (Sender_SetInfo info <$> snd) (Receiver_SetInfo info <$> rcv)
                     host addr cg serverGuid
                     match clientData cfg with
                     | None => CLIENT_STATE_READY_FOR_CONNECTION
                     | Some _ => CLIENT_STATE_SENDING_CLIENT_DATA
                     end
                     err xerr (time tb) acc tb) as ->
  end.
  { unfold receive_next, receive_packet. fields. cbn [tail].
    rewrite Haddress, !bool_decide_eq_true_2 by done. cbn [andb].
    by destruct (clientData cfg). }
  unfold receive_next, receive_packet. fields. cbn [tail].
  destruct (clientData cfg); [done |].
  rewrite bool_decide_eq_true_2 by done. fields.
  destruct (Connection_ReadPacket payload conn) as [[] conn']; done.
Qed.

(** *** Update as a whole *)

Lemma onwards_refl c : onwards c c.
Proof. split; [done | right; lia]. Qed.

Lemma orderly_refl c : orderly c c.
Proof. split; [apply onwards_refl | done]. Qed.

Lemma orderly_trans c1 c2 c3 : orderly c1 c2 → orderly c2 c3 → orderly c1 c3.
Proof.
  intros ([Hd1 Hv1] & Ht1 & Hc1) ([Hd2 Hv2] & Ht2 & Hc2).
  unfold orderly, onwards.
  split_and!; [intros Hd; by apply Hd2, Hd1 | | congruence | congruence].
  destruct Hv2 as [|Hv2]; [by left |].
  destruct Hv1 as [Hv1|Hv1]; [left; by apply Hd2 | right; lia].
Qed.

Lemma orderly_same_state c c' :
  m_state c' = m_state c → m_timeBase c' = m_timeBase c → m_config c' = m_config c →
  orderly c c'.
Proof.
  intros Hs Ht Hc. unfold orderly, onwards.
  split_and!; [congruence | right; rewrite Hs; lia | done | done].
Qed.

Lemma orderly_DisconnectAndSetError error extendedError c :
  orderly c (DisconnectAndSetError error extendedError c).
Proof.
  destruct (DisconnectAndSetError_spec error extendedError c) as (Hs & _ & _ & _ & Ht & Hc & _).
  unfold orderly, onwards. split_and!; [done | by left | done | done].
Qed.

Lemma orderly_forward c c' :
  m_state c ≠ CLIENT_STATE_DISCONNECTED →
  ClientState_value (m_state c) ≤ ClientState_value (m_state c') →
  m_timeBase c' = m_timeBase c → m_config c' = m_config c →
  orderly c c'.
Proof.
  intros Hs Hv Ht Hc. unfold orderly, onwards. split_and!; [done | by right | done | done].
Qed.

Lemma orderly_receive_packet received c : orderly c (receive_packet received c).
Proof.
  unfold receive_packet.
  destruct (packet received) as [cg|cg sg|cg r|cg sg|cg sg|cg sg bs nf fi fb fd|cg sg fi
                                |payload|cg sg] eqn:Hp.
  - destruct (m_state c); apply orderly_refl.
  - destruct (m_state c) eqn:Hs; try apply orderly_refl.
    destruct (_ && _); [|apply orderly_refl].
    apply orderly_forward; rewrite ?Hs; done.
  - destruct (m_state c); try apply orderly_refl.
    destruct (_ && _); [apply orderly_DisconnectAndSetError | apply orderly_refl].
  - destruct (m_state c); apply orderly_refl.
  - destruct (m_state c) eqn:Hs; try apply orderly_refl.
    destruct (_ && _); [|apply orderly_refl].
    destruct (clientData _); apply orderly_forward; rewrite ?Hs; done.
  - pose proof (ProcessDataBlockFragment_frame cg sg bs nf fi fb fd c) as Hf.
    cbn zeta in Hf. destruct Hf as (_ & Hc & Ht & Hcases).
    destruct (m_state c) eqn:Hst; try apply orderly_refl; unfold orderly, onwards;
      (split_and!; [by rewrite Hst | | done | done]);
      (destruct Hcases as [[Hs _] | [Hs _]]; [right; rewrite Hs, Hst; lia | by left]).
  - destruct (ProcessDataBlockFragmentAck_frame cg sg fi c) as (_ & Hc & Ht & Hs & _).
    destruct (m_state c) eqn:Hst; try apply orderly_refl.
    apply orderly_same_state; congruence.
  - destruct (m_state c) eqn:Hs; try apply orderly_refl;
      rewrite ?bool_decide_eq_true_2, ?bool_decide_eq_false_2 by done;
      destruct (Connection_ReadPacket _ _) as [[] connection];
      apply orderly_forward; cbn; rewrite ?Hs; first [done | lia].
  - unfold ProcessDisconnected.
    destruct (negb _); [apply orderly_refl |].
    do 2 (case_bool_decide; [apply orderly_refl |]).
    apply orderly_DisconnectAndSetError.
Qed.

Lemma orderly_receive_loop n c : orderly c (UpdateReceivePackets_loop n c).
Proof.
  revert c. induction n as [|n IH]; intros c; [apply orderly_refl |].
  cbn [UpdateReceivePackets_loop].
  destruct (ReceivePacket (networkInterface c)) as [[received ni]|]; [|apply orderly_refl].
  eapply orderly_trans; [|apply IH].
  eapply orderly_trans; [|apply orderly_receive_packet].
  by apply orderly_same_state.
Qed.

Lemma orderly_UpdateResolver c : orderly c (UpdateResolver c).
Proof.
  unfold UpdateResolver. set (c1 := set_resolver _ c).
  assert (orderly c c1) as H1 by (by apply orderly_same_state).
  eapply orderly_trans; [exact H1 |].
  case_bool_decide as Hs; [apply orderly_refl |].
  assert (m_state c1 = CLIENT_STATE_RESOLVING_HOSTNAME) as Hs1.
  { destruct (decide (m_state c1 = CLIENT_STATE_RESOLVING_HOSTNAME)); [done | by destruct Hs]. }
  destruct (_ ≫= _) as [entry|]; [|apply orderly_DisconnectAndSetError].
  case_bool_decide; [apply orderly_DisconnectAndSetError |].
  case_bool_decide; [|apply orderly_refl].
  destruct (Connect_address_frame
              (if bool_decide (Address_GetPort (result_address_0 entry) = 0)
               then Address_SetPort (defaultServerPort (m_config c1)) (result_address_0 entry)
               else result_address_0 entry) c1) as (Hs' & _ & _ & _ & Ht & Hc & _).
  apply orderly_forward; rewrite ?Hs', ?Hs1; done.
Qed.

Lemma orderly_UpdateConnection c : orderly c (UpdateConnection c).
Proof.
  unfold UpdateConnection. case_bool_decide; [|apply orderly_refl].
  set (c1 := set_m_connection _ c).
  eapply (orderly_trans _ c1); [by apply orderly_same_state |].
  case_bool_decide; [apply orderly_DisconnectAndSetError | apply orderly_refl].
Qed.

Lemma orderly_UpdateSendPackets c : orderly c (UpdateSendPackets c).
Proof.
  destruct (UpdateSendPackets_frame c) as (Hs & _ & Hc & Ht & _).
  by apply orderly_same_state.
Qed.

Lemma orderly_UpdateSendClientData c : orderly c (UpdateSendClientData c).
Proof.
  unfold UpdateSendClientData. case_bool_decide as Hs; [apply orderly_refl |].
  assert (m_state c = CLIENT_STATE_SENDING_CLIENT_DATA) as Hs1.
  { destruct (decide (m_state c = CLIENT_STATE_SENDING_CLIENT_DATA)); [done | by destruct Hs]. }
  destruct (m_dataBlockSender c) as [sender|]; [|apply orderly_refl].
  destruct (Sender_SendCompleted sender).
  - apply orderly_forward; rewrite ?Hs1; done.
  - destruct (Sender_Update _ _) as [sender' sent]. by apply orderly_same_state.
Qed.

Lemma orderly_UpdateTimeout c : orderly c (UpdateTimeout c).
Proof.
  unfold UpdateTimeout. destruct (IsDisconnected c); [apply orderly_refl |].
  destruct (_ <? _)%float; [apply orderly_DisconnectAndSetError | apply orderly_refl].
Qed.

Lemma orderly_Update timeBase c :
  orderly (set_m_timeBase timeBase c) (Update timeBase c).
Proof.
  unfold Update.
  set (c1 := set_m_timeBase timeBase c).
  set (c2 := if PROTOCOL_USE_RESOLVER then UpdateResolver c1 else c1).
  assert (orderly c1 c2) as H2.
  { subst c2. destruct PROTOCOL_USE_RESOLVER; [apply orderly_UpdateResolver | apply orderly_refl]. }
  eapply orderly_trans; [exact H2 |].
  eapply orderly_trans; [apply orderly_UpdateConnection |].
  eapply orderly_trans; [apply orderly_UpdateSendPackets |].
  set (c4 := UpdateSendPackets _).
  eapply (orderly_trans _ (UpdateNetworkInterface c4)); [by apply orderly_same_state |].
  eapply orderly_trans; [apply orderly_receive_loop |].
  eapply orderly_trans; [apply orderly_UpdateSendClientData |].
  apply orderly_UpdateTimeout.
Qed.

Lemma UpdateSendClientData_queue c :
  ni_queue (networkInterface (UpdateSendClientData c)) = ni_queue (networkInterface c).
Proof.
  unfold UpdateSendClientData. case_bool_decide; [done |].
  destruct (m_dataBlockSender c) as [sender|]; [|done].
  destruct (Sender_SendCompleted sender); [done |].
  by destruct (Sender_Update _ _).
Qed.

Lemma UpdateTimeout_cases c :
  let c' := UpdateTimeout c in
  ni_queue (networkInterface c') = ni_queue (networkInterface c)
  ∧ (m_state c' = CLIENT_STATE_DISCONNECTED
     ∨ c' = c ∧ (m_lastPacketReceiveTime c + timeout c <? time (m_timeBase c))%float = false).
Proof.
  cbn zeta. unfold UpdateTimeout, timeout.
  destruct (IsDisconnected c) eqn:Hd.
  - split; [done |]. left. unfold IsDisconnected in Hd. by apply bool_decide_eq_true in Hd.
  - destruct (_ <? _)%float eqn:Hexpired; [|split; [done | by right]].
    destruct (DisconnectAndSetError_spec CLIENT_ERROR_CONNECTION_TIMED_OUT
                (ClientState_value (m_state c)) c) as (Hs & _ & _ & _ & _ & _ & Hq).
    split; [done | by left].
Qed.

(** X20. What holds after every [Update].  The time base passed in is
    the client's time base; the configuration is the one it had; the
    receive queue is empty; and a client that is not DISCONNECTED has
    not timed out: its [lastPacketReceiveTime] plus the timeout of its
    state is not before the time of the update. *)
Theorem Update_postconditions timeBase c :
  let c' := Update timeBase c in
  m_timeBase c' = timeBase
  ∧ m_config c' = m_config c
  ∧ ni_queue (networkInterface c') = []
  ∧ (m_state c' ≠ CLIENT_STATE_DISCONNECTED →
     (m_lastPacketReceiveTime c' + timeout c' <? time timeBase)%float = false).
Proof.
  cbn zeta. destruct (orderly_Update timeBase c) as (_ & Ht & Hc).
  cbn [m_timeBase m_config set_m_timeBase] in Ht, Hc.
  split_and!; [done | done | |].
  - unfold Update. set (c5 := UpdateReceivePackets _).
    destruct (UpdateTimeout_cases (UpdateSendClientData c5)) as [-> _].
    rewrite UpdateSendClientData_queue. apply UpdateReceivePackets_drains.
  - revert Ht. unfold Update.
    set (c6 := UpdateSendClientData _).
    destruct (UpdateTimeout_cases c6) as [_ [Hs | [-> Hfresh]]]; [done |].
    intros Ht _. by rewrite <- Ht.
Qed.

(** X21. [Update] never takes the client back in the handshake: the
    state after it is DISCONNECTED, or a state not before the one the
    client was in, in the order DISCONNECTED, RESOLVING_HOSTNAME,
    SENDING_CONNECTION_REQUEST, SENDING_CHALLENGE_RESPONSE,
    SENDING_CLIENT_DATA, READY_FOR_CONNECTION, CONNECTED; and it never
    leaves DISCONNECTED.  The same holds of every packet processed by
    the receive loop. *)
Theorem Update_never_backwards timeBase c :
  onwards c (Update timeBase c)
  ∧ ∀ received c0, onwards c0 (receive_packet received c0).
Proof.
  split.
  - by destruct (orderly_Update timeBase c) as (Ho & _).
  - intros received c0. by destruct (orderly_receive_packet received c0) as (Ho & _).
Qed.

Lemma receive_packet_disconnected_error received c :
  m_state c = CLIENT_STATE_DISCONNECTED →
  let c' := receive_packet received c in
  m_error c' = m_error c ∨ m_error c' = CLIENT_ERROR_DISCONNECTED_FROM_SERVER.
Proof.
  intros Hs. cbn zeta. unfold receive_packet.
  destruct (packet received); rewrite ?Hs; try by left.
  unfold ProcessDisconnected. destruct (negb _); [by left |].
  do 2 (case_bool_decide; [by left |]).
  right. by destruct (DisconnectAndSetError_spec CLIENT_ERROR_DISCONNECTED_FROM_SERVER 0 c)
    as (_ & -> & _).
Qed.

Lemma receive_loop_disconnected_error n c :
  m_state c = CLIENT_STATE_DISCONNECTED →
  let c' := UpdateReceivePackets_loop n c in
  m_error c' = m_error c ∨ m_error c' = CLIENT_ERROR_DISCONNECTED_FROM_SERVER.
Proof.
  cbn zeta. revert c. induction n as [|n IH]; intros c Hs; [by left |].
  cbn [UpdateReceivePackets_loop].
  destruct (ReceivePacket (networkInterface c)) as [[received ni]|]; [|by left].
  set (c1 := set_networkInterface ni c).
  assert (m_state c1 = CLIENT_STATE_DISCONNECTED) as Hs1 by done.
  destruct (receive_packet_disconnected received c1 Hs1) as (Hs2 & _).
  destruct (IH _ Hs2) as [-> | ->]; [|by right].
  apply (receive_packet_disconnected_error received c1 Hs1).
Qed.

(** X22. An error of the channel surfaces on the tick that sees it.  A
    CONNECTED client whose connection reports an error after being
    updated ends that [Update] DISCONNECTED, with CONNECTION_ERROR
    latched unless a matching Disconnected packet found in the queue
    afterwards replaced it by DISCONNECTED_FROM_SERVER.  The only packet
    the client hands to the network interface in that tick is the
    farewell of the session, and [lastPacketReceiveTime] is kept. *)
Theorem connection_error_disconnects timeBase c :
  m_state c = CLIENT_STATE_CONNECTED →
  Connection_GetError (Connection_Update timeBase (m_connection c)) ≠ CONNECTION_ERROR_NONE →
  let c' := Update timeBase c in
  m_state c' = CLIENT_STATE_DISCONNECTED
  ∧ (m_error c' = CLIENT_ERROR_CONNECTION_ERROR
     ∨ m_error c' = CLIENT_ERROR_DISCONNECTED_FROM_SERVER)
  ∧ m_lastPacketReceiveTime c' = m_lastPacketReceiveTime c
  ∧ ni_sent (networkInterface c') =
      ni_sent (NetworkInterface_Update timeBase
                 (mkNetworkInterface
                    (ni_sent (networkInterface c) ++
                     [(m_address c, DisconnectedPacket (m_clientGuid c) (m_serverGuid c))])
                    (ni_queue (networkInterface c)))).
Proof.
  intros Hs Herror. cbn zeta. unfold Update.
  set (c1 := set_m_timeBase timeBase c).
  set (c2 := if PROTOCOL_USE_RESOLVER then UpdateResolver c1 else c1).
  assert (m_state c2 = CLIENT_STATE_CONNECTED
          ∧ m_connection c2 = m_connection c
          ∧ networkInterface c2 = networkInterface c
          ∧ m_address c2 = m_address c
          ∧ m_clientGuid c2 = m_clientGuid c
          ∧ m_serverGuid c2 = m_serverGuid c
          ∧ m_lastPacketReceiveTime c2 = m_lastPacketReceiveTime c
          ∧ m_timeBase c2 = timeBase) as (Hs2 & Hconn2 & Hni2 & Ha2 & Hcg2 & Hsg2 & Hl2 & Ht2).
  { subst c2. destruct PROTOCOL_USE_RESOLVER; [|done].
    unfold UpdateResolver. cbn [m_state set_resolver c1 set_m_timeBase].
    rewrite Hs. rewrite bool_decide_eq_true_2 by done. done. }
  set (c3 := UpdateConnection c2).
  assert (m_state c3 = CLIENT_STATE_DISCONNECTED
          ∧ m_error c3 = CLIENT_ERROR_CONNECTION_ERROR
          ∧ m_lastPacketReceiveTime c3 = m_lastPacketReceiveTime c
          ∧ m_timeBase c3 = timeBase
          ∧ networkInterface c3 =
              mkNetworkInterface
                (ni_sent (networkInterface c) ++
                 [(m_address c, DisconnectedPacket (m_clientGuid c) (m_serverGuid c))])
                (ni_queue (networkInterface c))) as (Hs3 & He3 & Hl3 & Ht3 & Hni3).
  { subst c3. unfold UpdateConnection. rewrite bool_decide_eq_true_2 by done.
    set (c2' := set_m_connection _ c2).
    assert (Connection_GetError (m_connection c2') ≠ CONNECTION_ERROR_NONE) as Herror'.
    { subst c2'. cbn [m_connection set_m_connection]. by rewrite Hconn2, Ht2. }
    rewrite bool_decide_eq_true_2 by done.
    destruct (DisconnectAndSetError_spec CLIENT_ERROR_CONNECTION_ERROR 0 c2')
      as (Hd & He & _ & Hl & Ht & _).
    split_and!; [done | done | by rewrite Hl | by rewrite Ht |].
    unfold DisconnectAndSetError, Disconnect, IsDisconnected.
    assert (m_state c2' ≠ CLIENT_STATE_DISCONNECTED) as Hlive.
    { subst c2'. cbn [m_state set_m_connection]. by rewrite Hs2. }
    rewrite bool_decide_eq_false_2 by done.
    assert (networkInterface c2' = networkInterface c ∧ m_address c2' = m_address c
            ∧ m_clientGuid c2' = m_clientGuid c ∧ m_serverGuid c2' = m_serverGuid c)
      as (Hni' & Ha' & Hcg' & Hsg') by done.
    clearbody c2'. cbn. unfold SendPacket. by rewrite Hni', Ha', Hcg', Hsg'. }
  assert (UpdateSendPackets c3 = c3) as ->.
  { unfold UpdateSendPackets. rewrite Hs3. done. }
  set (c4 := UpdateNetworkInterface c3).
  assert (m_state c4 = CLIENT_STATE_DISCONNECTED) as Hs4 by done.
  pose proof (receive_loop_disconnected (length (ni_queue (networkInterface c4))) c4 Hs4)
    as (Hs5 & Hni5 & Hl5 & _).
  pose proof (receive_loop_disconnected_error (length (ni_queue (networkInterface c4))) c4 Hs4)
    as He5.
  fold (UpdateReceivePackets c4) in Hs5, Hni5, Hl5, He5.
  set (c5 := UpdateReceivePackets c4) in *.
  assert (UpdateSendClientData c5 = c5) as ->.
  { unfold UpdateSendClientData. rewrite Hs5. done. }
  assert (UpdateTimeout c5 = c5) as ->.
  { unfold UpdateTimeout, IsDisconnected. by rewrite bool_decide_eq_true_2. }
  split_and!.
  - done.
  - destruct He5 as [-> | ->]; [left | by right]. done.
  - rewrite Hl5. done.
  - rewrite Hni5. unfold c4, UpdateNetworkInterface. cbn [networkInterface set_networkInterface].
    by rewrite Ht3, Hni3.
Qed.

(** *** The error that is never reported *)

Lemma unreported_refl c : unreported c c.
Proof. by left. Qed.

Lemma unreported_trans c1 c2 c3 : unreported c1 c2 → unreported c2 c3 → unreported c1 c3.
Proof.
  unfold unreported. intros [H1|H1] [H2|H2]; [left; congruence | by right | | by right].
  right. by rewrite H2.
Qed.

Lemma unreported_same c c' : m_error c' = m_error c → unreported c c'.
Proof. by left. Qed.

Lemma unreported_DisconnectAndSetError error extendedError c0 c :
  error ≠ CLIENT_ERROR_RESOLVE_HOSTNAME_TIMED_OUT →
  unreported c0 (DisconnectAndSetError error extendedError c).
Proof.
  intros Hne. right.
  by destruct (DisconnectAndSetError_spec error extendedError c) as (_ & -> & _).
Qed.

Lemma unreported_Connect_address address c0 c : unreported c0 (Connect_address address c).
Proof. right. by rewrite Connect_address_error. Qed.

Lemma unreported_receive_packet received c : unreported c (receive_packet received c).
Proof.
  unfold receive_packet.
  destruct (packet received) as [cg|cg sg|cg r|cg sg|cg sg|cg sg bs nf fi fb fd|cg sg fi
                                |payload|cg sg] eqn:Hp.
  - destruct (m_state c); apply unreported_refl.
  - destruct (m_state c); try apply unreported_refl.
    destruct (_ && _); by left.
  - destruct (m_state c); try apply unreported_refl.
    destruct (_ && _); [by apply unreported_DisconnectAndSetError | apply unreported_refl].
  - destruct (m_state c); apply unreported_refl.
  - destruct (m_state c); try apply unreported_refl.
    destruct (_ && _); [|apply unreported_refl]. by destruct (clientData _); left.
  - pose proof (ProcessDataBlockFragment_frame cg sg bs nf fi fb fd c) as Hf.
    cbn zeta in Hf. destruct Hf as (_ & _ & _ & [[_ He] | [_ He]]);
      destruct (m_state c); try apply unreported_refl;
      first [ by left | right; by rewrite He ].
  - destruct (ProcessDataBlockFragmentAck_frame cg sg fi c) as (_ & _ & _ & _ & He).
    destruct (m_state c); try apply unreported_refl; by left.
  - destruct (m_state c); try apply unreported_refl;
      destruct (bool_decide _); destruct (Connection_ReadPacket _ _) as [[] connection];
      by left.
  - unfold ProcessDisconnected.
    destruct (negb _); [apply unreported_refl |].
    do 2 (case_bool_decide; [apply unreported_refl |]).
    by apply unreported_DisconnectAndSetError.
Qed.

Lemma unreported_receive_loop n c : unreported c (UpdateReceivePackets_loop n c).
Proof.
  revert c. induction n as [|n IH]; intros c; [apply unreported_refl |].
  cbn [UpdateReceivePackets_loop].
  destruct (ReceivePacket (networkInterface c)) as [[received ni]|]; [|apply unreported_refl].
  eapply unreported_trans; [|apply IH].
  eapply unreported_trans; [|apply unreported_receive_packet]. by left.
Qed.

Lemma unreported_Update timeBase c : unreported c (Update timeBase c).
Proof.
  unfold Update.
  set (c1 := set_m_timeBase timeBase c).
  set (c2 := if PROTOCOL_USE_RESOLVER then UpdateResolver c1 else c1).
  assert (unreported c c2) as H2.
  { subst c2. destruct PROTOCOL_USE_RESOLVER; [|by left].
    unfold UpdateResolver. set (c1' := set_resolver _ c1).
    case_bool_decide; [by left |].
    destruct (_ ≫= _) as [entry|]; [|by apply unreported_DisconnectAndSetError].
    case_bool_decide; [by apply unreported_DisconnectAndSetError |].
    case_bool_decide; [apply unreported_Connect_address | by left]. }
  eapply unreported_trans; [exact H2 |].
  set (c3 := UpdateConnection c2).
  assert (unreported c2 c3) as H3.
  { subst c3. unfold UpdateConnection. case_bool_decide; [|by left].
    case_bool_decide; [by apply unreported_DisconnectAndSetError | by left]. }
  eapply unreported_trans; [exact H3 |].
  destruct (UpdateSendPackets_frame c3) as (_ & _ & _ & _ & He4).
  set (c4 := UpdateSendPackets c3) in *.
  eapply (unreported_trans _ (UpdateNetworkInterface c4)); [by left |].
  eapply unreported_trans; [apply unreported_receive_loop |].
  fold (UpdateReceivePackets (UpdateNetworkInterface c4)).
  set (c5 := UpdateReceivePackets _).
  destruct (UpdateSendClientData_frame c5) as (_ & _ & _ & He6 & _).
  eapply (unreported_trans _ (UpdateSendClientData c5)); [by left |].
  unfold UpdateTimeout. destruct (IsDisconnected _); [by left |].
  destruct (_ <? _)%float; [by apply unreported_DisconnectAndSetError | by left].
Qed.

(** X23. CLIENT_ERROR_RESOLVE_HOSTNAME_TIMED_OUT is never reported: no
    operation of the client sets it, so a client that does not hold it
    never will.  A lookup that outlasts [connectingTimeOut] is reported
    by [UpdateTimeout] as CONNECTION_TIMED_OUT, with the state
    RESOLVING_HOSTNAME (1) as extended error. *)
Theorem resolve_timeout_never_reported c :
  m_error c ≠ CLIENT_ERROR_RESOLVE_HOSTNAME_TIMED_OUT →
  (∀ address,
     m_error (Connect_address address c) ≠ CLIENT_ERROR_RESOLVE_HOSTNAME_TIMED_OUT)
  ∧ (∀ hostname,
       m_error (Connect_hostname hostname c) ≠ CLIENT_ERROR_RESOLVE_HOSTNAME_TIMED_OUT)
  ∧ m_error (Disconnect c) ≠ CLIENT_ERROR_RESOLVE_HOSTNAME_TIMED_OUT
  ∧ (∀ timeBase, m_error (Update timeBase c) ≠ CLIENT_ERROR_RESOLVE_HOSTNAME_TIMED_OUT)
  ∧ (m_state c = CLIENT_STATE_RESOLVING_HOSTNAME →
     (m_lastPacketReceiveTime c + connectingTimeOut (m_config c) <? time (m_timeBase c))%float
     = true →
     m_error (UpdateTimeout c) = CLIENT_ERROR_CONNECTION_TIMED_OUT
     ∧ m_extendedError (UpdateTimeout c) = 1).
Proof.
  intros Hc. split_and!.
  - intros address. by rewrite Connect_address_error.
  - intros hostname. unfold Connect_hostname.
    destruct (Address_IsValid _); [by rewrite Connect_address_error |].
    destruct PROTOCOL_USE_RESOLVER.
    + set (d := ClearError (Disconnect c)).
      case_bool_decide; cbn -[DisconnectAndSetError d]; [|done].
      by destruct (DisconnectAndSetError_spec CLIENT_ERROR_MISSING_RESOLVER 0 d)
        as (_ & -> & _).
    + by destruct (DisconnectAndSetError_spec CLIENT_ERROR_INVALID_CONNECT_ADDRESS 0
                     (ClearError (Disconnect c))) as (_ & -> & _).
  - by destruct (Disconnect_frame c) as (-> & _).
  - intros timeBase. destruct (unreported_Update timeBase c) as [-> | Hne]; done.
  - intros Hs Hexpired. unfold UpdateTimeout, IsDisconnected, IsConnected.
    rewrite Hs, bool_decide_eq_false_2, bool_decide_eq_false_2, Hexpired by done.
    by destruct (DisconnectAndSetError_spec CLIENT_ERROR_CONNECTION_TIMED_OUT
                   (ClientState_value CLIENT_STATE_RESOLVING_HOSTNAME) c) as (_ & -> & -> & _).
Qed.

(** *** The client data upload and the state predicates *)

(** X24. The client data upload.  In SENDING_CLIENT_DATA a fragment ack
    under the session's GUIDs, from whatever address, is handed to the
    data block sender and changes nothing else.  [UpdateSendClientData]
    then looks at the sender first: if the send is complete the client
    enters READY_FOR_CONNECTION, in the same tick as the ack that
    completed it, and the sender is not updated; if not, the sender is
    updated, what it sends goes out, and the state stays.  In any other
    state [UpdateSendClientData] does nothing. *)
Theorem client_data_upload c address fragmentId sender :
  m_state c = CLIENT_STATE_SENDING_CLIENT_DATA →
  m_dataBlockSender c = Some sender →
  let acked := Sender_ProcessAck fragmentId sender in
  let c1 := receive_packet
              (mkReceived address
                 (DataBlockFragmentAckPacket (m_clientGuid c) (m_serverGuid c) fragmentId))
              c in
  let c2 := UpdateSendClientData c1 in
  c1 = set_m_dataBlockSender (Some acked) c
  ∧ (if Sender_SendCompleted acked
     then c2 = set_m_state CLIENT_STATE_READY_FOR_CONNECTION c1
     else m_state c2 = CLIENT_STATE_SENDING_CLIENT_DATA
          ∧ m_dataBlockSender c2 = Some (Sender_Update (m_timeBase c) acked).1
          ∧ ni_sent (networkInterface c2) =
              ni_sent (networkInterface c) ++ (Sender_Update (m_timeBase c) acked).2)
  ∧ (∀ c0, m_state c0 ≠ CLIENT_STATE_SENDING_CLIENT_DATA → UpdateSendClientData c0 = c0).
Proof.
  intros Hs Hsender. cbn zeta.
  assert (receive_packet
            (mkReceived address
               (DataBlockFragmentAckPacket (m_clientGuid c) (m_serverGuid c) fragmentId)) c
          = set_m_dataBlockSender (Some (Sender_ProcessAck fragmentId sender)) c) as ->.
  { unfold receive_packet. cbn [packet]. rewrite Hs. unfold ProcessDataBlockFragmentAck.
    rewrite !bool_decide_eq_false_2 by (intros Hne; by apply Hne). by rewrite Hsender. }
  split_and!; [done | |].
  - set (c1 := set_m_dataBlockSender _ c).
    unfold UpdateSendClientData.
    assert (m_state c1 = CLIENT_STATE_SENDING_CLIENT_DATA) as Hs1 by done.
    rewrite bool_decide_eq_false_2 by (rewrite Hs1; intros Hne; by apply Hne).
    change (m_dataBlockSender c1) with (Some (Sender_ProcessAck fragmentId sender)).
    cbv beta iota.
    destruct (Sender_SendCompleted _); [done |].
    change (m_timeBase c1) with (m_timeBase c).
    destruct (Sender_Update _ _) as [sender' sent]. done.
  - intros c0 Hne. unfold UpdateSendClientData. by rewrite bool_decide_eq_true_2.
Qed.

(** X25. The state predicates.  In every state exactly one of
    [IsDisconnected], [IsConnecting] and [IsConnected] holds.  After
    [Connect( const Address & )] the client is connecting and has no
    error; after [Disconnect] it is disconnected; after
    [DisconnectAndSetError] it is disconnected and has an error exactly
    when the error passed is not NONE; [ClearError] leaves no error and
    does not touch the state. *)
Theorem state_predicates c :
  IsConnecting c = negb (IsDisconnected c) && negb (IsConnected c)
  ∧ IsDisconnected c && IsConnected c = false
  ∧ (∀ address,
       IsConnecting (Connect_address address c) = true
       ∧ HasError (Connect_address address c) = false)
  ∧ IsDisconnected (Disconnect c) = true
  ∧ (∀ error extendedError,
       IsDisconnected (DisconnectAndSetError error extendedError c) = true
       ∧ HasError (DisconnectAndSetError error extendedError c)
         = bool_decide (error ≠ CLIENT_ERROR_NONE))
  ∧ HasError (ClearError c) = false
  ∧ m_state (ClearError c) = m_state c.
Proof.
  unfold IsConnecting, IsDisconnected, IsConnected, HasError. split_and!.
  - by destruct (m_state c).
  - by destruct (m_state c).
  - intros address.
    destruct (Connect_address_frame address c) as (-> & -> & _). done.
  - by rewrite Disconnect_state.
  - intros error extendedError.
    destruct (DisconnectAndSetError_spec error extendedError c) as (-> & -> & _). done.
  - done.
  - done.
Qed.
End Facts.

End ClientMore.

(* ================================================================== *)
(** * Part III: the statements at sample inputs                        *)
(* ================================================================== *)

Module LockstepSamples.
Import Stream Lockstep Wire Playout Ack LockstepExample.

(** The round trip of a packet of three inputs. *)
Lemma input_packet_roundtrip_sample :
  (0 ≤ sequence (input_packet 3 3) < 2 ^ 16 ∧ 0 ≤ num_inputs (input_packet 3 3) ≤ MaxInputs)
  ∧ ∃ w q,
      SerializeWrite (WriteStream_new MaxPacketSize) (InputPacket (input_packet 3 3)) = Some w
      ∧ w_bits w = packet_bits (input_packet 3 3)
      ∧ SerializeRead (ReadStream_new (WriteStream_buffer [] w) MaxPacketSize)
                      (InputPacket LockstepInputPacket_new) = Some (InputPacket q)
      ∧ sequence q = 3
      ∧ num_inputs q = 3
      ∧ ∀ i, 0 ≤ i < 3 →
             inputs q !!! Z.to_nat i = inputs (input_packet 3 3) !!! Z.to_nat i.
Proof.
  assert (Hs : 0 ≤ sequence (input_packet 3 3) < 2 ^ 16) by (cbn; lia).
  assert (Hn : 0 ≤ num_inputs (input_packet 3 3) ≤ MaxInputs) by (unfold MaxInputs; cbn; lia).
  split; [done |].
  exact (RoundTrip.input_packet_roundtrip (input_packet 3 3) [] Hs Hn).
Defined.

(** Overlapping and stale batches leave the numbers 0, 1, 2, 3. *)
Lemma playout_sequence_contiguous_sample :
  Forall (well_labelled (λ x : Z, x)) calls
  ∧ let '(b, emitted) := run 4 calls LockstepPlayoutDelayBuffer_new [] in
    let numbers := (λ x : Z, x) <$> (emitted ++ input_queue b) in
    numbers = sequence_numbers 4 ∧ most_recent_input b = uint16_t 4 ∧ NoDup numbers.
Proof.
  assert (Hw : Forall (well_labelled (λ x : Z, x)) calls).
  { unfold calls. repeat apply Forall_cons_2; try apply Forall_nil_2; try done;
      intros [|[|[|i]]] Hi; try reflexivity; exfalso; cbn in Hi; lia. }
  split; [done |].
  pose proof (PlayoutFacts.playout_sequence_contiguous (λ x : Z, x) 4 calls Hw) as Hthm.
  destruct (run 4 calls LockstepPlayoutDelayBuffer_new []) as [b emitted] eqn:Hrun.
  destruct Hthm as (_ & Hnumbers & Hnext & _ & Hnodup). cbn zeta.
  assert (length ((λ x : Z, x) <$> (emitted ++ input_queue b)) = 4%nat) as Hlen.
  { vm_compute in Hrun. injection Hrun as <- <-. reflexivity. }
  rewrite Hlen in *. split_and!; [exact Hnumbers | exact Hnext | apply Hnodup; lia].
Defined.

(** Two input packets, sequence 3 then 2: one ack, for 2, is sent, and no
    candidate is greater than 2. *)
Lemma receiver_ack_sample :
  (Forall valid_packet (sim_queue (network_simulator (receiver false)))
   ∧ within_window 1 [2; 1])
  ∧ ∃ l' num_frames frame_input,
      Update_receive 4 0%float [] (receiver false) = Some (l', num_frames, frame_input)
      ∧ sim_sent (network_simulator l') = [(LeftPort, AckPacket (mkLockstepAckPacket 2))]
      ∧ retained_ack [2; 1] ∈ [2; 1]
      ∧ ∀ c, c ∈ [2; 1] → sequence_greater_than c (retained_ack [2; 1]) = false.
Proof.
  assert (Hv : Forall valid_packet (sim_queue (network_simulator (receiver false)))).
  { repeat apply Forall_cons_2; try apply Forall_nil_2;
      unfold valid_packet, MaxInputs; cbn; lia. }
  assert (Hw : within_window 1 [2; 1]).
  { repeat apply Forall_cons_2; try apply Forall_nil_2; reflexivity. }
  split; [done |].
  destruct (AckFacts.receiver_ack 4 0%float [] (receiver false) Hv)
    as (l' & num_frames & frame_input & Hrun & Hsent & _ & Hmax).
  exists l', num_frames, frame_input. split; [done |]. split; [rewrite Hsent; reflexivity |].
  apply (Hmax 1); [discriminate | exact Hw].
Defined.

(** At time 0.28125 a buffer started at 0 plays frames 0 and 1, whose
    play times are 0.258 and 0.275, and keeps frame 2, due at 0.292. *)
Lemma GetFrames_frames_sample :
  GetFrames 4 0.28125%float buffer
  = (mkLockstepPlayoutDelayBuffer false 0%float 3 2 [2], 2, [0; 1])
  ∧ let '(b', num_frames, frame_input) := GetFrames 4 0.28125%float buffer in
    num_frames = Z.of_nat (length frame_input)
    ∧ num_frames ≤ 4
    ∧ input_queue buffer = frame_input ++ input_queue b'
    ∧ (0.28125 <? frame_time b')%float = true.
Proof.
  split; [reflexivity |].
  pose proof (PlayoutFacts.GetFrames_frames 4 0.28125%float buffer) as Hthm.
  destruct (GetFrames 4 0.28125%float buffer) as [[b' num_frames] frame_input] eqn:Hget.
  vm_compute in Hget. injection Hget as <- <- <-.
  destruct Hthm as (Hn & Hmax & Hqueue & _ & _ & _ & _ & _ & Hstop).
  split_and!; [exact Hn | exact Hmax | exact Hqueue |].
  destruct Hstop as [Hstopped | [Hempty | Hdue]]; [lia | | | exact Hdue].
  - discriminate Hstopped.
  - discriminate Hempty.
Defined.

End LockstepSamples.

Module ClientSamples.
Import Client ClientExample.

(** C1 as the specification states it fails: the channel rejects the
    packet, and the client is CONNECTED all the same. *)
Lemma ready_connection_packet_rejected :
  ¬ (m_state (receive_packet (from 1 (connection_packet false)) ready)
       = CLIENT_STATE_CONNECTED
     ↔ (Connection_ReadPacket (false : ConnectionPacket) (m_connection ready)).1 = true).
Proof. intros [Hread _]. specialize (Hread eq_refl). discriminate Hread. Qed.

Lemma ready_connection_packet_sample :
  (m_state ready = CLIENT_STATE_READY_FOR_CONNECTION
   ∧ packet (from 1 (connection_packet true)) = Connection_Packet (true : ConnectionPacket))
  ∧ m_state (receive_packet (from 1 (connection_packet true)) ready)
    = CLIENT_STATE_CONNECTED
  ∧ m_lastPacketReceiveTime (receive_packet (from 1 (connection_packet true)) ready)
    = 3%float.
Proof.
  split; [done |].
  destruct (ClientFacts.ready_connection_packet ready
              (from 1 (connection_packet true)) true eq_refl eq_refl)
    as (Hs & _ & Hl).
  split; [exact Hs | exact Hl].
Defined.

(** C2 at a packet a stranger can send: the server is at address 1, the
    packets come from address 2.  A Connection packet connects the
    client, and a fragment under the session's GUIDs that the receiver
    cannot take ends the session. *)
Lemma packets_from_stranger_accepted_sample :
  (Address_eq 2 (m_address ready) = false
   ∧ Address_eq 2 (m_address receiving_fragments) = false)
  ∧ m_state (receive_packet (from 2 (connection_packet true)) ready) = CLIENT_STATE_CONNECTED
  ∧ receive_packet (from 2 (connection_packet true)) ready ≠ ready
  ∧ m_state (receive_packet (from 2 (DataBlockFragmentPacket 7 9 200 1 0 10 []))
               receiving_fragments) = CLIENT_STATE_DISCONNECTED
  ∧ m_error (receive_packet (from 2 (DataBlockFragmentPacket 7 9 200 1 0 10 []))
               receiving_fragments) = CLIENT_ERROR_DATA_BLOCK_ERROR.
Proof.
  assert (Ha : Address_eq 2 (m_address ready) = false) by done.
  assert (Hb : Address_eq 2 (m_address receiving_fragments) = false) by done.
  split; [done |].
  destruct (ClientFacts.packets_from_stranger_accepted ready 2 Ha) as (Hconnection & _).
  destruct (Hconnection true (or_introl eq_refl)) as (Hs & _).
  destruct (ClientFacts.packets_from_stranger_accepted receiving_fragments 2 Hb)
    as (_ & Hfragment & _).
  pose proof (Hfragment 200 1 0 10 [] false eq_refl eq_refl) as (Hd & He).
  split_and!; [exact Hs | | exact Hd | exact He].
  intros Heq.
  pose proof (eq_trans (eq_sym Hs) (f_equal m_state Heq)) as Hstate. discriminate Hstate.
Defined.

(** C4 as the specification states it fails: a DISCONNECTED client whose
    last packet is long past is not timed out. *)
Lemma disconnected_client_not_timed_out :
  (m_lastPacketReceiveTime idle + connectingTimeOut (m_config idle)
     <? time (m_timeBase idle))%float = true
  ∧ UpdateTimeout idle = idle
  ∧ m_error (UpdateTimeout idle) ≠ CLIENT_ERROR_CONNECTION_TIMED_OUT.
Proof. split_and!; [reflexivity | reflexivity | discriminate]. Qed.

Lemma UpdateTimeout_sample :
  (m_state requesting ≠ CLIENT_STATE_DISCONNECTED
   ∧ (m_lastPacketReceiveTime requesting + connectingTimeOut (m_config requesting)
        <? time (m_timeBase requesting))%float = true)
  ∧ m_state (UpdateTimeout requesting) = CLIENT_STATE_DISCONNECTED
  ∧ m_error (UpdateTimeout requesting) = CLIENT_ERROR_CONNECTION_TIMED_OUT
  ∧ m_extendedError (UpdateTimeout requesting) = 2.
Proof.
  assert (Hs : m_state requesting ≠ CLIENT_STATE_DISCONNECTED) by done.
  split; [by split |].
  destruct (ClientFacts.UpdateTimeout_spec requesting) as (Hexp & _).
  destruct (Hexp Hs eq_refl) as (_ & H1 & H2 & H3). done.
Defined.

Lemma Disconnect_sample :
  m_state connected ≠ CLIENT_STATE_DISCONNECTED
  ∧ ni_sent (networkInterface (Disconnect connected)) = [(1, DisconnectedPacket 7 9)]
  ∧ m_state (Disconnect connected) = CLIENT_STATE_DISCONNECTED
  ∧ m_error (Disconnect connected) = m_error connected.
Proof.
  assert (Hs : m_state connected ≠ CLIENT_STATE_DISCONNECTED) by done.
  split; [done |].
  destruct (proj2 (ClientFacts.Disconnect_spec connected) Hs)
    as (Hni & _ & _ & _ & _ & _ & _ & _ & Hstate & Herror & _).
  rewrite Hni. done.
Defined.

Lemma data_blocks_do_not_refresh_timeout_sample :
  (exchanging (m_state receiving_fragments)
   ∧ Forall (λ received, is_data_block (packet received) = true)
            (ni_queue (networkInterface (before_receive six_seconds receiving_fragments)))
   ∧ (m_lastPacketReceiveTime receiving_fragments
        + connectingTimeOut (m_config receiving_fragments) <? time six_seconds)%float = true)
  ∧ m_state (Update six_seconds receiving_fragments) = CLIENT_STATE_DISCONNECTED
  ∧ m_error (Update six_seconds receiving_fragments) = CLIENT_ERROR_CONNECTION_TIMED_OUT.
Proof.
  assert (He : exchanging (m_state receiving_fragments)) by (by left).
  assert (Hq : Forall (λ received, is_data_block (packet received) = true)
                 (ni_queue (networkInterface
                              (before_receive six_seconds receiving_fragments))))
    by (by repeat constructor).
  split; [by split_and! |].
  destruct (ClientFacts.data_blocks_do_not_refresh_timeout) as (_ & _ & Htimeout).
  destruct (Htimeout six_seconds receiving_fragments He Hq eq_refl)
    as (Hstate & _ & [[_ Herror] | [Herror _]]).
  - done.
  - discriminate Herror.
Defined.

(** C3: the resolver is compiled in, none is configured, and the host
    name is not an address.  [Connect] latches MISSING_RESOLVER and goes
    on to RESOLVING_HOSTNAME. *)
Lemma connect_hostname_without_resolver :
  PROTOCOL_USE_RESOLVER = true
  ∧ resolver idle = None
  ∧ Address_IsValid (Address_parse "server.example") = false
  ∧ m_error (Connect_hostname "server.example" idle) = CLIENT_ERROR_MISSING_RESOLVER
  ∧ m_state (Connect_hostname "server.example" idle) = CLIENT_STATE_RESOLVING_HOSTNAME.
Proof. split_and!; reflexivity. Qed.


(** A client that was never connected stays as it is. *)
Lemma disconnected_client_is_quiet_sample :
  m_state idle = CLIENT_STATE_DISCONNECTED
  ∧ m_state (Update six_seconds idle) = CLIENT_STATE_DISCONNECTED
  ∧ ni_sent (networkInterface (Update six_seconds idle)) = [].
Proof.
  assert (Hs : m_state idle = CLIENT_STATE_DISCONNECTED) by done.
  split; [done |].
  destruct (ClientFacts.disconnected_client_is_quiet six_seconds idle Hs) as (Hs' & Hni & _).
  split; [exact Hs' | exact Hni].
Defined.

(** A challenge from the server answers the connection request. *)
Lemma handshake_transitions_sample :
  (Address_eq 1 (m_address requesting) = true
   ∧ m_state requesting = CLIENT_STATE_SENDING_CONNECTION_REQUEST)
  ∧ m_state (receive_packet (from 1 (ConnectionChallengePacket 7 11)) requesting)
    = CLIENT_STATE_SENDING_CHALLENGE_RESPONSE
  ∧ m_serverGuid (receive_packet (from 1 (ConnectionChallengePacket 7 11)) requesting) = 11.
Proof.
  assert (Ha : Address_eq 1 (m_address requesting) = true) by done.
  assert (Hs : m_state requesting = CLIENT_STATE_SENDING_CONNECTION_REQUEST) by done.
  split; [done |].
  destruct (ClientFacts.handshake_transitions requesting 1 Ha) as (Hchallenge & _).
  destruct (Hchallenge 11 Hs) as (H1 & H2 & _). split; [exact H1 | exact H2].
Defined.

End ClientSamples.

Module LockstepMoreSamples.
Import Stream Lockstep Wire Playout Ack LockstepExample.

(** A buffer waiting for input 3 is given the inputs 2, 3, 4: it takes
    3 and 4. *)
Lemma AddInputs_closed_form_sample :
  0 ≤ most_recent_input buffer < 2 ^ 16
  ∧ expected_index buffer 5 3 = 1
  ∧ input_queue (AddInputs 1%float 5 3 [2; 3; 4] buffer) = [0; 1; 2; 3; 4]
  ∧ most_recent_input (AddInputs 1%float 5 3 [2; 3; 4] buffer) = 5.
Proof.
  assert (Hr : 0 ≤ most_recent_input buffer < 2 ^ 16) by (cbn; lia).
  split; [exact Hr |]. split; [reflexivity |].
  destruct (PlayoutMore.AddInputs_closed_form 1%float 5 3 [2; 3; 4] buffer Hr)
    as (_ & _ & _ & _ & Hqueue & Hin & _).
  split; [rewrite Hqueue; reflexivity |].
  destruct Hin as [Hrecent _]; [reflexivity |]. rewrite Hrecent. reflexivity.
Defined.

(** The same batch once more, a second later. *)
Lemma AddInputs_idempotent_sample :
  (0 ≤ most_recent_input buffer < 2 ^ 16 ∧ 3 < 2 ^ 16)
  ∧ AddInputs 2%float 5 3 [2; 3; 4] (AddInputs 1%float 5 3 [2; 3; 4] buffer)
    = AddInputs 1%float 5 3 [2; 3; 4] buffer.
Proof.
  assert (Hr : 0 ≤ most_recent_input buffer < 2 ^ 16) by (cbn; lia).
  assert (Hn : 3 < 2 ^ 16) by lia.
  split; [done |].
  exact (PlayoutMore.AddInputs_idempotent 1%float 2%float 5 3 [2; 3; 4] buffer Hr Hn).
Defined.

(** Three inputs of which the third differs from the second. *)
Lemma input_packet_size_sample :
  valid_input_packet (input_packet 3 3)
  ∧ ∃ w, SerializeWrite (WriteStream_new MaxPacketSize) (InputPacket (input_packet 3 3))
         = Some w
         ∧ 33 ≤ Z.of_nat (length (w_bits w)) ≤ 45.
Proof.
  assert (Hv : valid_input_packet (input_packet 3 3)).
  { unfold valid_input_packet, MaxInputs. cbn. lia. }
  split; [exact Hv |].
  destruct (ReceiverMore.input_packet_size (input_packet 3 3) Hv)
    as (w & Hwrite & _ & _ & Hbounds & _).
  exists w. split; [exact Hwrite |]. apply Hbounds. cbn. lia.
Defined.

Lemma reserialize_preserves_sample :
  valid_packet (RightPort, InputPacket (input_packet 3 3))
  ∧ Create 2 = None
  ∧ ∃ read_packet buffer',
      reserialize [] (InputPacket (input_packet 3 3)) = Some (read_packet, buffer')
      ∧ GetType read_packet = LOCKSTEP_PACKET_INPUT.
Proof.
  assert (Hv : valid_packet (RightPort, InputPacket (input_packet 3 3))).
  { unfold valid_packet, MaxInputs. cbn. lia. }
  split; [exact Hv |].
  destruct (ReceiverMore.reserialize_preserves [] _ Hv)
    as (Hnone & _ & read_packet & buffer' & Hrt & Htype & _).
  split; [apply Hnone; unfold LOCKSTEP_NUM_PACKETS; lia |].
  exists read_packet, buffer'. split; [exact Hrt | exact Htype].
Defined.

(** The receiver of the ack sample: the first packet fills the buffer,
    the second is stale, and at time 0 no frame is due. *)
Lemma Update_receive_feeds_sample :
  Forall valid_packet (sim_queue (network_simulator (receiver false)))
  ∧ ∃ l' num_frames frame_input,
      Update_receive 4 0%float [] (receiver false) = Some (l', num_frames, frame_input)
      ∧ input_queue (playout_delay_buffer l') = [pressed; pressed; game.Input_default]
      ∧ most_recent_input (playout_delay_buffer l') = 3
      ∧ num_frames = 0.
Proof.
  assert (Hv : Forall valid_packet (sim_queue (network_simulator (receiver false)))).
  { repeat apply Forall_cons_2; try apply Forall_nil_2;
      unfold valid_packet, MaxInputs; cbn; lia. }
  split; [exact Hv |].
  destruct (ReceiverMore.Update_receive_feeds 4 0%float [] (receiver false) Hv)
    as (l' & num_frames & frame_input & Hrun & Hget & _).
  exists l', num_frames, frame_input. split; [exact Hrun |].
  set (result := GetFrames 4 0%float _) in Hget. vm_compute in result. subst result.
  injection Hget as Hbuffer Hframes _. rewrite Hbuffer, Hframes. split_and!; reflexivity.
Defined.

End LockstepMoreSamples.

Module ClientMoreSamples.
Import Client ClientExample.

(** A client with a resolver.  The lookup of "server.example" has
    succeeded: the client connects to address 5.  That of
    "portless.example" gives an address without a port: the default port
    is put in.  "slow.example" is still pending: nothing happens.  For
    "gone.example" the lookup failed and for "nowhere.example" the
    resolver has no entry: the client ends DISCONNECTED with
    RESOLVE_HOSTNAME_FAILED. *)
Lemma UpdateResolver_sample :
  let update := @UpdateResolver types ResolverExample.collaborators in
  let resolving := ResolverExample.resolving in
  (∀ hostname, m_state (resolving hostname) = CLIENT_STATE_RESOLVING_HOSTNAME
               ∧ resolver (resolving hostname) = Some tt)
  ∧ (m_state (update (resolving "server.example")) = CLIENT_STATE_SENDING_CONNECTION_REQUEST
     ∧ m_address (update (resolving "server.example")) = 5)
  ∧ m_address (update (resolving "portless.example")) = defaultServerPort config
  ∧ update (resolving "slow.example") = resolving "slow.example"
  ∧ (m_state (update (resolving "gone.example")) = CLIENT_STATE_DISCONNECTED
     ∧ m_error (update (resolving "gone.example")) = CLIENT_ERROR_RESOLVE_HOSTNAME_FAILED)
  ∧ (m_state (update (resolving "nowhere.example")) = CLIENT_STATE_DISCONNECTED
     ∧ m_error (update (resolving "nowhere.example")) = CLIENT_ERROR_RESOLVE_HOSTNAME_FAILED).
Proof.
  cbn zeta.
  pose proof (λ hostname,
              @ClientMore.UpdateResolver_spec types ResolverExample.collaborators
                (ResolverExample.resolving hostname) tt eq_refl eq_refl) as Hspec.
  split; [intros hostname; split; reflexivity |].
  split_and!.
  - destruct (Hspec "server.example") as (_ & _ & _ & Hfound).
    by destruct (Hfound (ResolverExample.found 5) eq_refl eq_refl) as (Hs & _).
  - destruct (Hspec "server.example") as (_ & _ & _ & Hfound).
    by destruct (Hfound (ResolverExample.found 5) eq_refl eq_refl)
      as (_ & _ & Ha & _).
  - destruct (Hspec "portless.example") as (_ & _ & _ & Hfound).
    by destruct (Hfound (ResolverExample.found 0) eq_refl eq_refl)
      as (_ & _ & Ha & _).
  - destruct (Hspec "slow.example") as (_ & Hpending & _). exact (Hpending eq_refl).
  - destruct (Hspec "gone.example") as (_ & _ & Hfailed & _).
    by destruct (Hfailed (or_intror eq_refl)) as (Hs & _).
  - destruct (Hspec "gone.example") as (_ & _ & Hfailed & _).
    by destruct (Hfailed (or_intror eq_refl)) as (_ & He & _).
  - destruct (Hspec "nowhere.example") as (_ & _ & Hfailed & _).
    by destruct (Hfailed (or_introl eq_refl)) as (Hs & _).
  - destruct (Hspec "nowhere.example") as (_ & _ & Hfailed & _).
    by destruct (Hfailed (or_introl eq_refl)) as (_ & He & _).
Defined.

(** The server at address 1 ends the session of a connected client. *)
Lemma disconnected_packet_sample :
  Address_eq 1 (m_address connected) = true
  ∧ m_state (receive_packet (from 1 (DisconnectedPacket 7 9)) connected)
    = CLIENT_STATE_DISCONNECTED
  ∧ m_error (receive_packet (from 1 (DisconnectedPacket 7 9)) connected)
    = CLIENT_ERROR_DISCONNECTED_FROM_SERVER.
Proof.
  assert (Ha : Address_eq 1 (m_address connected) = true) by done.
  split; [exact Ha |].
  destruct (ClientMore.disconnected_packet_spec connected 1 Ha) as (_ & Hs & He & _).
  split; [exact Hs | exact He].
Defined.

(** A challenge that arrives after the handshake is ignored. *)
Lemma unhandled_packets_dropped_sample :
  handled (m_state ready) (packet (from 1 (ConnectionChallengePacket 7 9))) = false
  ∧ receive_packet (from 1 (ConnectionChallengePacket 7 9)) ready = ready.
Proof.
  split; [reflexivity |].
  exact (ClientMore.unhandled_packets_dropped ready (from 1 (ConnectionChallengePacket 7 9))
           eq_refl).
Defined.

(** A fragment of a block of 200 bytes makes the loopback receiver
    fail. *)
Lemma data_block_fragment_sample :
  handled (m_state (client CLIENT_STATE_SENDING_CHALLENGE_RESPONSE 0%float []))
          (DataBlockFragmentPacket 7 9 200 1 0 10 []) = true
  ∧ m_state (receive_packet (from 1 (DataBlockFragmentPacket 7 9 200 1 0 10 []))
               (client CLIENT_STATE_SENDING_CHALLENGE_RESPONSE 0%float []))
    = CLIENT_STATE_DISCONNECTED
  ∧ m_error (receive_packet (from 1 (DataBlockFragmentPacket 7 9 200 1 0 10 []))
               (client CLIENT_STATE_SENDING_CHALLENGE_RESPONSE 0%float []))
    = CLIENT_ERROR_DATA_BLOCK_ERROR.
Proof.
  split; [reflexivity |].
  pose proof (ClientMore.data_block_fragment_spec
                (client CLIENT_STATE_SENDING_CHALLENGE_RESPONSE 0%float [])
                1 200 1 0 10 [] eq_refl) as (Hs & He & _).
  split; [exact Hs | exact He].
Defined.

(** Challenge, ready and connection packet found in one tick. *)
Lemma handshake_in_one_drain_sample :
  let c := client CLIENT_STATE_SENDING_CONNECTION_REQUEST 3%float
             [from 1 (ConnectionChallengePacket 7 11);
              from 1 (ReadyForConnectionPacket 7 11);
              from 1 (connection_packet true)] in
  (m_state c = CLIENT_STATE_SENDING_CONNECTION_REQUEST ∧ Address_eq 1 (m_address c) = true)
  ∧ m_state (UpdateReceivePackets c) = CLIENT_STATE_CONNECTED
  ∧ m_serverGuid (UpdateReceivePackets c) = 11.
Proof.
  cbn zeta.
  set (c := client CLIENT_STATE_SENDING_CONNECTION_REQUEST 3%float _).
  assert (Ha : Address_eq 1 (m_address c) = true) by done.
  split; [split; [reflexivity | exact Ha] |].
  destruct (ClientMore.handshake_in_one_drain c 1 11 true eq_refl Ha eq_refl)
    as (Hs & _ & Hg & _).
  split; [exact Hs | exact Hg].
Defined.

(** A connected client over the channel that breaks. *)
Lemma connection_error_disconnects_sample :
  (m_state connected = CLIENT_STATE_CONNECTED
   ∧ @Connection_GetError types BrokenChannelExample.collaborators
       (@Connection_Update types BrokenChannelExample.collaborators six_seconds
          (m_connection connected)) ≠ CONNECTION_ERROR_NONE)
  ∧ m_state (@Update types BrokenChannelExample.collaborators six_seconds connected)
    = CLIENT_STATE_DISCONNECTED
  ∧ m_error (@Update types BrokenChannelExample.collaborators six_seconds connected)
    = CLIENT_ERROR_CONNECTION_ERROR.
Proof.
  assert (He : @Connection_GetError types BrokenChannelExample.collaborators
                 (@Connection_Update types BrokenChannelExample.collaborators six_seconds
                    (m_connection connected)) ≠ CONNECTION_ERROR_NONE) by discriminate.
  split; [split; [reflexivity | exact He] |].
  destruct (@ClientMore.connection_error_disconnects types BrokenChannelExample.collaborators
              six_seconds connected eq_refl He) as (Hs & _ & _).
  split; [exact Hs | reflexivity].
Defined.

(** An idle client keeps clear of the error through an update. *)
Lemma resolve_timeout_never_reported_sample :
  m_error idle ≠ CLIENT_ERROR_RESOLVE_HOSTNAME_TIMED_OUT
  ∧ m_error (Update six_seconds idle) ≠ CLIENT_ERROR_RESOLVE_HOSTNAME_TIMED_OUT
  ∧ m_error (Connect_hostname "server.example" idle)
    ≠ CLIENT_ERROR_RESOLVE_HOSTNAME_TIMED_OUT.
Proof.
  assert (Hc : m_error idle ≠ CLIENT_ERROR_RESOLVE_HOSTNAME_TIMED_OUT) by discriminate.
  split; [exact Hc |].
  destruct (ClientMore.resolve_timeout_never_reported idle Hc) as (_ & Hh & _ & Hu & _).
  split; [apply Hu | apply Hh].
Defined.

(** The loopback sender is complete once it has seen an ack. *)
Lemma client_data_upload_sample :
  (m_state uploading = CLIENT_STATE_SENDING_CLIENT_DATA
   ∧ m_dataBlockSender uploading = Some (false : ClientServerDataBlockSender))
  ∧ m_state (UpdateSendClientData
               (receive_packet (from 1 (DataBlockFragmentAckPacket 7 9 0)) uploading))
    = CLIENT_STATE_READY_FOR_CONNECTION.
Proof.
  split; [split; reflexivity |].
  destruct (ClientMore.client_data_upload uploading 1 0 false eq_refl eq_refl)
    as (_ & Hdone & _).
  pose proof (Hdone : UpdateSendClientData _ = set_m_state _ _) as Hready.
  exact (f_equal m_state Hready).
Defined.

End ClientMoreSamples.
